(** * PBFT consensus round engine of [scripts/pbft-runner.js]

    A shallow embedding of the classes [PBFTValidator] and [PBFTConsensus]
    and of the part of the module-level [measurements] accumulator that the
    consensus class writes to, followed by the properties of the round state
    machine, the quorum arithmetic, the fault model and the view change.
    Of the functions around the classes, the start of the driver
    [runPBFTConsensus] (the choice of the accounts and the construction of
    the consensus object) and the part of [generatePBFTReport] that is
    computed from these logs are embedded too; the transactions of the
    driver go through the contract and their receipts, the resource usage is
    floating-point and [saveMeasurements] writes files: they are left out.

    Modelling conventions.
    - JavaScript numbers that hold counters, views, heights and millisecond
      durations are integers of [Z] (all of them stay far below 2^53).
    - [Math.random()] is a stream [random : nat -> Q] of draws; the world
      records how many draws were consumed.  The contract of [Math.random]
      (a value in [0, 1)) is the predicate [random_in_range].
    - [Date.now()] reads the wall clock, the field [now] of the world.  The
      clock advances while the script waits: [await sleep(ms)] resumes when
      its timer fires, which is [ms] plus the lateness of that timer after
      the wait began.  The lateness of the timers is not fixed by the
      script: the world carries it as [lateness], one integer per timer of
      the run, about which nothing is assumed; [timers] counts the timers
      that have fired.  A measured duration is therefore the declared delay
      plus the lateness of the timers it spans.  Time is taken to pass only
      while the script waits: the statements between two waits read one and
      the same clock value, and the time they take shows as lateness of the
      next timer.
    - The constants at the top of the script are the fields of [Config];
      [default_config] holds the values written in the script.
    - Validator objects live in the array [this.validators]; a method call on
      the validator in slot [i] rewrites slot [i].  The slots hold distinct
      objects (one [new PBFTValidator] per account), so the reference test
      [validator === this.getPrimary()] is the test on slot indices.
    - [console.log] and [console.error] produce no state; the property reads
      inside their template strings are kept where they can throw. *)

From Stdlib Require Import ZArith QArith Qround Lia.
From stdpp Require Import base option list strings pretty.

Close Scope Q_scope.
Local Open Scope Z_scope.

(** ** Constants of the script *)

Inductive FailureType := crash | malicious | delayed.

Definition FailureType_eqb (a b : FailureType) : bool :=
  match a, b with
  | crash, crash | malicious, malicious | delayed, delayed => true
  | _, _ => false
  end.

Definition failureTypeName (t : FailureType) : string :=
  match t with
  | crash => "crash"
  | malicious => "malicious"
  | delayed => "delayed"
  end.

Definition BYZANTINE_FAILURE_TYPES : list FailureType :=
  [crash; malicious; delayed].

Record Config := {
  PRE_PREPARE_PHASE_TIME : Z;
  PREPARE_PHASE_TIME : Z;
  COMMIT_PHASE_TIME : Z;
  VIEW_CHANGE_TIMEOUT : Z;
  BYZANTINE_VALIDATOR_COUNT : nat;
  BYZANTINE_FAILURE_PROBABILITY : Q
}.

Definition default_config : Config := {|
  PRE_PREPARE_PHASE_TIME := 200;
  PREPARE_PHASE_TIME := 300;
  COMMIT_PHASE_TIME := 300;
  VIEW_CHANGE_TIMEOUT := 2000;
  BYZANTINE_VALIDATOR_COUNT := 1;
  BYZANTINE_FAILURE_PROBABILITY := (3 # 10)%Q
|}.

(** [a < b] on JavaScript numbers that are rationals. *)
Definition Qltb (a b : Q) : bool := negb (Qle_bool b a).

(** ** JavaScript object literals *)

#[warnings="-register-all"]
Inductive JSValue :=
| JSUndefined
| JSNull
| JSBool (b : bool)
| JSNum (n : Z)
| JSStr (s : string)
| JSObj (props : list (string * JSValue)).

Definition JSObject := list (string * JSValue).

(** Property read [o.k]; a missing property reads as [undefined]. *)
Fixpoint getProp (k : string) (o : JSObject) : JSValue :=
  match o with
  | [] => JSUndefined
  | (k', v) :: o' => if String.eqb k k' then v else getProp k o'
  end.

Definition ownKeys (o : JSObject) : list string := map fst o.

(** ** class PBFTValidator *)

Record Account := { acc_address : string }.

Record PBFTValidator := {
  account : Account;
  address : string;
  index : Z;
  isByzantine : bool;
  byzantineType : option FailureType;
  preparesSent : Z;
  preparesReceived : Z;
  commitsSent : Z;
  commitsReceived : Z;
  blocksProposed : Z;
  viewChangesSent : Z;
  viewChangesReceived : Z;
  failures : Z;
  lastActive : Z
}.

Definition set_preparesSent (x : Z) (v : PBFTValidator) : PBFTValidator :=
  {| account := account v; address := address v; index := index v;
     isByzantine := isByzantine v; byzantineType := byzantineType v;
     preparesSent := x; preparesReceived := preparesReceived v;
     commitsSent := commitsSent v; commitsReceived := commitsReceived v;
     blocksProposed := blocksProposed v; viewChangesSent := viewChangesSent v;
     viewChangesReceived := viewChangesReceived v; failures := failures v;
     lastActive := lastActive v |}.

Definition set_preparesReceived (x : Z) (v : PBFTValidator) : PBFTValidator :=
  {| account := account v; address := address v; index := index v;
     isByzantine := isByzantine v; byzantineType := byzantineType v;
     preparesSent := preparesSent v; preparesReceived := x;
     commitsSent := commitsSent v; commitsReceived := commitsReceived v;
     blocksProposed := blocksProposed v; viewChangesSent := viewChangesSent v;
     viewChangesReceived := viewChangesReceived v; failures := failures v;
     lastActive := lastActive v |}.

Definition set_commitsSent (x : Z) (v : PBFTValidator) : PBFTValidator :=
  {| account := account v; address := address v; index := index v;
     isByzantine := isByzantine v; byzantineType := byzantineType v;
     preparesSent := preparesSent v; preparesReceived := preparesReceived v;
     commitsSent := x; commitsReceived := commitsReceived v;
     blocksProposed := blocksProposed v; viewChangesSent := viewChangesSent v;
     viewChangesReceived := viewChangesReceived v; failures := failures v;
     lastActive := lastActive v |}.

Definition set_commitsReceived (x : Z) (v : PBFTValidator) : PBFTValidator :=
  {| account := account v; address := address v; index := index v;
     isByzantine := isByzantine v; byzantineType := byzantineType v;
     preparesSent := preparesSent v; preparesReceived := preparesReceived v;
     commitsSent := commitsSent v; commitsReceived := x;
     blocksProposed := blocksProposed v; viewChangesSent := viewChangesSent v;
     viewChangesReceived := viewChangesReceived v; failures := failures v;
     lastActive := lastActive v |}.

Definition set_blocksProposed (x : Z) (v : PBFTValidator) : PBFTValidator :=
  {| account := account v; address := address v; index := index v;
     isByzantine := isByzantine v; byzantineType := byzantineType v;
     preparesSent := preparesSent v; preparesReceived := preparesReceived v;
     commitsSent := commitsSent v; commitsReceived := commitsReceived v;
     blocksProposed := x; viewChangesSent := viewChangesSent v;
     viewChangesReceived := viewChangesReceived v; failures := failures v;
     lastActive := lastActive v |}.

Definition set_viewChangesSent (x : Z) (v : PBFTValidator) : PBFTValidator :=
  {| account := account v; address := address v; index := index v;
     isByzantine := isByzantine v; byzantineType := byzantineType v;
     preparesSent := preparesSent v; preparesReceived := preparesReceived v;
     commitsSent := commitsSent v; commitsReceived := commitsReceived v;
     blocksProposed := blocksProposed v; viewChangesSent := x;
     viewChangesReceived := viewChangesReceived v; failures := failures v;
     lastActive := lastActive v |}.

Definition set_viewChangesReceived (x : Z) (v : PBFTValidator) : PBFTValidator :=
  {| account := account v; address := address v; index := index v;
     isByzantine := isByzantine v; byzantineType := byzantineType v;
     preparesSent := preparesSent v; preparesReceived := preparesReceived v;
     commitsSent := commitsSent v; commitsReceived := commitsReceived v;
     blocksProposed := blocksProposed v; viewChangesSent := viewChangesSent v;
     viewChangesReceived := x; failures := failures v;
     lastActive := lastActive v |}.

Definition set_failures (x : Z) (v : PBFTValidator) : PBFTValidator :=
  {| account := account v; address := address v; index := index v;
     isByzantine := isByzantine v; byzantineType := byzantineType v;
     preparesSent := preparesSent v; preparesReceived := preparesReceived v;
     commitsSent := commitsSent v; commitsReceived := commitsReceived v;
     blocksProposed := blocksProposed v; viewChangesSent := viewChangesSent v;
     viewChangesReceived := viewChangesReceived v; failures := x;
     lastActive := lastActive v |}.

Definition set_lastActive (x : Z) (v : PBFTValidator) : PBFTValidator :=
  {| account := account v; address := address v; index := index v;
     isByzantine := isByzantine v; byzantineType := byzantineType v;
     preparesSent := preparesSent v; preparesReceived := preparesReceived v;
     commitsSent := commitsSent v; commitsReceived := commitsReceived v;
     blocksProposed := blocksProposed v; viewChangesSent := viewChangesSent v;
     viewChangesReceived := viewChangesReceived v; failures := failures v;
     lastActive := x |}.

(** ** The [measurements] accumulator

    Only the arrays written by [PBFTConsensus] are modelled; [transactions],
    [gasUsage], [finalityTimes] and [resourceUsage] belong to the driver. *)

Module ByzantineEvent.
Record t := {
  timestamp : Z;
  validator : string;
  validatorIndex : Z;
  blockHeight : Z;
  view : Z;
  phase : string;
  failureType : FailureType
}.
End ByzantineEvent.

Module NetworkMessage.
Record t := {
  timestamp : Z;
  blockHeight : Z;
  view : Z;
  phase : string;
  messageCount : Z;
  messageSize : Z;
  totalBytes : Z
}.
End NetworkMessage.

Module PhaseRecord.
Record t := {
  timestamp : Z;
  blockHeight : Z;
  view : Z;
  phase : string;
  duration : Z;
  messageCount : Z;
  participantCount : option Z;
  byzantineCount : Z
}.
End PhaseRecord.

Module ViewChangeRecord.
Record t := {
  timestamp : Z;
  oldView : Z;
  newView : Z;
  reason : string;
  duration : Z;
  messageCount : Z;
  newPrimary : string
}.
End ViewChangeRecord.

Module ValidatorState.
Record t := {
  address : string;
  index : Z;
  isByzantine : bool;
  byzantineType : option FailureType;
  preparesSent : Z;
  preparesReceived : Z;
  commitsSent : Z;
  commitsReceived : Z;
  blocksProposed : Z;
  failures : Z
}.
End ValidatorState.

Module ConsensusState.
Record t := {
  timestamp : Z;
  eventType : string;
  blockHeight : Z;
  view : Z;
  primary : option string;
  f : Z;
  viewChangeInProgress : bool;
  validatorStates : list ValidatorState.t;
  result : option JSObject
}.
End ConsensusState.

Record Measurements := {
  networkMessages : list NetworkMessage.t;
  viewChanges : list ViewChangeRecord.t;
  byzantineEvents : list ByzantineEvent.t;
  consensusPhases : list PhaseRecord.t;
  consensusState : list ConsensusState.t
}.

Definition empty_measurements : Measurements := {|
  networkMessages := [];
  viewChanges := [];
  byzantineEvents := [];
  consensusPhases := [];
  consensusState := []
|}.

(** ** class PBFTConsensus and the world it runs in *)

Record PBFTConsensus := {
  validators : list PBFTValidator;
  currentView : Z;
  f : Z;
  blockHeight : Z;
  viewChangeInProgress : bool;
  lastViewChangeTime : Z
}.

Record World := {
  this : PBFTConsensus;
  measurements : Measurements;
  now : Z;
  timers : nat;
  lateness : nat -> Z;
  draws : nat
}.

Definition set_this (c : PBFTConsensus) (w : World) : World :=
  {| this := c; measurements := measurements w; now := now w;
     timers := timers w; lateness := lateness w; draws := draws w |}.
Definition set_measurements (m : Measurements) (w : World) : World :=
  {| this := this w; measurements := m; now := now w;
     timers := timers w; lateness := lateness w; draws := draws w |}.
Definition set_draws (n : nat) (w : World) : World :=
  {| this := this w; measurements := measurements w; now := now w;
     timers := timers w; lateness := lateness w; draws := n |}.

Definition set_validators (vs : list PBFTValidator) (c : PBFTConsensus) : PBFTConsensus :=
  {| validators := vs; currentView := currentView c; f := f c;
     blockHeight := blockHeight c; viewChangeInProgress := viewChangeInProgress c;
     lastViewChangeTime := lastViewChangeTime c |}.
Definition set_currentView (x : Z) (c : PBFTConsensus) : PBFTConsensus :=
  {| validators := validators c; currentView := x; f := f c;
     blockHeight := blockHeight c; viewChangeInProgress := viewChangeInProgress c;
     lastViewChangeTime := lastViewChangeTime c |}.
Definition set_blockHeight (x : Z) (c : PBFTConsensus) : PBFTConsensus :=
  {| validators := validators c; currentView := currentView c; f := f c;
     blockHeight := x; viewChangeInProgress := viewChangeInProgress c;
     lastViewChangeTime := lastViewChangeTime c |}.
Definition set_viewChangeInProgress (x : bool) (c : PBFTConsensus) : PBFTConsensus :=
  {| validators := validators c; currentView := currentView c; f := f c;
     blockHeight := blockHeight c; viewChangeInProgress := x;
     lastViewChangeTime := lastViewChangeTime c |}.
Definition set_lastViewChangeTime (x : Z) (c : PBFTConsensus) : PBFTConsensus :=
  {| validators := validators c; currentView := currentView c; f := f c;
     blockHeight := blockHeight c; viewChangeInProgress := viewChangeInProgress c;
     lastViewChangeTime := x |}.

Definition push_networkMessage (x : NetworkMessage.t) (m : Measurements) : Measurements :=
  {| networkMessages := networkMessages m ++ [x]; viewChanges := viewChanges m;
     byzantineEvents := byzantineEvents m; consensusPhases := consensusPhases m;
     consensusState := consensusState m |}.
Definition push_viewChange (x : ViewChangeRecord.t) (m : Measurements) : Measurements :=
  {| networkMessages := networkMessages m; viewChanges := viewChanges m ++ [x];
     byzantineEvents := byzantineEvents m; consensusPhases := consensusPhases m;
     consensusState := consensusState m |}.
Definition push_byzantineEvent (x : ByzantineEvent.t) (m : Measurements) : Measurements :=
  {| networkMessages := networkMessages m; viewChanges := viewChanges m;
     byzantineEvents := byzantineEvents m ++ [x]; consensusPhases := consensusPhases m;
     consensusState := consensusState m |}.
Definition push_consensusPhase (x : PhaseRecord.t) (m : Measurements) : Measurements :=
  {| networkMessages := networkMessages m; viewChanges := viewChanges m;
     byzantineEvents := byzantineEvents m; consensusPhases := consensusPhases m ++ [x];
     consensusState := consensusState m |}.
Definition push_consensusState (x : ConsensusState.t) (m : Measurements) : Measurements :=
  {| networkMessages := networkMessages m; viewChanges := viewChanges m;
     byzantineEvents := byzantineEvents m; consensusPhases := consensusPhases m;
     consensusState := consensusState m ++ [x] |}.

(** ** Computations: state passing with exceptions *)

Inductive Outcome (A : Type) :=
| Ret (a : A)
| Throw (message : string).
Arguments Ret {A} a.
Arguments Throw {A} message.

Definition M (A : Type) : Type := World -> Outcome A * World.

Definition ret {A} (a : A) : M A := fun w => (Ret a, w).
Definition throw {A} (message : string) : M A := fun w => (Throw message, w).
Definition bind {A B} (m : M A) (k : A -> M B) : M B := fun w =>
  match m w with
  | (Ret a, w') => k a w'
  | (Throw e, w') => (Throw e, w')
  end.
Definition gets {A} (g : World -> A) : M A := fun w => (Ret (g w), w).
Definition modify (g : World -> World) : M unit := fun w => (Ret tt, g w).

(** [try { m } catch (error) { h error.message }] *)
Definition try_catch {A} (m : M A) (h : string -> M A) : M A := fun w =>
  match m w with
  | (Ret a, w') => (Ret a, w')
  | (Throw e, w') => h e w'
  end.

Declare Scope js_scope.
Delimit Scope js_scope with js.
Notation "x <- m ;; k" := (bind m (fun x => k))
  (at level 100, m at next level, right associativity) : js_scope.
Notation "m ;; k" := (bind m (fun _ => k))
  (at level 100, right associativity) : js_scope.
Local Open Scope js_scope.

(** [for (const x of xs) body], with the loop variables threaded as [s];
    [continue] is a body that returns early. *)
Fixpoint forOf {S : Type} (l : list nat) (body : nat -> S -> M S) (s : S) : M S :=
  match l with
  | [] => ret s
  | i :: l' => s' <- body i s;; forOf l' body s'
  end.

(** Message of the TypeError raised by a property read on [undefined]. *)
Definition TypeError_undefined : string :=
  "Cannot read properties of undefined (reading 'address')".

Definition Date_now : M Z := gets now.

(** [await sleep(ms)], that is [setTimeout(resolve, ms)]: the time that
    passes until the script resumes, and the world in which it does. *)
Definition elapsed (ms : Z) (w : World) : Z := ms + lateness w (timers w).
Arguments elapsed : simpl never.

Definition wake (ms : Z) (w : World) : World :=
  {| this := this w; measurements := measurements w;
     now := now w + elapsed ms w;
     timers := S (timers w); lateness := lateness w; draws := draws w |}.

Definition sleep (ms : Z) : M unit := modify (wake ms).

(** ** Methods of PBFTValidator *)

(** [new PBFTValidator(account, index, isByzantine)].  A Byzantine validator
    draws its fault kind once, here:
    [BYZANTINE_FAILURE_TYPES[Math.floor(Math.random() * 3)]]; an index outside
    the array reads [undefined], which the truthiness tests of the callers
    treat like [null]. *)
Definition new_PBFTValidator (random : nat -> Q)
    (acct : Account) (idx : Z) (isByz : bool) (t : Z) (d : nat)
  : PBFTValidator * nat :=
  let '(ty, d') :=
    if isByz then
      let k := Qfloor (random d * inject_Z (Z.of_nat (length BYZANTINE_FAILURE_TYPES)))%Q in
      ((if k <? 0 then None else BYZANTINE_FAILURE_TYPES !! Z.to_nat k), S d)
    else (None, d) in
  ({| account := acct; address := acc_address acct; index := idx;
      isByzantine := isByz; byzantineType := ty;
      preparesSent := 0; preparesReceived := 0;
      commitsSent := 0; commitsReceived := 0;
      blocksProposed := 0; viewChangesSent := 0; viewChangesReceived := 0;
      failures := 0; lastActive := t |}, d').

Definition recordPrepare (isIncoming : bool) (t : Z) (v : PBFTValidator) : PBFTValidator :=
  set_lastActive t
    (if isIncoming then set_preparesReceived (preparesReceived v + 1) v
     else set_preparesSent (preparesSent v + 1) v).

Definition recordCommit (isIncoming : bool) (t : Z) (v : PBFTValidator) : PBFTValidator :=
  set_lastActive t
    (if isIncoming then set_commitsReceived (commitsReceived v + 1) v
     else set_commitsSent (commitsSent v + 1) v).

Definition recordProposal (t : Z) (v : PBFTValidator) : PBFTValidator :=
  set_lastActive t (set_blocksProposed (blocksProposed v + 1) v).

Definition recordViewChange (isIncoming : bool) (t : Z) (v : PBFTValidator) : PBFTValidator :=
  set_lastActive t
    (if isIncoming then set_viewChangesReceived (viewChangesReceived v + 1) v
     else set_viewChangesSent (viewChangesSent v + 1) v).

(** In-place mutation of the validator object held in slot [i]. *)
Definition updateValidator (i : nat) (g : PBFTValidator -> PBFTValidator) (w : World) : World :=
  set_this (set_validators (alter g i (validators (this w))) (this w)) w.

(** [validator.m(...)] for the validator of slot [i] and a method [m] that
    only rewrites the validator and reads the clock. *)
Definition callOn (i : nat) (m : Z -> PBFTValidator -> PBFTValidator) : M unit := fun w =>
  match validators (this w) !! i with
  | Some _ => (Ret tt, updateValidator i (m (now w)) w)
  | None => (Throw TypeError_undefined, w)
  end.

(** [this.currentView % this.validators.length] as an array index: the
    remainder has the sign of the view; [NaN] (empty array) and negative
    numbers name no slot. *)
Definition primaryIndex (c : PBFTConsensus) : option nat :=
  let n := Z.of_nat (length (validators c)) in
  if n =? 0 then None
  else
    let r := Z.rem (currentView c) n in
    if r <? 0 then None else Some (Z.to_nat r).

Definition getPrimary (c : PBFTConsensus) : option PBFTValidator :=
  match primaryIndex c with
  | Some i => validators c !! i
  | None => None
  end.

(** [this.getPrimary().address], which throws on [undefined]. *)
Definition primaryAddress : M string := fun w =>
  match getPrimary (this w) with
  | Some p => (Ret (address p), w)
  | None => (Throw TypeError_undefined, w)
  end.

(** [validator === this.getPrimary()] for the validator of slot [i]. *)
Definition isPrimary (i : nat) (c : PBFTConsensus) : bool :=
  match primaryIndex c with
  | Some j => Nat.eqb i j
  | None => false
  end.

Definition validatorIndices : M (list nat) :=
  gets (fun w => seq 0 (length (validators (this w)))).

Definition snapshot (v : PBFTValidator) : ValidatorState.t := {|
  ValidatorState.address := address v;
  ValidatorState.index := index v;
  ValidatorState.isByzantine := isByzantine v;
  ValidatorState.byzantineType := byzantineType v;
  ValidatorState.preparesSent := preparesSent v;
  ValidatorState.preparesReceived := preparesReceived v;
  ValidatorState.commitsSent := commitsSent v;
  ValidatorState.commitsReceived := commitsReceived v;
  ValidatorState.blocksProposed := blocksProposed v;
  ValidatorState.failures := failures v
|}.

(** ** Recorders of PBFTConsensus *)

Definition recordByzantineEvent (i : nat) (phase : string) (failureType : FailureType)
  : M unit := fun w =>
  match validators (this w) !! i with
  | None => (Throw TypeError_undefined, w)
  | Some v =>
    (Ret tt,
     set_measurements
       (push_byzantineEvent
          {| ByzantineEvent.timestamp := now w;
             ByzantineEvent.validator := address v;
             ByzantineEvent.validatorIndex := index v;
             ByzantineEvent.blockHeight := blockHeight (this w);
             ByzantineEvent.view := currentView (this w);
             ByzantineEvent.phase := phase;
             ByzantineEvent.failureType := failureType |}
          (measurements w)) w)
  end.

Definition recordNetworkMessages (phase : string) (messageCount messageSize : Z) : M unit :=
  modify (fun w =>
    set_measurements
      (push_networkMessage
         {| NetworkMessage.timestamp := now w;
            NetworkMessage.blockHeight := blockHeight (this w);
            NetworkMessage.view := currentView (this w);
            NetworkMessage.phase := phase;
            NetworkMessage.messageCount := messageCount;
            NetworkMessage.messageSize := messageSize;
            NetworkMessage.totalBytes := messageCount * messageSize |}
         (measurements w)) w).

Definition recordPhaseCompletion (phase : string) (duration messageCount : Z)
    (participantCount : option Z) (byzantineCount : Z) : M unit :=
  modify (fun w =>
    set_measurements
      (push_consensusPhase
         {| PhaseRecord.timestamp := now w;
            PhaseRecord.blockHeight := blockHeight (this w);
            PhaseRecord.view := currentView (this w);
            PhaseRecord.phase := phase;
            PhaseRecord.duration := duration;
            PhaseRecord.messageCount := messageCount;
            PhaseRecord.participantCount := participantCount;
            PhaseRecord.byzantineCount := byzantineCount |}
         (measurements w)) w).

Definition recordConsensusState (eventType : string) (result : option JSObject) : M unit :=
  modify (fun w =>
    set_measurements
      (push_consensusState
         {| ConsensusState.timestamp := now w;
            ConsensusState.eventType := eventType;
            ConsensusState.blockHeight := blockHeight (this w);
            ConsensusState.view := currentView (this w);
            ConsensusState.primary := address <$> getPrimary (this w);
            ConsensusState.f := f (this w);
            ConsensusState.viewChangeInProgress := viewChangeInProgress (this w);
            ConsensusState.validatorStates := snapshot <$> validators (this w);
            ConsensusState.result := result |}
         (measurements w)) w).

Section Engine.

Variable cfg : Config.
Variable random : nat -> Q.

(** ** The fault model: [PBFTValidator.exhibitsByzantineFailure]

    The result [false] (and a [null] kind) is [None]: the callers only
    test the result for truthiness or compare it with a kind. *)
Definition exhibitsByzantineFailure (i : nat) : M (option FailureType) := fun w =>
  match validators (this w) !! i with
  | None => (Throw TypeError_undefined, w)
  | Some v =>
    if negb (isByzantine v) then (Ret None, w)
    else
      let failsNow := Qltb (random (draws w)) (BYZANTINE_FAILURE_PROBABILITY cfg) in
      let w1 := set_draws (S (draws w)) w in
      if failsNow then
        (Ret (byzantineType v),
         updateValidator i (fun v => set_failures (failures v + 1) v) w1)
      else (Ret None, w1)
  end.

(** ** Phase 1: pre-prepare

    The delay of a delayed primary is [VIEW_CHANGE_TIMEOUT / 2]; the timer
    counts whole milliseconds. *)
Definition runPrePreparePhase : M Z :=
  phaseStartTime <- Date_now;;
  primary <- (fun w => match primaryIndex (this w) with
                       | Some i => (Ret i, w)
                       | None => (Throw TypeError_undefined, w)
                       end);;
  byzantineFailure <- exhibitsByzantineFailure primary;;
  (match byzantineFailure with
   | Some ft =>
       recordByzantineEvent primary "pre-prepare" ft;;
       match ft with
       | crash => throw "Primary crashed during pre-prepare phase"
       | malicious => ret tt
       | delayed => sleep (VIEW_CHANGE_TIMEOUT cfg / 2)
       end
   | None => ret tt
   end);;
  callOn primary recordProposal;;
  messagesSent <- gets (fun w => Z.of_nat (length (validators (this w))));;
  recordNetworkMessages "pre-prepare" messagesSent 1024;;
  sleep (PRE_PREPARE_PHASE_TIME cfg);;
  t <- Date_now;;
  let phaseDuration := t - phaseStartTime in
  recordPhaseCompletion "pre-prepare" phaseDuration messagesSent None 0;;
  ret phaseDuration.

(** ** Phase 2: prepare *)

(** Body of the loop over the validators; the loop variables are
    [(prepareCount, byzantineCount)]. *)
Definition prepareBody (i : nat) (s : Z * Z) : M (Z * Z) :=
  let '(prepareCount, byzantineCount) := s in
  skip <- gets (fun w => isPrimary i (this w));;
  if skip : bool then ret (prepareCount, byzantineCount)
  else
    byzantineFailure <- exhibitsByzantineFailure i;;
    match byzantineFailure with
    | Some ft =>
        recordByzantineEvent i "prepare" ft;;
        match ft with
        | crash => ret (prepareCount, byzantineCount + 1)
        | _ =>
            callOn i (recordPrepare false);;
            ret (prepareCount + 1, byzantineCount + 1)
        end
    | None =>
        callOn i (recordPrepare false);;
        ret (prepareCount + 1, byzantineCount)
    end.

Definition prepareLoop : M (Z * Z) :=
  idxs <- validatorIndices;;
  forOf idxs prepareBody (0, 0).

Definition runPreparePhase : M Z :=
  phaseStartTime <- Date_now;;
  counts <- prepareLoop;;
  let '(prepareCount, byzantineCount) := counts in
  sleep (PREPARE_PHASE_TIME cfg);;
  f <- gets (fun w => f (this w));;
  let requiredPrepares := 2 * f + 1 in
  if prepareCount <? requiredPrepares then
    throw ("Insufficient prepare messages: " +:+ pretty prepareCount
             +:+ "/" +:+ pretty requiredPrepares)
  else
    n <- gets (fun w => Z.of_nat (length (validators (this w))));;
    let messagesSent := prepareCount * n in
    recordNetworkMessages "prepare" messagesSent 512;;
    t <- Date_now;;
    let phaseDuration := t - phaseStartTime in
    recordPhaseCompletion "prepare" phaseDuration messagesSent
      (Some prepareCount) byzantineCount;;
    ret phaseDuration.

(** ** Phase 3: commit *)
Definition commitBody (i : nat) (s : Z * Z) : M (Z * Z) :=
  let '(commitCount, byzantineCount) := s in
  byzantineFailure <- exhibitsByzantineFailure i;;
  match byzantineFailure with
  | Some ft =>
      recordByzantineEvent i "commit" ft;;
      match ft with
      | crash => ret (commitCount, byzantineCount + 1)
      | _ =>
          callOn i (recordCommit false);;
          ret (commitCount + 1, byzantineCount + 1)
      end
  | None =>
      callOn i (recordCommit false);;
      ret (commitCount + 1, byzantineCount)
  end.

Definition commitLoop : M (Z * Z) :=
  idxs <- validatorIndices;;
  forOf idxs commitBody (0, 0).

Definition runCommitPhase : M Z :=
  phaseStartTime <- Date_now;;
  counts <- commitLoop;;
  let '(commitCount, byzantineCount) := counts in
  sleep (COMMIT_PHASE_TIME cfg);;
  f <- gets (fun w => f (this w));;
  let requiredCommits := 2 * f + 1 in
  if commitCount <? requiredCommits then
    throw ("Insufficient commit messages: " +:+ pretty commitCount
             +:+ "/" +:+ pretty requiredCommits)
  else
    n <- gets (fun w => Z.of_nat (length (validators (this w))));;
    let messagesSent := commitCount * n in
    recordNetworkMessages "commit" messagesSent 512;;
    t <- Date_now;;
    let phaseDuration := t - phaseStartTime in
    recordPhaseCompletion "commit" phaseDuration messagesSent
      (Some commitCount) byzantineCount;;
    ret phaseDuration.

(** ** View change *)
Definition viewChangeBody (i : nat) (viewChangeMsgCount : Z) : M Z :=
  byzantineFailure <- exhibitsByzantineFailure i;;
  match byzantineFailure with
  | Some crash => ret viewChangeMsgCount
  | _ =>
      callOn i (recordViewChange false);;
      ret (viewChangeMsgCount + 1)
  end.

Definition viewChangeLoop : M Z :=
  idxs <- validatorIndices;;
  forOf idxs viewChangeBody 0.

(** The result is [Some this.currentView], or [None] for the bare
    [return] taken when a view change is already in progress. *)
Definition initiateViewChange (reason : string) : M (option Z) :=
  busy <- gets (fun w => viewChangeInProgress (this w));;
  if busy : bool then ret None
  else
    modify (fun w => set_this (set_viewChangeInProgress true (this w)) w);;
    viewChangeStartTime <- Date_now;;
    primaryAddress;;
    oldView <- gets (fun w => currentView (this w));;
    modify (fun w => set_this (set_currentView (currentView (this w) + 1) (this w)) w);;
    viewChangeMsgCount <- viewChangeLoop;;
    sleep (VIEW_CHANGE_TIMEOUT cfg);;
    (* fewer than 2f+1 messages: console.error only, then proceed *)
    newPrimary <- primaryAddress;;
    t <- Date_now;;
    let viewChangeDuration := t - viewChangeStartTime in
    modify (fun w =>
      set_measurements
        (push_viewChange
           {| ViewChangeRecord.timestamp := now w;
              ViewChangeRecord.oldView := oldView;
              ViewChangeRecord.newView := currentView (this w);
              ViewChangeRecord.reason := reason;
              ViewChangeRecord.duration := viewChangeDuration;
              ViewChangeRecord.messageCount :=
                viewChangeMsgCount * Z.of_nat (length (validators (this w)));
              ViewChangeRecord.newPrimary := newPrimary |}
           (measurements w)) w);;
    modify (fun w => set_this (set_viewChangeInProgress false (this w)) w);;
    modify (fun w => set_this (set_lastViewChangeTime (now w) (this w)) w);;
    recordConsensusState "view_change" None;;
    v <- gets (fun w => currentView (this w));;
    ret (Some v).

(** ** One round: [runConsensus(txHash, receipt)] *)

(** The [try] block. *)
Definition tryBlock (txHash : string) : M JSObject :=
  prePrepare <- runPrePreparePhase;;
  prepare <- runPreparePhase;;
  commit <- runCommitPhase;;
  let totalTime := prePrepare + prepare + commit in
  bh <- gets (fun w => blockHeight (this w));;
  v <- gets (fun w => currentView (this w));;
  p <- primaryAddress;;
  t <- Date_now;;
  ret [("success", JSBool true);
       ("blockHeight", JSNum bh);
       ("view", JSNum v);
       ("primary", JSStr p);
       ("phaseTimings", JSObj [("prePrepare", JSNum prePrepare);
                               ("prepare", JSNum prepare);
                               ("commit", JSNum commit)]);
       ("totalTime", JSNum totalTime);
       ("txHash", JSStr txHash);
       ("timestamp", JSNum t)].

(** The [catch (error)] block, given [error.message]. *)
Definition catchBlock (message : string) : M JSObject :=
  busy <- gets (fun w => viewChangeInProgress (this w));;
  (if busy : bool then ret None else initiateViewChange message);;
  bh <- gets (fun w => blockHeight (this w));;
  v <- gets (fun w => currentView (this w));;
  t <- Date_now;;
  ret [("success", JSBool false);
       ("blockHeight", JSNum bh);
       ("view", JSNum v);
       ("error", JSStr message);
       ("timestamp", JSNum t)].

Definition runConsensus (txHash : string) (receipt : JSValue) : M JSObject :=
  modify (fun w => set_this (set_blockHeight (blockHeight (this w) + 1) (this w)) w);;
  primaryAddress;;
  consensusResult <- try_catch (tryBlock txHash) catchBlock;;
  recordConsensusState "consensus_complete" (Some consensusResult);;
  ret consensusResult.

(** The driver submits the work items one after the other. *)
Fixpoint runRounds (txs : list (string * JSValue)) : M (list JSObject) :=
  match txs with
  | [] => ret []
  | (txHash, receipt) :: txs' =>
      r <- runConsensus txHash receipt;;
      rs <- runRounds txs';;
      ret (r :: rs)
  end.

(** ** Construction of the registry *)

(** The [while] loop of [setupValidators] filling the set of Byzantine
    indices; [fuel] bounds the number of iterations, [None] is a loop that
    did not finish within it. *)
Fixpoint pickByzantine (fuel : nat) (n : Z) (s : list Z) (d : nat)
  : option (list Z * nat) :=
  if (length s <? BYZANTINE_VALIDATOR_COUNT cfg)%nat then
    match fuel with
    | O => None
    | S fuel' =>
        let randomIndex := Qfloor (random d * inject_Z n)%Q in
        pickByzantine fuel' n
          (if bool_decide (randomIndex ∈ s) then s else s ++ [randomIndex]) (S d)
    end
  else Some (s, d).

(** [accounts.map((account, index) => new PBFTValidator(...))] *)
Fixpoint buildValidators (accounts : list Account) (idx : Z) (byz : list Z)
    (t : Z) (d : nat) : list PBFTValidator * nat :=
  match accounts with
  | [] => ([], d)
  | a :: accounts' =>
      let '(v, d1) := new_PBFTValidator random a idx (bool_decide (idx ∈ byz)) t d in
      let '(vs, d2) := buildValidators accounts' (idx + 1) byz t d1 in
      (v :: vs, d2)
  end.

Definition setupValidators (fuel : nat) (accounts : list Account) (t : Z) (d : nat)
  : option (list PBFTValidator * nat) :=
  match pickByzantine fuel (Z.of_nat (length accounts)) [] d with
  | Some (byz, d1) => Some (buildValidators accounts 0 byz t d1)
  | None => None
  end.

(** [new PBFTConsensus(validatorAccounts)], started at clock [t] with [d]
    draws consumed and the accumulator [m]; [late] is the lateness of the
    timers that the run is going to start. *)
Definition new_PBFTConsensus (fuel : nat) (accounts : list Account)
    (m : Measurements) (t : Z) (late : nat -> Z) (d : nat) : option World :=
  match setupValidators fuel accounts t d with
  | None => None
  | Some (vs, d') =>
      let c := {| validators := vs;
                  currentView := 0;
                  f := (Z.of_nat (length vs) - 1) / 3;
                  blockHeight := 0;
                  viewChangeInProgress := false;
                  lastViewChangeTime := 0 |} in
      let w := {| this := c; measurements := m; now := t;
                  timers := 0; lateness := late; draws := d' |} in
      Some (snd (recordConsensusState "initialization" None w))
  end.

End Engine.

(** * The driver and the report

    ** [runPBFTConsensus]: the accounts and the consensus object

    Of the driver, the part before the first transaction: the validator
    accounts are [allAccounts.slice(0, NUM_VALIDATORS)], too few of them is
    an error, the consensus object is built over them and the industry
    accounts are [allAccounts.slice(NUM_VALIDATORS, NUM_VALIDATORS + 3)].
    [NUM_VALIDATORS] is the constant of the script (4 there); the result
    [None] is a constructor that does not return within [fuel]. *)
Definition notEnoughAccounts (NUM_VALIDATORS have : nat) : string :=
  "Not enough accounts for PBFT. Need " +:+ pretty (Z.of_nat NUM_VALIDATORS)
    +:+ " validators but only have " +:+ pretty (Z.of_nat have).

Definition startPBFT (cfg : Config) (random : nat -> Q) (NUM_VALIDATORS : nat)
    (fuel : nat) (allAccounts : list Account) (m : Measurements) (t : Z)
    (late : nat -> Z) (d : nat)
  : Outcome (option (World * list Account)) :=
  let validatorAccounts := take NUM_VALIDATORS allAccounts in
  if (length validatorAccounts <? NUM_VALIDATORS)%nat then
    Throw (notEnoughAccounts NUM_VALIDATORS (length validatorAccounts))
  else
    Ret (match new_PBFTConsensus cfg random fuel validatorAccounts m t late d with
         | None => None
         | Some pbftConsensus =>
             let industries := take 3 (drop NUM_VALIDATORS allAccounts) in
             Some (pbftConsensus, industries)
         end).

(** ** [generatePBFTReport]

    The fields of the report that are computed from the logs: the summary,
    the finality times, the phase breakdown, the network overhead and the
    fault tolerance.  The number of transactions and the entries of
    [measurements.finalityTimes], which the driver writes, are inputs.  An
    average [total / count] is the rational it denotes, of which the script
    stores the nearest double.  The averages of the resource usage, which
    are sums of floating-point samples, and the throughput are not part of
    this record. *)

Module FinalityTime.
Record t := {
  txHash : string;
  transactionType : string;
  finalityTime : Z;
  timestamp : Z
}.
End FinalityTime.

(** [count > 0 ? total / count : 0] *)
Definition average (total count : Z) : Q :=
  if 0 <? count then (inject_Z total / inject_Z count)%Q else 0%Q.

(** The loop over [measurements.finalityTimes]: the total, the minimum
    ([None] is the initial [Infinity]) and the maximum (initially 0). *)
Definition finalityLoop (finalityTimes : list FinalityTime.t) : Z * option Z * Z :=
  fold_left
    (fun acc item =>
       let '(totalFinalityTime, minFinalityTime, maxFinalityTime) := acc in
       let ft := FinalityTime.finalityTime item in
       (totalFinalityTime + ft,
        Some (match minFinalityTime with
              | None => ft
              | Some m => Z.min m ft
              end),
        Z.max maxFinalityTime ft))
    finalityTimes (0, None, 0).

(** The [reduce] over [measurements.networkMessages]:
    [(totalMessages, totalBytes, count)]. *)
Definition messageMetrics (messages : list NetworkMessage.t) : Z * Z * Z :=
  fold_left
    (fun metrics message =>
       let '(totalMessages, totalBytes, count) := metrics in
       (totalMessages + NetworkMessage.messageCount message,
        totalBytes + NetworkMessage.totalBytes message,
        count + 1))
    messages (0, 0, 0).

(** The object [phaseTimings], by key: [(total, count)].  A phase record
    is added to the entry whose key is its phase tag; a tag that is no key
    of the object changes none of the three entries. *)
Definition phaseTimings_init : list (string * (Z * Z)) :=
  [("prePrepare", (0, 0)); ("prepare", (0, 0)); ("commit", (0, 0))].

Definition addPhase (phaseTimings : list (string * (Z * Z))) (phase : PhaseRecord.t)
  : list (string * (Z * Z)) :=
  map (fun entry =>
         let '(key, (total, count)) := entry in
         if String.eqb key (PhaseRecord.phase phase)
         then (key, (total + PhaseRecord.duration phase, count + 1))
         else (key, (total, count)))
      phaseTimings.

Definition phaseTimings (phases : list PhaseRecord.t) : list (string * (Z * Z)) :=
  fold_left addPhase phases phaseTimings_init.

(** [phaseTimings[key].avg] *)
Definition phaseAverage (key : string) (timings : list (string * (Z * Z))) : Q :=
  match List.find (fun entry => String.eqb key (fst entry)) timings with
  | Some (_, (total, count)) => average total count
  | None => 0%Q
  end.

Module Report.
Record t := {
  totalTransactions : Z;
  successfulConsensusCount : Z;
  consensusSuccessRate : Q;
  byzantineEventCount : Z;
  viewChangeCount : Z;
  finalityAverage : Q;
  finalityMin : Z;
  finalityMax : Z;
  prePrepare : Q;
  prepare : Q;
  commit : Q;
  viewChange : Q;
  messagesPerConsensus : Q;
  bytesPerConsensus : Q;
  maximumByzantineNodes : Z;
  actualByzantineNodes : Z
}.
End Report.

(** [maxTolerableFailures] is the field of [measurements.pbftConfiguration],
    [None] when the driver has not set the configuration. *)
Definition generatePBFTReport (cfg : Config) (NUM_VALIDATORS : nat)
    (transactions : nat) (finalityTimes : list FinalityTime.t)
    (maxTolerableFailures : option Z) (m : Measurements) : Report.t :=
  let totalTransactions := Z.of_nat transactions in
  let successfulConsensusCount := Z.of_nat (length finalityTimes) in
  let byzantineEventCount := Z.of_nat (length (byzantineEvents m)) in
  let viewChangeCount := Z.of_nat (length (viewChanges m)) in
  let '(totalFinalityTime, minFinalityTime, maxFinalityTime) :=
    finalityLoop finalityTimes in
  let avgFinalityTime := average totalFinalityTime successfulConsensusCount in
  let '(totalMessages, totalBytes, count) := messageMetrics (networkMessages m) in
  let timings := phaseTimings (consensusPhases m) in
  let fallback := (Z.of_nat NUM_VALIDATORS - 1) / 3 in
  {| Report.totalTransactions := totalTransactions;
     Report.successfulConsensusCount := successfulConsensusCount;
     Report.consensusSuccessRate :=
       if 0 <? totalTransactions
       then (inject_Z successfulConsensusCount / inject_Z totalTransactions
             * inject_Z 100)%Q
       else 0%Q;
     Report.byzantineEventCount := byzantineEventCount;
     Report.viewChangeCount := viewChangeCount;
     Report.finalityAverage := avgFinalityTime;
     Report.finalityMin := match minFinalityTime with
                           | None => 0
                           | Some m => m
                           end;
     Report.finalityMax := maxFinalityTime;
     Report.prePrepare := phaseAverage "prePrepare" timings;
     Report.prepare := phaseAverage "prepare" timings;
     Report.commit := phaseAverage "commit" timings;
     Report.viewChange :=
       average
         (fold_left (fun sum vc => sum + ViewChangeRecord.duration vc) (viewChanges m) 0)
         viewChangeCount;
     Report.messagesPerConsensus := average totalMessages count;
     Report.bytesPerConsensus := average totalBytes count;
     Report.maximumByzantineNodes :=
       match maxTolerableFailures with
       | Some x => if x =? 0 then fallback else x
       | None => fallback
       end;
     Report.actualByzantineNodes := Z.of_nat (BYZANTINE_VALIDATOR_COUNT cfg) |}.

(** * Vocabulary of the properties

    Predicates on worlds and computations, abbreviations for the objects
    returned by a round, and the example worlds used further down. *)

(** [steps R m]: whatever [m] does, returning or throwing, the world it
    leaves is [R]-related to the world it started in. *)
Definition steps (R : World -> World -> Prop) {A} (m : M A) : Prop :=
  forall w, R w (snd (m w)).

(** A function of the world that a computation leaves unchanged. *)
Definition keeps {X A} (g : World -> X) (m : M A) : Prop :=
  steps (fun w w' => g w' = g w) m.

(** What no operation of the engine changes in a validator: its identity,
    its fault profile, and, for an honest validator, its failure counter. *)
Definition profile (v : PBFTValidator)
  : Account * string * Z * bool * option FailureType * option Z :=
  (account v, address v, index v, isByzantine v, byzantineType v,
   if isByzantine v then None else Some (failures v)).

(** The part of a validator that only the three phases write. *)
Definition phaseCounters (v : PBFTValidator) : Z * Z * Z * Z * Z :=
  (preparesSent v, preparesReceived v, commitsSent v, commitsReceived v,
   blocksProposed v).

(** The part of the consensus object that the phases leave alone. *)
Definition viewState (w : World) : Z * Z * Z * bool * Z * nat :=
  (currentView (this w), f (this w), blockHeight (this w),
   viewChangeInProgress (this w), lastViewChangeTime (this w),
   length (validators (this w))).

(** [safe I m]: from a world in [I], [m] returns (it does not throw) and
    leaves a world in [I]. *)
Definition safe (I : World -> Prop) {A} (m : M A) : Prop :=
  forall w, I w -> exists a w', m w = (Ret a, w') /\ I w'.

(** The registry has [n] slots. *)
Definition sized (n : nat) (w : World) : Prop :=
  length (validators (this w)) = n.

(** What holds of the consensus object between two rounds: the registry is
    not empty, the view is not negative and no view change is in flight. *)
Definition wf (w : World) : Prop :=
  (0 < length (validators (this w)))%nat /\
  0 <= currentView (this w) /\
  viewChangeInProgress (this w) = false.

(** [ViewChanged cfg reason cnt w w']: what a completed view change with
    [cnt] acknowledgements did to the world. *)
Record ViewChanged (cfg : Config) (reason : string) (cnt : Z) (w w' : World) : Prop := {
  vc_view : currentView (this w') = currentView (this w) + 1;
  vc_flag : viewChangeInProgress (this w') = false;
  vc_f : f (this w') = f (this w);
  vc_height : blockHeight (this w') = blockHeight (this w);
  vc_length : length (validators (this w')) = length (validators (this w));
  vc_now : now w' = now w + elapsed (VIEW_CHANGE_TIMEOUT cfg) w;
  vc_timers : timers w' = S (timers w);
  vc_lateness : lateness w' = lateness w;
  vc_record : exists p,
    getPrimary (this w') = Some p /\
    viewChanges (measurements w') =
      viewChanges (measurements w) ++
      [ {| ViewChangeRecord.timestamp := now w';
           ViewChangeRecord.oldView := currentView (this w);
           ViewChangeRecord.newView := currentView (this w) + 1;
           ViewChangeRecord.reason := reason;
           ViewChangeRecord.duration := elapsed (VIEW_CHANGE_TIMEOUT cfg) w;
           ViewChangeRecord.messageCount :=
             cnt * Z.of_nat (length (validators (this w)));
           ViewChangeRecord.newPrimary := address p |} ];
  vc_events : byzantineEvents (measurements w') = byzantineEvents (measurements w);
  vc_phases : consensusPhases (measurements w') = consensusPhases (measurements w);
  vc_messages : networkMessages (measurements w') = networkMessages (measurements w);
  vc_counters :
    phaseCounters <$> validators (this w') = phaseCounters <$> validators (this w)
}.

(** The world in which the acknowledgements are collected: the flag is set
    and the view is already incremented. *)
Definition enterViewChange (w : World) : World :=
  set_this (set_currentView (currentView (this w) + 1)
              (set_viewChangeInProgress true (this w))) w.

(** The log of Byzantine events. *)
Definition events (w : World) : list ByzantineEvent.t :=
  byzantineEvents (measurements w).

(** The events appended between [w] and a later world [w']. *)
Definition newEvents (w w' : World) : list ByzantineEvent.t :=
  drop (length (events w)) (events w').

Definition isCrashIn (ph : string) (e : ByzantineEvent.t) : bool :=
  String.eqb (ByzantineEvent.phase e) ph &&
  FailureType_eqb (ByzantineEvent.failureType e) crash.

(** Number of validators that crashed in phase [ph], as the event log
    tells it. *)
Definition crashesIn (ph : string) (evs : list ByzantineEvent.t) : Z :=
  Z.of_nat (length (List.filter (isCrashIn ph) evs)).

Definition inPhase (ph : string) (e : ByzantineEvent.t) : Prop :=
  ByzantineEvent.phase e = ph.

(** Number of slots of [l] other than [p]. *)
Definition others (p : nat) (l : list nat) : Z :=
  Z.of_nat (length (List.filter (fun i => negb (Nat.eqb i p)) l)).

(** The message of the error thrown by a phase below its quorum. *)
Definition insufficient (what : string) (count required : Z) : string :=
  "Insufficient " +:+ what +:+ " messages: " +:+ pretty count +:+ "/" +:+ pretty required.

(** The world after [this.blockHeight++]. *)
Definition nextHeight (w : World) : World :=
  set_this (set_blockHeight (blockHeight (this w) + 1) (this w)) w.

(** The object returned for a committed round. *)
Definition successResult (bh v : Z) (p : string) (prePrepare prepare commit : Z)
    (txHash : string) (t : Z) : JSObject :=
  [("success", JSBool true);
   ("blockHeight", JSNum bh);
   ("view", JSNum v);
   ("primary", JSStr p);
   ("phaseTimings", JSObj [("prePrepare", JSNum prePrepare);
                           ("prepare", JSNum prepare);
                           ("commit", JSNum commit)]);
   ("totalTime", JSNum (prePrepare + prepare + commit));
   ("txHash", JSStr txHash);
   ("timestamp", JSNum t)].

(** The object returned for a failed round. *)
Definition failureResult (bh v : Z) (message : string) (t : Z) : JSObject :=
  [("success", JSBool false);
   ("blockHeight", JSNum bh);
   ("view", JSNum v);
   ("error", JSStr message);
   ("timestamp", JSNum t)].

(** The events a computation appends all carry the phase tag [ph]. *)
Definition appendsIn (ph : string) (w w' : World) : Prop :=
  exists evs, events w' = events w ++ evs /\ Forall (inPhase ph) evs.

(** ** Example worlds *)

Definition four_accounts : list Account :=
  [ {| acc_address := "0xA1" |}; {| acc_address := "0xB2" |};
    {| acc_address := "0xC3" |}; {| acc_address := "0xD4" |} ].

(** Every timer fires on time. *)
Definition on_time : nat -> Z := fun _ => 0.

(** The timers fire 1, 2, 3, 1, 2, 3, ... milliseconds late. *)
Definition late_timers : nat -> Z := fun k => 1 + Z.of_nat (k mod 3).

(** An empty world, the fallback where a constructor call is unwrapped; the
    constructor calls below all succeed ([example_worlds_built]). *)
Definition blank_world : World :=
  {| this := {| validators := []; currentView := 0; f := 0; blockHeight := 0;
                viewChangeInProgress := false; lastViewChangeTime := 0 |};
     measurements := empty_measurements; now := 0;
     timers := 0; lateness := on_time; draws := 0 |}.

(** Every draw is 0. *)
Definition always_zero : nat -> Q := fun _ => 0%Q.

(** Under [always_zero] the Byzantine validator is slot 0, the primary of
    view 0, of kind crash, and it fails whenever it is consulted. *)
Definition faulty_world : World :=
  default blank_world
    (new_PBFTConsensus default_config always_zero 1 four_accounts
       empty_measurements 1000 on_time 0).

(** Every draw is 1/4. *)
Definition always_quarter : nat -> Q := fun _ => (1 # 4)%Q.

(** Under [always_quarter] the Byzantine validator is slot 1, of kind crash,
    failing whenever it is consulted; the primary of view 0 is honest. *)
Definition crashing_world : World :=
  default blank_world
    (new_PBFTConsensus default_config always_quarter 1 four_accounts
       empty_measurements 1000 on_time 0).

(** The registry of [crashing_world] on a clock whose timers fire late. *)
Definition crashing_late_world : World :=
  default blank_world
    (new_PBFTConsensus default_config always_quarter 1 four_accounts
       empty_measurements 1000 late_timers 0).

(** Scenario C: three Byzantine validators in the slots 1, 2, 3, all of
    kind crash, failing with probability 1. *)
Definition scenarioC_config : Config := {|
  PRE_PREPARE_PHASE_TIME := 200;
  PREPARE_PHASE_TIME := 300;
  COMMIT_PHASE_TIME := 300;
  VIEW_CHANGE_TIMEOUT := 2000;
  BYZANTINE_VALIDATOR_COUNT := 3;
  BYZANTINE_FAILURE_PROBABILITY := 1%Q
|}.

Definition scenarioC_random (d : nat) : Q :=
  match d with
  | O => (1 # 4)%Q
  | S O => (1 # 2)%Q
  | S (S O) => (3 # 4)%Q
  | _ => 0%Q
  end.

Definition scenarioC_world : World :=
  default blank_world
    (new_PBFTConsensus scenarioC_config scenarioC_random 3 four_accounts
       empty_measurements 1000 on_time 0).

(** The view changes recorded between [w] and [w'] all go from a view to
    its successor. *)
Definition viewChangesBy1 (w w' : World) : Prop :=
  exists recs,
    viewChanges (measurements w') = viewChanges (measurements w) ++ recs /\
    Forall (fun r => ViewChangeRecord.newView r = ViewChangeRecord.oldView r + 1) recs.

Definition viewGrows (w w' : World) : Prop :=
  currentView (this w) <= currentView (this w') /\ viewChangesBy1 w w'.

(** The contract of [Math.random]: every draw lies in [0, 1). *)
Definition random_in_range (random : nat -> Q) : Prop :=
  forall d, (0 <= random d)%Q /\ (random d < 1)%Q.

(** No draw is below the failure probability: the fault model never fires. *)
Definition noFault (cfg : Config) (random : nat -> Q) : Prop :=
  forall d, Qltb (random d) (BYZANTINE_FAILURE_PROBABILITY cfg) = false.

(** The registry was sized by the constructor and has a second validator. *)
Definition replicated (w : World) : Prop :=
  wf w /\
  (2 <= length (validators (this w)))%nat /\
  f (this w) = (Z.of_nat (length (validators (this w))) - 1) / 3.

(** The constants of the script with the failure probability set to 0. *)
Definition no_fault_config : Config := {|
  PRE_PREPARE_PHASE_TIME := 200;
  PREPARE_PHASE_TIME := 300;
  COMMIT_PHASE_TIME := 300;
  VIEW_CHANGE_TIMEOUT := 2000;
  BYZANTINE_VALIDATOR_COUNT := 1;
  BYZANTINE_FAILURE_PROBABILITY := 0%Q
|}.

(** Scenario A: four validators, no faults. *)
Definition scenarioA_world : World :=
  default blank_world
    (new_PBFTConsensus no_fault_config always_quarter 1 four_accounts
       empty_measurements 1000 on_time 0).

(** Scenario A on a clock whose timers fire late. *)
Definition scenarioA_late_world : World :=
  default blank_world
    (new_PBFTConsensus no_fault_config always_quarter 1 four_accounts
       empty_measurements 1000 late_timers 0).

(** The phase timings of a committed round whose primary is not delayed
    and whose first timer is the [k]-th of the run: the configured
    durations, each with the lateness of its timer. *)
Definition roundTimings (cfg : Config) (late : nat -> Z) (k : nat) : JSObject :=
  [("prePrepare", JSNum (PRE_PREPARE_PHASE_TIME cfg + late k));
   ("prepare", JSNum (PREPARE_PHASE_TIME cfg + late (k + 1)%nat));
   ("commit", JSNum (COMMIT_PHASE_TIME cfg + late (k + 2)%nat))].

(** A registry of one validator, [f = 0]. *)
Definition single_world : World :=
  default blank_world
    (new_PBFTConsensus no_fault_config always_quarter 1
       [ {| acc_address := "0xA1" |} ] empty_measurements 1000 on_time 0).

(** Sum of the [failures] counters: the number of faults the fault model
    has triggered so far. *)
Definition totalFailures (w : World) : Z :=
  foldr Z.add 0 (failures <$> validators (this w)).

Definition kindedProfile
    (p : Account * string * Z * bool * option FailureType * option Z) : bool :=
  match p with
  | (_, _, _, byz, ty, _) => negb byz || (if ty is Some _ then true else false)
  end.

(** Every Byzantine validator of the registry has a fault kind, as the
    constructor gives it one. *)
Definition typed (w : World) : Prop :=
  forallb kindedProfile (profile <$> validators (this w)) = true.

(** The validator of the registry [vs] that an event blames, with the kind
    the event reports. *)
Definition blames (vs : list PBFTValidator) (e : ByzantineEvent.t) : Prop :=
  exists i v,
    vs !! i = Some v /\
    ByzantineEvent.validator e = address v /\
    ByzantineEvent.validatorIndex e = index v /\
    isByzantine v = true /\
    byzantineType v = Some (ByzantineEvent.failureType e).

(** An event of the round in progress in [w]. *)
Definition describes (w : World) (e : ByzantineEvent.t) : Prop :=
  ByzantineEvent.blockHeight e = blockHeight (this w) /\
  ByzantineEvent.view e = currentView (this w) /\
  ByzantineEvent.phase e ∈ ["pre-prepare"; "prepare"; "commit"] /\
  blames (validators (this w)) e.

(** Between [w] and [w'] one event was appended per triggered fault. *)
Definition recorded (w w' : World) : Prop :=
  viewState w' = viewState w /\
  profile <$> validators (this w') = profile <$> validators (this w) /\
  exists evs,
    events w' = events w ++ evs /\
    Forall (describes w) evs /\
    (typed w -> Z.of_nat (length evs) = totalFailures w' - totalFailures w).

(** The same, one event ahead: the fault counted in [w] is recorded first. *)
Definition recorded1 (w w' : World) : Prop :=
  viewState w' = viewState w /\
  profile <$> validators (this w') = profile <$> validators (this w) /\
  exists evs,
    events w' = events w ++ evs /\
    Forall (describes w) evs /\
    (typed w -> Z.of_nat (length evs) = 1 + (totalFailures w' - totalFailures w)).

(** The precondition of a record: slot [i] holds a Byzantine validator of
    kind [ft]. *)
Definition faultyAt (i : nat) (ft : FailureType) (w : World) : Prop :=
  exists v, validators (this w) !! i = Some v /\
            isByzantine v = true /\ byzantineType v = Some ft.

Definition hsteps1 (P : World -> Prop) {A} (m : M A) : Prop :=
  forall w, P w -> recorded1 w (snd (m w)).

(** [m] appends one event per fault it triggers, tagged [ph] and describing
    the round in progress. *)
Definition recordsFaults (ph : string) {A} (m : M A) (w : World) : Prop :=
  exists evs,
    events (snd (m w)) = events w ++ evs /\
    Z.of_nat (length evs) = totalFailures (snd (m w)) - totalFailures w /\
    Forall (describes w) evs /\
    Forall (inPhase ph) evs.

(** Between [w] and [w'] no profile changed and every appended event blames
    a validator of the registry with that validator's own kind. *)
Definition sameProfiles (w w' : World) : Prop :=
  profile <$> validators (this w') = profile <$> validators (this w) /\
  exists evs,
    events w' = events w ++ evs /\
    Forall (blames (validators (this w))) evs.

(** ** Accounting, logs, participation and the registry *)

(** Whether the object returned for a round reports a failure. *)
Definition failed (r : JSObject) : bool :=
  match getProp "success" r with
  | JSBool false => true
  | _ => false
  end.

(** The heights [h + 1, ..., h + k] of [k] consecutive rounds. *)
Definition heightsFrom (h : Z) (k : nat) : list JSValue :=
  (fun i => JSNum (h + Z.of_nat i)) <$> seq 1 k.

(** The world a phase leaves when it completes after its loop left [w1]:
    the wait of [ms], then one network message and one phase record with
    the time the wait took. *)
Definition phaseDone (ph : string) (ms count size : Z) (participants : option Z)
    (byz : Z) (w1 : World) : World :=
  snd (recordPhaseCompletion ph (elapsed ms w1) count participants byz
         (snd (recordNetworkMessages ph count size (wake ms w1)))).

(** The two logs the phases write. *)
Definition phaseLogs (w : World)
  : list NetworkMessage.t * list PhaseRecord.t :=
  (networkMessages (measurements w), consensusPhases (measurements w)).

(** The timers a delayed primary starts before it proposes, by the outcome
    of the fault model, and the time the pre-prepare phase spends on them
    from the world [w]. *)
Definition delayTimers (o : Outcome (option FailureType)) : nat :=
  match o with
  | Ret (Some delayed) => 1
  | _ => 0
  end.

Definition primaryDelay (cfg : Config) (o : Outcome (option FailureType))
    (w : World) : Z :=
  match o with
  | Ret (Some delayed) => elapsed (VIEW_CHANGE_TIMEOUT cfg / 2) w
  | _ => 0
  end.

(** The world in which a primary resumes after that delay. *)
Definition delayedBy (cfg : Config) (o : Outcome (option FailureType))
    (w : World) : World :=
  match o with
  | Ret (Some delayed) => wake (VIEW_CHANGE_TIMEOUT cfg / 2) w
  | _ => w
  end.

(** What only a wait changes: the clock, the number of timers that have
    fired and the lateness of the timers. *)
Definition clock (w : World) : Z * nat * (nat -> Z) :=
  (now w, timers w, lateness w).

(** The world a completed pre-prepare phase of duration [d] leaves, [w1]
    being the world in which the proposal was counted. *)
Definition prePrepareDone (cfg : Config) (d : Z) (w1 : World) : World :=
  snd (recordPhaseCompletion "pre-prepare" d
         (Z.of_nat (length (validators (this w1)))) None 0
         (wake (PRE_PREPARE_PHASE_TIME cfg)
            (snd (recordNetworkMessages "pre-prepare"
                    (Z.of_nat (length (validators (this w1)))) 1024 w1)))).

(** The draws 0, 3/4, 0, 0, ...: under them the Byzantine validator is
    slot 0, the primary of view 0, of kind delayed, failing whenever it is
    consulted. *)
Definition delaying_random (d : nat) : Q :=
  match d with
  | S O => (3 # 4)%Q
  | _ => 0%Q
  end.

Definition delaying_world : World :=
  default blank_world
    (new_PBFTConsensus default_config delaying_random 1 four_accounts
       empty_measurements 1000 on_time 0).

(** The same registry on a clock whose timers fire late. *)
Definition delaying_late_world : World :=
  default blank_world
    (new_PBFTConsensus default_config delaying_random 1 four_accounts
       empty_measurements 1000 late_timers 0).

(** A network message and a phase record that describe the same phase of
    the same round. *)
Definition sameEntry (m : NetworkMessage.t) (p : PhaseRecord.t) : Prop :=
  NetworkMessage.phase m = PhaseRecord.phase p /\
  NetworkMessage.blockHeight m = PhaseRecord.blockHeight p /\
  NetworkMessage.view m = PhaseRecord.view p /\
  NetworkMessage.messageCount m = PhaseRecord.messageCount p.

(** The shape of a network message in a registry of [n] validators: the
    proposal goes to the [n] validators in 1024 bytes each, the prepare and
    commit messages take 512 bytes each. *)
Definition messageShape (n : Z) (m : NetworkMessage.t) : Prop :=
  NetworkMessage.totalBytes m =
    NetworkMessage.messageCount m * NetworkMessage.messageSize m /\
  ((NetworkMessage.phase m = "pre-prepare" /\
    NetworkMessage.messageSize m = 1024 /\
    NetworkMessage.messageCount m = n) \/
   ((NetworkMessage.phase m = "prepare" \/ NetworkMessage.phase m = "commit") /\
    NetworkMessage.messageSize m = 512)).

(** The shape of a phase record in a registry of [n] validators with the
    tolerance [f]. *)
Definition phaseShape (n f : Z) (p : PhaseRecord.t) : Prop :=
  match PhaseRecord.participantCount p with
  | None =>
      PhaseRecord.phase p = "pre-prepare" /\
      PhaseRecord.messageCount p = n /\
      PhaseRecord.byzantineCount p = 0
  | Some c =>
      2 * f + 1 <= c <= n /\
      PhaseRecord.messageCount p = c * n /\
      0 <= PhaseRecord.byzantineCount p <= n /\
      (PhaseRecord.phase p = "prepare" \/ PhaseRecord.phase p = "commit")
  end.

(** Between [w] and [w'] the two logs of the phases grew by as many
    entries, pairwise about the same phase and of the expected shape. *)
Definition logsGrow (w w' : World) : Prop :=
  length (validators (this w')) = length (validators (this w)) /\
  f (this w') = f (this w) /\
  exists ms ps,
    networkMessages (measurements w') = networkMessages (measurements w) ++ ms /\
    consensusPhases (measurements w') = consensusPhases (measurements w) ++ ps /\
    Forall2 sameEntry ms ps /\
    Forall (messageShape (Z.of_nat (length (validators (this w))))) ms /\
    Forall (phaseShape (Z.of_nat (length (validators (this w)))) (f (this w))) ps.

(** What a computation that writes to neither log leaves alone. *)
Definition logState (w : World)
  : list NetworkMessage.t * list PhaseRecord.t * nat * Z :=
  (networkMessages (measurements w), consensusPhases (measurements w),
   length (validators (this w)), f (this w)).

(** The [isByzantine] flags of the registry, slot by slot. *)
Definition byzantineFlags (w : World) : list bool :=
  isByzantine <$> validators (this w).

(** Whether slot [i] holds a validator that is not Byzantine. *)
Definition honestAt (flags : list bool) (i : nat) : bool :=
  match flags !! i with
  | Some byz => negb byz
  | None => false
  end.

(** Number of validators of the registry that are not Byzantine. *)
Definition honestCount (w : World) : Z :=
  Z.of_nat (length (List.filter negb (byzantineFlags w))).

(** No validator of the registry is Byzantine. *)
Definition allHonest (w : World) : Prop :=
  Forall (fun byz : bool => byz = false) (byzantineFlags w).

(** From a registry without Byzantine validators, nothing was drawn and no
    event was logged between [w] and [w']. *)
Definition quiet (w w' : World) : Prop :=
  allHonest w ->
  draws w' = draws w /\ events w' = events w /\
  byzantineFlags w' = byzantineFlags w.

(** Four validators, none of them Byzantine, under the failure probability
    of the script. *)
Definition honest_config : Config := {|
  PRE_PREPARE_PHASE_TIME := 200;
  PREPARE_PHASE_TIME := 300;
  COMMIT_PHASE_TIME := 300;
  VIEW_CHANGE_TIMEOUT := 2000;
  BYZANTINE_VALIDATOR_COUNT := 0;
  BYZANTINE_FAILURE_PROBABILITY := (3 # 10)%Q
|}.

Definition honest_world : World :=
  default blank_world
    (new_PBFTConsensus honest_config always_zero 0 four_accounts
       empty_measurements 1000 on_time 0).

(** The counters of incoming messages of a validator. *)
Definition receivedCounters (v : PBFTValidator) : Z * Z * Z :=
  (preparesReceived v, commitsReceived v, viewChangesReceived v).

(** The world of a view change in flight: [faulty_world] with the flag
    set. *)
Definition midViewChange_world : World :=
  set_this (set_viewChangeInProgress true (this faulty_world)) faulty_world.

(** Sum of the [viewChangesSent] counters of the registry. *)
Definition sentViewChanges (w : World) : Z :=
  foldr Z.add 0 (viewChangesSent <$> validators (this w)).

(** Sum of the message counts of the recorded view changes. *)
Definition viewChangeMessages (w : World) : Z :=
  foldr Z.add 0 (ViewChangeRecord.messageCount <$> viewChanges (measurements w)).

(** Between [w] and [w'] the view-change records account for [N] messages
    per acknowledgement sent. *)
Definition acknowledged (w w' : World) : Prop :=
  length (validators (this w')) = length (validators (this w)) /\
  viewChangeMessages w' - viewChangeMessages w =
    Z.of_nat (length (validators (this w))) * (sentViewChanges w' - sentViewChanges w).

(** The script's constants with more Byzantine validators asked for than
    the four accounts can give. *)
Definition overfull_config : Config := {|
  PRE_PREPARE_PHASE_TIME := 200;
  PREPARE_PHASE_TIME := 300;
  COMMIT_PHASE_TIME := 300;
  VIEW_CHANGE_TIMEOUT := 2000;
  BYZANTINE_VALIDATOR_COUNT := 5;
  BYZANTINE_FAILURE_PROBABILITY := (3 # 10)%Q
|}.

(** A phase record that the report counts and whose duration is the
    configured duration of its phase plus the lateness [late k] of a timer.
    The records of the pre-prepare phase, which no accumulator of the report
    counts, are left free. *)
Definition timedPhase (cfg : Config) (late : nat -> Z) (p : PhaseRecord.t) : Prop :=
  PhaseRecord.phase p = "pre-prepare" \/
  (PhaseRecord.phase p = "prepare" /\
   exists k, PhaseRecord.duration p = PREPARE_PHASE_TIME cfg + late k) \/
  (PhaseRecord.phase p = "commit" /\
   exists k, PhaseRecord.duration p = COMMIT_PHASE_TIME cfg + late k).

(** Between [w] and [w'] the phase records that were appended are of this
    kind, for the timers of the run. *)
Definition phasesTimed (cfg : Config) (w w' : World) : Prop :=
  lateness w' = lateness w /\
  exists ps,
    consensusPhases (measurements w') = consensusPhases (measurements w) ++ ps /\
    Forall (timedPhase cfg (lateness w)) ps.

(** What a computation that completes no phase leaves alone. *)
Definition phasesState (w : World) : list PhaseRecord.t * (nat -> Z) :=
  (consensusPhases (measurements w), lateness w).

(** Between [w] and [w'] the view changes that were recorded took the
    configured timeout plus the lateness of a timer of the run. *)
Definition viewChangesTimed (cfg : Config) (w w' : World) : Prop :=
  lateness w' = lateness w /\
  exists recs,
    viewChanges (measurements w') = viewChanges (measurements w) ++ recs /\
    Forall (fun r => exists k, ViewChangeRecord.duration r
                               = VIEW_CHANGE_TIMEOUT cfg + lateness w k) recs.

(** Every timer of the world fires between [lo] and [hi] milliseconds
    late. *)
Definition latenessWithin (lo hi : Z) (w : World) : Prop :=
  forall k, lo <= lateness w k <= hi.

(** An average of the report that lies between [d + lo] and [d + hi] once
    [count] entries were averaged, and is 0 before. *)
Definition averageWithin (d lo hi count : Z) (avg : Q) : Prop :=
  if 0 <? count
  then (inject_Z (d + lo) <= avg)%Q /\ (avg <= inject_Z (d + hi))%Q
  else avg = 0%Q.

(** Number of phase records with the tag [ph]. *)
Definition phaseCount (ph : string) (phases : list PhaseRecord.t) : Z :=
  Z.of_nat (length (List.filter (fun p => String.eqb ph (PhaseRecord.phase p)) phases)).

(** The fault kinds of the registry, slot by slot. *)
Definition kinds (w : World) : list (option FailureType) :=
  byzantineType <$> validators (this w).

(** No validator of the registry is of kind crash. *)
Definition noCrashKind (w : World) : Prop := Some crash ∉ kinds w.

(** The draws 0, 1/2, 0, 0, ...: under them the Byzantine validator is
    slot 0, the primary of view 0, of kind malicious, failing whenever it is
    consulted. *)
Definition malicious_random (d : nat) : Q :=
  match d with
  | S O => (1 # 2)%Q
  | _ => 0%Q
  end.

Definition malicious_world : World :=
  default blank_world
    (new_PBFTConsensus default_config malicious_random 1 four_accounts
       empty_measurements 1000 on_time 0).

(** The [blocksProposed] counters of the registry, slot by slot. *)
Definition proposals (w : World) : list Z :=
  blocksProposed <$> validators (this w).

(** The messages of a round in which all [n] validators take part: the
    proposal to the [n] validators, the prepares of the [n - 1] others and
    the commits of all [n], each sent to the [n] validators. *)
Definition roundMessages (n : Z) : Z := n + (n - 1) * n + n * n.

Definition roundBytes (n : Z) : Z := n * 1024 + (n - 1) * n * 512 + n * n * 512.

(** * Reasoning about computations *)

Section Steps.
Context (R : World -> World -> Prop) (HR : PreOrder R).

Lemma steps_ret {A} (a : A) : steps R (ret a).
Proof. intros w. simpl. reflexivity. Qed.

Lemma steps_throw {A} (e : string) : steps R (@throw A e).
Proof. intros w. simpl. reflexivity. Qed.

Lemma steps_gets {A} (g : World -> A) : steps R (gets g).
Proof. intros w. simpl. reflexivity. Qed.

Lemma steps_bind {A B} (m : M A) (k : A -> M B) :
  steps R m -> (forall a, steps R (k a)) -> steps R (bind m k).
Proof.
  intros Hm Hk w. unfold bind. specialize (Hm w).
  destruct (m w) as [[a|e] w1]; simpl in *; [|exact Hm].
  transitivity w1; [exact Hm|apply Hk].
Qed.

Lemma steps_try_catch {A} (m : M A) (h : string -> M A) :
  steps R m -> (forall e, steps R (h e)) -> steps R (try_catch m h).
Proof.
  intros Hm Hh w. unfold try_catch. specialize (Hm w).
  destruct (m w) as [[a|e] w1]; simpl in *; [exact Hm|].
  transitivity w1; [exact Hm|apply Hh].
Qed.

Lemma steps_forOf {S} (body : nat -> S -> M S) :
  (forall i s, steps R (body i s)) -> forall l s, steps R (forOf l body s).
Proof.
  intros Hb l. induction l as [|i l IH]; intros s; simpl.
  - apply steps_ret.
  - apply steps_bind; [apply Hb|intros s'; apply IH].
Qed.
End Steps.

(** Decomposition of a [steps] goal along the structure of the program;
    what remains are the primitive operations. *)
Ltac steps_split HR :=
  repeat first
    [ apply (steps_ret _ HR) | apply (steps_throw _ HR) | apply (steps_gets _ HR)
    | apply (steps_bind _ HR); [|intros ?]
    | apply (steps_try_catch _ HR); [|intros ?]
    | apply (steps_forOf _ HR); intros ? ?
    | match goal with
      | |- steps _ (match ?x with _ => _ end) => destruct x
      end ].

Ltac prim_unfold :=
  unfold steps, modify, gets, sleep, Date_now, callOn, primaryAddress,
    validatorIndices, exhibitsByzantineFailure, recordByzantineEvent,
    recordNetworkMessages, recordPhaseCompletion, recordConsensusState,
    updateValidator.

(** [steps_with HR tac]: split, then run every primitive on an arbitrary
    world and close the resulting goal with [tac]. *)
Ltac steps_with HR tac :=
  steps_split HR;
  try (prim_unfold; intros ?; simpl; repeat case_match; simpl; tac).

Lemma keeps_preorder {X} (g : World -> X) :
  PreOrder (fun w w' => g w' = g w).
Proof. split; [intros w; reflexivity|intros a b c H1 H2; congruence]. Qed.

Ltac keeps_with tac :=
  match goal with
  | |- keeps ?g _ => unfold keeps; steps_with (keeps_preorder g) tac
  end.

Lemma keeps_eq {X A} (g : World -> X) (m : M A) w o w' :
  keeps g m -> m w = (o, w') -> g w' = g w.
Proof. intros H E. specialize (H w). rewrite E in H. exact H. Qed.

Lemma fmap_alter_keep {A B} (g : A -> B) (h : A -> A) (i : nat) (l : list A) :
  (forall x, g (h x) = g x) -> g <$> alter h i l = g <$> l.
Proof.
  intros H. rewrite (list_fmap_alter g h id).
  - apply list_alter_id. reflexivity.
  - apply Forall_forall. intros x _. apply H.
Qed.

Lemma fmap_alter_keep_at {A B} (g : A -> B) (h : A -> A) (i : nat) (l : list A) x :
  l !! i = Some x -> g (h x) = g x -> g <$> alter h i l = g <$> l.
Proof.
  revert i. induction l as [|y l IH]; intros [|i] Hl Hx; simplify_eq/=.
  - by f_equal.
  - f_equal. by apply IH.
Qed.

Ltac keep_tac :=
  first
    [ reflexivity
    | unfold viewState; simpl; rewrite length_alter; reflexivity
    | apply fmap_alter_keep; intros []; reflexivity
    | apply fmap_alter_keep; intros v; unfold profile; simpl;
      destruct (isByzantine v); reflexivity
    | eapply fmap_alter_keep_at; [eassumption|];
      unfold profile; simpl;
      match goal with
      | H : negb (isByzantine ?v) = false |- _ =>
          destruct (isByzantine v); [reflexivity|discriminate H]
      end
    | apply fmap_alter_keep; intros v; unfold phaseCounters, recordPrepare,
        recordCommit, recordProposal, recordViewChange; simpl; reflexivity
    | congruence ].

Ltac engine_unfold :=
  unfold runConsensus, tryBlock, catchBlock, runPrePreparePhase,
    runPreparePhase, runCommitPhase, initiateViewChange, prepareLoop,
    commitLoop, viewChangeLoop, prepareBody, commitBody, viewChangeBody.

Section Frames.
Variable cfg : Config.
Variable random : nat -> Q.

(** No operation touches [f] or the profile of a validator. *)
Lemma keeps_profile_runConsensus txHash receipt :
  keeps (fun w => (f (this w), profile <$> validators (this w)))
    (runConsensus cfg random txHash receipt).
Proof. engine_unfold. keeps_with ltac:(f_equal; keep_tac). Qed.

(** The three phases leave the view, [f], the height, the view-change
    flag and the size of the registry alone. *)
Lemma keeps_viewState_prepareBody i s :
  keeps viewState (prepareBody cfg random i s).
Proof. engine_unfold. keeps_with keep_tac. Qed.

Lemma keeps_viewState_prepareLoop : keeps viewState (prepareLoop cfg random).
Proof. engine_unfold. keeps_with keep_tac. Qed.

Lemma keeps_viewState_commitLoop : keeps viewState (commitLoop cfg random).
Proof. engine_unfold. keeps_with keep_tac. Qed.

Lemma keeps_viewState_viewChangeLoop : keeps viewState (viewChangeLoop cfg random).
Proof. engine_unfold. keeps_with keep_tac. Qed.

Lemma keeps_viewState_runPrePreparePhase :
  keeps viewState (runPrePreparePhase cfg random).
Proof. engine_unfold. keeps_with keep_tac. Qed.

Lemma keeps_viewState_runPreparePhase :
  keeps viewState (runPreparePhase cfg random).
Proof. engine_unfold. keeps_with keep_tac. Qed.

Lemma keeps_viewState_runCommitPhase :
  keeps viewState (runCommitPhase cfg random).
Proof. engine_unfold. keeps_with keep_tac. Qed.

Lemma keeps_viewState_tryBlock txHash :
  keeps viewState (tryBlock cfg random txHash).
Proof. engine_unfold. keeps_with keep_tac. Qed.

(** The loops do not wait: no time passes and no timer is started. *)
Lemma keeps_now_prepareLoop : keeps clock (prepareLoop cfg random).
Proof. engine_unfold. keeps_with keep_tac. Qed.

Lemma keeps_now_commitLoop : keeps clock (commitLoop cfg random).
Proof. engine_unfold. keeps_with keep_tac. Qed.

(** Nothing changes the lateness of the timers. *)
Lemma keeps_lateness_runConsensus txHash receipt :
  keeps lateness (runConsensus cfg random txHash receipt).
Proof. engine_unfold. keeps_with keep_tac. Qed.

Lemma keeps_lateness_tryBlock txHash :
  keeps lateness (tryBlock cfg random txHash).
Proof. engine_unfold. keeps_with keep_tac. Qed.

(** The loop of the view change writes nothing to the accumulator and
    touches no counter of the three phases. *)
Lemma keeps_measurements_viewChangeLoop :
  keeps (fun w => (measurements w, clock w)) (viewChangeLoop cfg random).
Proof. engine_unfold. keeps_with keep_tac. Qed.

Lemma keeps_phaseCounters_viewChangeLoop :
  keeps (fun w => phaseCounters <$> validators (this w)) (viewChangeLoop cfg random).
Proof. engine_unfold. keeps_with keep_tac. Qed.

(** The phases record no view change. *)
Lemma keeps_viewChanges_tryBlock txHash :
  keeps (fun w => viewChanges (measurements w)) (tryBlock cfg random txHash).
Proof. engine_unfold. keeps_with keep_tac. Qed.
End Frames.

Section Safe.
Context (I : World -> Prop).

Lemma safe_ret {A} (a : A) : safe I (ret a).
Proof. intros w Hw. exists a, w. split; [reflexivity|exact Hw]. Qed.

Lemma safe_gets {A} (g : World -> A) : safe I (gets g).
Proof. intros w Hw. exists (g w), w. split; [reflexivity|exact Hw]. Qed.

Lemma safe_modify (g : World -> World) :
  (forall w, I w -> I (g w)) -> safe I (modify g).
Proof. intros Hg w Hw. exists tt, (g w). split; [reflexivity|auto]. Qed.

Lemma safe_bind {A B} (m : M A) (k : A -> M B) :
  safe I m -> (forall a, safe I (k a)) -> safe I (bind m k).
Proof.
  intros Hm Hk w Hw. destruct (Hm w Hw) as (a & w1 & E1 & Hw1).
  destruct (Hk a w1 Hw1) as (b & w2 & E2 & Hw2).
  exists b, w2. unfold bind. rewrite E1. split; [exact E2|exact Hw2].
Qed.

Lemma safe_forOf {S} (body : nat -> S -> M S) (l : list nat) :
  (forall i s, i ∈ l -> safe I (body i s)) -> forall s, safe I (forOf l body s).
Proof.
  induction l as [|i l IH]; intros Hb s; simpl.
  - apply safe_ret.
  - apply safe_bind.
    + apply Hb. left.
    + intros s'. apply IH. intros j s'' Hj. apply Hb. right. exact Hj.
Qed.
End Safe.

Ltac safe_split :=
  repeat first
    [ apply safe_ret | apply safe_gets
    | apply safe_bind; [|intros ?]
    | match goal with
      | |- safe _ (match ?x with _ => _ end) => destruct x
      end ].

Lemma safe_callOn n i m : (i < n)%nat -> safe (sized n) (callOn i m).
Proof.
  intros Hi w Hw. unfold callOn, sized in *.
  destruct (lookup_lt_is_Some_2 (validators (this w)) i) as [v Hv]; [lia|].
  rewrite Hv. eexists _, _. split; [reflexivity|].
  simpl. rewrite length_alter. exact Hw.
Qed.

Lemma safe_recordByzantineEvent n i ph ft :
  (i < n)%nat -> safe (sized n) (recordByzantineEvent i ph ft).
Proof.
  intros Hi w Hw. unfold recordByzantineEvent, sized in *.
  destruct (lookup_lt_is_Some_2 (validators (this w)) i) as [v Hv]; [lia|].
  rewrite Hv. eexists _, _. split; [reflexivity|exact Hw].
Qed.

Lemma safe_exhibitsByzantineFailure cfg random n i :
  (i < n)%nat -> safe (sized n) (exhibitsByzantineFailure cfg random i).
Proof.
  intros Hi w Hw. unfold exhibitsByzantineFailure, sized in *.
  destruct (lookup_lt_is_Some_2 (validators (this w)) i) as [v Hv]; [lia|].
  rewrite Hv.
  repeat case_match; eexists _, _; (split; [reflexivity|]); simpl;
    rewrite ?length_alter; exact Hw.
Qed.

Section Loops.
Variable cfg : Config.
Variable random : nat -> Q.

Lemma safe_prepareBody n i s :
  (i < n)%nat -> safe (sized n) (prepareBody cfg random i s).
Proof.
  intros Hi. unfold prepareBody. safe_split;
    auto using safe_callOn, safe_recordByzantineEvent,
      safe_exhibitsByzantineFailure.
Qed.

Lemma safe_commitBody n i s :
  (i < n)%nat -> safe (sized n) (commitBody cfg random i s).
Proof.
  intros Hi. unfold commitBody. safe_split;
    auto using safe_callOn, safe_recordByzantineEvent,
      safe_exhibitsByzantineFailure.
Qed.

Lemma safe_viewChangeBody n i s :
  (i < n)%nat -> safe (sized n) (viewChangeBody cfg random i s).
Proof.
  intros Hi. unfold viewChangeBody. safe_split;
    auto using safe_callOn, safe_exhibitsByzantineFailure.
Qed.

(** The three loops run over the slots of the registry and never throw. *)
Lemma prepareLoop_returns w :
  exists c b w', prepareLoop cfg random w = (Ret (c, b), w').
Proof.
  destruct (safe_forOf (sized (length (validators (this w))))
              (prepareBody cfg random) (seq 0 (length (validators (this w))))
              (fun i s Hi => safe_prepareBody _ i s
                 (proj2 (proj1 (elem_of_seq _ _ _) Hi)))
              (0, 0) w eq_refl) as ([c b] & w' & E & _).
  exists c, b, w'. exact E.
Qed.

Lemma commitLoop_returns w :
  exists c b w', commitLoop cfg random w = (Ret (c, b), w').
Proof.
  destruct (safe_forOf (sized (length (validators (this w))))
              (commitBody cfg random) (seq 0 (length (validators (this w))))
              (fun i s Hi => safe_commitBody _ i s
                 (proj2 (proj1 (elem_of_seq _ _ _) Hi)))
              (0, 0) w eq_refl) as ([c b] & w' & E & _).
  exists c, b, w'. exact E.
Qed.

Lemma viewChangeLoop_returns w :
  exists c w', viewChangeLoop cfg random w = (Ret c, w').
Proof.
  destruct (safe_forOf (sized (length (validators (this w))))
              (viewChangeBody cfg random) (seq 0 (length (validators (this w))))
              (fun i s Hi => safe_viewChangeBody _ i s
                 (proj2 (proj1 (elem_of_seq _ _ _) Hi)))
              0 w eq_refl) as (c & w' & E & _).
  exists c, w'. exact E.
Qed.
End Loops.

(** * Well-formed worlds and the primary *)

Lemma primaryIndex_lt c i :
  primaryIndex c = Some i -> (i < length (validators c))%nat.
Proof.
  unfold primaryIndex.
  destruct (Z.eqb_spec (Z.of_nat (length (validators c))) 0) as [|Hn]; [discriminate|].
  destruct (Z.ltb_spec (Z.rem (currentView c) (Z.of_nat (length (validators c)))) 0)
    as [|Hr]; [discriminate|].
  intros [= <-].
  pose proof (Z.rem_bound_abs (currentView c) (Z.of_nat (length (validators c))) Hn).
  lia.
Qed.

Lemma primaryIndex_mod c :
  (0 < length (validators c))%nat -> 0 <= currentView c ->
  primaryIndex c =
    Some (Z.to_nat (currentView c mod Z.of_nat (length (validators c)))).
Proof.
  intros Hn Hv. unfold primaryIndex.
  destruct (Z.eqb_spec (Z.of_nat (length (validators c))) 0) as [|_]; [lia|].
  rewrite Z.rem_mod_nonneg by lia.
  pose proof (Z.mod_pos_bound (currentView c) (Z.of_nat (length (validators c)))).
  destruct (Z.ltb_spec (currentView c mod Z.of_nat (length (validators c))) 0);
    [lia|reflexivity].
Qed.

Lemma primaryIndex_viewState w w' :
  viewState w' = viewState w -> primaryIndex (this w') = primaryIndex (this w).
Proof.
  unfold viewState, primaryIndex. intros [= Hv _ _ _ _ Hn]. rewrite Hv, Hn. reflexivity.
Qed.

Lemma getPrimary_is_Some c :
  (0 < length (validators c))%nat -> 0 <= currentView c ->
  exists i p, primaryIndex c = Some i /\ validators c !! i = Some p /\
              getPrimary c = Some p.
Proof.
  intros Hn Hv. pose proof (primaryIndex_mod c Hn Hv) as Hi.
  destruct (lookup_lt_is_Some_2 (validators c)
              (Z.to_nat (currentView c mod Z.of_nat (length (validators c)))))
    as [p Hp]; [apply primaryIndex_lt; exact Hi|].
  eexists _, p. split; [exact Hi|]. split; [exact Hp|].
  unfold getPrimary. rewrite Hi. exact Hp.
Qed.

Lemma primaryAddress_returns w :
  (0 < length (validators (this w)))%nat -> 0 <= currentView (this w) ->
  exists p, getPrimary (this w) = Some p /\ primaryAddress w = (Ret (address p), w).
Proof.
  intros Hn Hv. destruct (getPrimary_is_Some _ Hn Hv) as (i & p & _ & _ & Hp).
  exists p. split; [exact Hp|]. unfold primaryAddress. rewrite Hp. reflexivity.
Qed.

(** A wait takes as long in two worlds with the same timers. *)
Lemma elapsed_eq ms w w' :
  timers w' = timers w -> lateness w' = lateness w ->
  elapsed ms w' = elapsed ms w.
Proof. unfold elapsed. intros -> ->. reflexivity. Qed.

Lemma elapsed_clock ms w w' : clock w' = clock w -> elapsed ms w' = elapsed ms w.
Proof. unfold clock. intros [= _ Ht Hl]. exact (elapsed_eq ms w w' Ht Hl). Qed.

Lemma wake_clock ms w w' : clock w' = clock w -> clock (wake ms w') = clock (wake ms w).
Proof. unfold clock, wake, elapsed. simpl. intros [= -> -> ->]. reflexivity. Qed.

(** Stepping through a sequence whose first computation is known. *)
Lemma bind_Ret {A B} (m : M A) (k : A -> M B) w a w' :
  m w = (Ret a, w') -> bind m k w = k a w'.
Proof. intros E. unfold bind. rewrite E. reflexivity. Qed.

Lemma bind_Throw {A B} (m : M A) (k : A -> M B) w e w' :
  m w = (Throw e, w') -> bind m k w = (Throw e, w').
Proof. intros E. unfold bind. rewrite E. reflexivity. Qed.

(** * The view change *)

Section ViewChange.
Variable cfg : Config.
Variable random : nat -> Q.

Lemma initiateViewChange_spec reason w :
  wf w ->
  exists cnt w1 w',
    viewChangeLoop cfg random (enterViewChange w) = (Ret cnt, w1) /\
    initiateViewChange cfg random reason w = (Ret (Some (currentView (this w) + 1)), w') /\
    ViewChanged cfg reason cnt w w'.
Proof.
  intros (Hn & Hv & Hflag).
  destruct (viewChangeLoop_returns cfg random (enterViewChange w)) as (cnt & w1 & E).
  pose proof (keeps_eq _ _ _ _ _ (keeps_viewState_viewChangeLoop cfg random) E) as Hvs.
  pose proof (keeps_eq _ _ _ _ _ (keeps_measurements_viewChangeLoop cfg random) E) as Hms.
  pose proof (keeps_eq _ _ _ _ _ (keeps_phaseCounters_viewChangeLoop cfg random) E) as Hpc.
  unfold viewState in Hvs. simpl in Hvs, Hms, Hpc.
  injection Hvs as Hv1 Hf1 Hb1 Hfl1 Hl1 Hn1. unfold clock in Hms. simpl in Hms.
  injection Hms as Hm1 Hnow1 Ht1 Hl8.
  destruct (primaryAddress_returns (set_this (set_viewChangeInProgress true (this w)) w))
    as (p0 & _ & Ep0); [exact Hn|exact Hv|].
  destruct (primaryAddress_returns (wake (VIEW_CHANGE_TIMEOUT cfg) w1))
    as (p & Hp & Ep); [simpl; lia|simpl; lia|].
  exists cnt, w1. eexists. split; [exact E|]. split.
  - unfold initiateViewChange.
    rewrite (bind_Ret _ _ w false w) by (unfold gets; rewrite Hflag; reflexivity).
    erewrite bind_Ret by reflexivity.
    erewrite bind_Ret by reflexivity.
    erewrite bind_Ret by exact Ep0.
    erewrite bind_Ret by reflexivity.
    erewrite bind_Ret by reflexivity.
    erewrite bind_Ret by exact E.
    erewrite bind_Ret by reflexivity.
    erewrite bind_Ret by exact Ep.
    erewrite bind_Ret by reflexivity.
    erewrite bind_Ret by reflexivity.
    erewrite bind_Ret by reflexivity.
    erewrite bind_Ret by reflexivity.
    erewrite bind_Ret by reflexivity.
    erewrite bind_Ret by reflexivity.
    unfold ret. simpl. rewrite Hv1. reflexivity.
  - assert (Hgp : forall c, validators c = validators (this w1) ->
                          currentView c = currentView (this w1) ->
                          getPrimary c = Some p).
    { intros c Hc1 Hc2. rewrite <- Hp. unfold getPrimary, primaryIndex.
      simpl. rewrite Hc1, Hc2. reflexivity. }
    pose proof (elapsed_eq (VIEW_CHANGE_TIMEOUT cfg) _ _ Ht1 Hl8) as Hel.
    constructor; simpl; rewrite ?Hel; try congruence; try lia.
    exists p. split; [apply Hgp; reflexivity|].
    rewrite Hm1, Hnow1, Hn1. repeat f_equal. lia.
Qed.
End ViewChange.

(** * Counting participants and crashes *)

Lemma crashesIn_app ph a b : crashesIn ph (a ++ b) = crashesIn ph a + crashesIn ph b.
Proof. unfold crashesIn. rewrite List.filter_app, length_app. lia. Qed.

Lemma crashesIn_other ph ph' evs :
  ph <> ph' -> Forall (inPhase ph') evs -> crashesIn ph evs = 0.
Proof.
  intros Hne H. unfold crashesIn. induction H as [|e evs He _ IH]; [reflexivity|].
  simpl. unfold isCrashIn at 1. rewrite He.
  destruct (String.eqb_spec ph' ph) as [->|_]; [contradiction|]. simpl. exact IH.
Qed.

Lemma others_seq p s n :
  others p (seq s n) =
    Z.of_nat n - (if bool_decide (s <= p < s + n)%nat then 1 else 0).
Proof.
  unfold others. revert s. induction n as [|n IH]; intros s.
  - simpl. case_bool_decide; [lia|reflexivity].
  - cbn [seq List.filter]. destruct (Nat.eqb_spec s p) as [->|Hne]; cbn [negb].
    + rewrite IH. repeat case_bool_decide; lia.
    + cbn [length]. rewrite Nat2Z.inj_succ, IH. repeat case_bool_decide; lia.
Qed.

Ltac count_fin :=
  repeat split;
  try reflexivity;
  try (repeat constructor; fail);
  try (unfold crashesIn; simpl; lia);
  try (rewrite ?list_lookup_alter_ne by done; reflexivity).

Section Counting.
Variable cfg : Config.
Variable random : nat -> Q.

Lemma prepareBody_count i c b w c' b' w' p :
  primaryIndex (this w) = Some p ->
  prepareBody cfg random i (c, b) w = (Ret (c', b'), w') ->
  exists evs,
    events w' = events w ++ evs /\
    Forall (inPhase "prepare") evs /\
    c' + crashesIn "prepare" evs = c + (if Nat.eqb i p then 0 else 1) /\
    validators (this w') !! p = validators (this w) !! p.
Proof.
  intros Hp. unfold prepareBody, bind, gets, isPrimary. rewrite Hp.
  destruct (Nat.eqb_spec i p) as [->|Hne].
  - intros [= <- <- <-]. exists []. rewrite app_nil_r. repeat split; auto. 
  - unfold exhibitsByzantineFailure, recordByzantineEvent, callOn, ret, events.
    intros H. repeat case_match; simplify_eq/=;
      first [ by (exists []; rewrite app_nil_r; count_fin)
            | by (eexists [_]; count_fin) ].
Qed.

Lemma commitBody_count i c b w c' b' w' :
  commitBody cfg random i (c, b) w = (Ret (c', b'), w') ->
  exists evs,
    events w' = events w ++ evs /\
    Forall (inPhase "commit") evs /\
    c' + crashesIn "commit" evs = c + 1.
Proof.
  unfold commitBody, bind, exhibitsByzantineFailure, recordByzantineEvent,
    callOn, ret, events.
  intros H. repeat case_match; simplify_eq/=;
    first [ by (exists []; rewrite app_nil_r; count_fin)
          | by (eexists [_]; count_fin) ].
Qed.

Lemma others_cons p i l :
  others p (i :: l) = (if Nat.eqb i p then 0 else 1) + others p l.
Proof.
  unfold others. cbn [List.filter]. destruct (Nat.eqb i p); cbn [negb length]; lia.
Qed.

Lemma forOf_prepareBody_count l : forall c b w c' b' w' p,
  primaryIndex (this w) = Some p ->
  forOf l (prepareBody cfg random) (c, b) w = (Ret (c', b'), w') ->
  exists evs,
    events w' = events w ++ evs /\
    Forall (inPhase "prepare") evs /\
    c' + crashesIn "prepare" evs = c + others p l /\
    validators (this w') !! p = validators (this w) !! p.
Proof.
  induction l as [|i l IH]; intros c b w c' b' w' p Hp; cbn [forOf].
  - intros [= <- <- <-]. exists []. rewrite app_nil_r.
    repeat split; try constructor; try (unfold crashesIn, others; simpl; lia).
  - destruct (prepareBody cfg random i (c, b) w) as [[[c1 b1]|e] w1] eqn:E1;
      [rewrite (bind_Ret _ _ _ _ _ E1)
      |rewrite (bind_Throw _ _ _ _ _ E1); intros; discriminate].
    intros E2.
    destruct (prepareBody_count _ _ _ _ _ _ _ _ Hp E1) as (ev1 & He1 & Hf1 & Hc1 & Hv1).
    assert (Hp1 : primaryIndex (this w1) = Some p).
    { rewrite <- Hp. apply primaryIndex_viewState.
      exact (keeps_eq _ _ _ _ _ (keeps_viewState_prepareBody cfg random i (c, b)) E1). }
    destruct (IH _ _ _ _ _ _ _ Hp1 E2) as (ev2 & He2 & Hf2 & Hc2 & Hv2).
    exists (ev1 ++ ev2). rewrite He2, He1, app_assoc, crashesIn_app, others_cons.
    repeat split; [apply Forall_app; auto|lia|congruence].
Qed.

Lemma forOf_commitBody_count l : forall c b w c' b' w',
  forOf l (commitBody cfg random) (c, b) w = (Ret (c', b'), w') ->
  exists evs,
    events w' = events w ++ evs /\
    Forall (inPhase "commit") evs /\
    c' + crashesIn "commit" evs = c + Z.of_nat (length l).
Proof.
  induction l as [|i l IH]; intros c b w c' b' w'; cbn [forOf].
  - intros [= <- <- <-]. exists []. rewrite app_nil_r.
    repeat split; try constructor; try (unfold crashesIn; simpl; lia).
  - destruct (commitBody cfg random i (c, b) w) as [[[c1 b1]|e] w1] eqn:E1;
      [rewrite (bind_Ret _ _ _ _ _ E1)
      |rewrite (bind_Throw _ _ _ _ _ E1); intros; discriminate].
    intros E2.
    destruct (commitBody_count _ _ _ _ _ _ _ E1) as (ev1 & He1 & Hf1 & Hc1).
    destruct (IH _ _ _ _ _ _ E2) as (ev2 & He2 & Hf2 & Hc2).
    exists (ev1 ++ ev2). rewrite He2, He1, app_assoc, crashesIn_app.
    cbn [length]. repeat split; [apply Forall_app; auto|lia].
Qed.

(** The prepare loop counts every slot but the primary's, less the crashed
    ones, and leaves the primary's slot as it was. *)
Lemma prepareLoop_count w c b w1 p :
  primaryIndex (this w) = Some p ->
  prepareLoop cfg random w = (Ret (c, b), w1) ->
  exists evs,
    events w1 = events w ++ evs /\
    Forall (inPhase "prepare") evs /\
    c + crashesIn "prepare" evs = Z.of_nat (length (validators (this w))) - 1 /\
    validators (this w1) !! p = validators (this w) !! p.
Proof.
  intros Hp E. unfold prepareLoop, bind, validatorIndices, gets in E.
  destruct (forOf_prepareBody_count _ _ _ _ _ _ _ _ Hp E) as (evs & He & Hf & Hc & Hv).
  exists evs. repeat split; auto.
  rewrite Hc, others_seq. pose proof (primaryIndex_lt _ _ Hp).
  case_bool_decide; lia.
Qed.

(** The commit loop counts every slot, less the crashed ones. *)
Lemma commitLoop_count w c b w1 :
  commitLoop cfg random w = (Ret (c, b), w1) ->
  exists evs,
    events w1 = events w ++ evs /\
    Forall (inPhase "commit") evs /\
    c + crashesIn "commit" evs = Z.of_nat (length (validators (this w))).
Proof.
  intros E. unfold commitLoop, bind, validatorIndices, gets in E.
  destruct (forOf_commitBody_count _ _ _ _ _ _ _ E) as (evs & He & Hf & Hc).
  exists evs. repeat split; auto. rewrite Hc, length_seq. lia.
Qed.

(** ** The quorum test at the end of a phase *)

Lemma runPreparePhase_spec w c b w1 :
  prepareLoop cfg random w = (Ret (c, b), w1) ->
  (c < 2 * f (this w) + 1 ->
     runPreparePhase cfg random w =
       (Throw (insufficient "prepare" c (2 * f (this w) + 1)),
        wake (PREPARE_PHASE_TIME cfg) w1)) /\
  (2 * f (this w) + 1 <= c ->
     exists w', runPreparePhase cfg random w =
                  (Ret (elapsed (PREPARE_PHASE_TIME cfg) w), w') /\
                events w' = events w1 /\
                clock w' = clock (wake (PREPARE_PHASE_TIME cfg) w1)).
Proof.
  intros E.
  pose proof (keeps_eq _ _ _ _ _ (keeps_viewState_prepareLoop cfg random) E) as Hvs.
  pose proof (keeps_eq _ _ _ _ _ (keeps_now_prepareLoop cfg random) E) as Hck.
  pose proof (elapsed_clock (PREPARE_PHASE_TIME cfg) _ _ Hck) as Hel.
  unfold clock in Hck. injection Hck as Hnow _ _.
  unfold viewState in Hvs. injection Hvs as _ Hf _ _ _ _.
  unfold runPreparePhase.
  erewrite bind_Ret by reflexivity.
  erewrite bind_Ret by exact E.
  cbv beta iota.
  erewrite bind_Ret by reflexivity.
  erewrite bind_Ret by reflexivity.
  simpl. rewrite Hf. split; intros Hc.
  - destruct (Z.ltb_spec c (2 * f (this w) + 1)); [|lia]. reflexivity.
  - destruct (Z.ltb_spec c (2 * f (this w) + 1)); [lia|].
    eexists. split.
    + erewrite bind_Ret by reflexivity.
      erewrite bind_Ret by reflexivity.
      erewrite bind_Ret by reflexivity.
      erewrite bind_Ret by reflexivity.
      unfold ret. simpl. f_equal. f_equal. rewrite Hnow, Hel. lia.
    + split; reflexivity.
Qed.

Lemma runCommitPhase_spec w c b w1 :
  commitLoop cfg random w = (Ret (c, b), w1) ->
  (c < 2 * f (this w) + 1 ->
     runCommitPhase cfg random w =
       (Throw (insufficient "commit" c (2 * f (this w) + 1)),
        wake (COMMIT_PHASE_TIME cfg) w1)) /\
  (2 * f (this w) + 1 <= c ->
     exists w', runCommitPhase cfg random w =
                  (Ret (elapsed (COMMIT_PHASE_TIME cfg) w), w') /\
                events w' = events w1 /\
                clock w' = clock (wake (COMMIT_PHASE_TIME cfg) w1)).
Proof.
  intros E.
  pose proof (keeps_eq _ _ _ _ _ (keeps_viewState_commitLoop cfg random) E) as Hvs.
  pose proof (keeps_eq _ _ _ _ _ (keeps_now_commitLoop cfg random) E) as Hck.
  pose proof (elapsed_clock (COMMIT_PHASE_TIME cfg) _ _ Hck) as Hel.
  unfold clock in Hck. injection Hck as Hnow _ _.
  unfold viewState in Hvs. injection Hvs as _ Hf _ _ _ _.
  unfold runCommitPhase.
  erewrite bind_Ret by reflexivity.
  erewrite bind_Ret by exact E.
  cbv beta iota.
  erewrite bind_Ret by reflexivity.
  erewrite bind_Ret by reflexivity.
  simpl. rewrite Hf. split; intros Hc.
  - destruct (Z.ltb_spec c (2 * f (this w) + 1)); [|lia]. reflexivity.
  - destruct (Z.ltb_spec c (2 * f (this w) + 1)); [lia|].
    eexists. split.
    + erewrite bind_Ret by reflexivity.
      erewrite bind_Ret by reflexivity.
      erewrite bind_Ret by reflexivity.
      erewrite bind_Ret by reflexivity.
      unfold ret. simpl. f_equal. f_equal. rewrite Hnow, Hel. lia.
    + split; reflexivity.
Qed.

(** Whether it reaches its quorum or not, a phase waits once. *)
Lemma runPreparePhase_clock w o w' :
  runPreparePhase cfg random w = (o, w') ->
  clock w' = clock (wake (PREPARE_PHASE_TIME cfg) w).
Proof.
  intros E. destruct (prepareLoop_returns cfg random w) as (c & b & w1 & El).
  pose proof (keeps_eq _ _ _ _ _ (keeps_now_prepareLoop cfg random) El) as Hck.
  apply (wake_clock (PREPARE_PHASE_TIME cfg)) in Hck.
  destruct (runPreparePhase_spec _ _ _ _ El) as [Hlt Hge].
  destruct (Z.lt_ge_cases c (2 * f (this w) + 1)) as [H|H].
  - rewrite (Hlt H) in E. injection E as _ <-. exact Hck.
  - destruct (Hge H) as (w2 & E2 & _ & Hc2). rewrite E2 in E. injection E as _ <-.
    congruence.
Qed.

Lemma runCommitPhase_clock w o w' :
  runCommitPhase cfg random w = (o, w') ->
  clock w' = clock (wake (COMMIT_PHASE_TIME cfg) w).
Proof.
  intros E. destruct (commitLoop_returns cfg random w) as (c & b & w1 & El).
  pose proof (keeps_eq _ _ _ _ _ (keeps_now_commitLoop cfg random) El) as Hck.
  apply (wake_clock (COMMIT_PHASE_TIME cfg)) in Hck.
  destruct (runCommitPhase_spec _ _ _ _ El) as [Hlt Hge].
  destruct (Z.lt_ge_cases c (2 * f (this w) + 1)) as [H|H].
  - rewrite (Hlt H) in E. injection E as _ <-. exact Hck.
  - destruct (Hge H) as (w2 & E2 & _ & Hc2). rewrite E2 in E. injection E as _ <-.
    congruence.
Qed.
End Counting.

(** * One round *)

Lemma appendsIn_preorder ph : PreOrder (appendsIn ph).
Proof.
  split.
  - intros w. exists []. rewrite app_nil_r. split; [reflexivity|constructor].
  - intros a b c (e1 & H1 & F1) (e2 & H2 & F2). exists (e1 ++ e2).
    rewrite H2, H1, app_assoc. split; [reflexivity|apply Forall_app; auto].
Qed.

Ltac appends_tac :=
  first
    [ by (exists []; rewrite app_nil_r; split; [reflexivity|constructor])
    | by (eexists [_]; split; [reflexivity|repeat constructor]) ].

Section Round.
Variable cfg : Config.
Variable random : nat -> Q.

Lemma appendsIn_runPrePreparePhase :
  steps (appendsIn "pre-prepare") (runPrePreparePhase cfg random).
Proof.
  engine_unfold.
  steps_with (appendsIn_preorder "pre-prepare") ltac:(unfold appendsIn, events; simpl; appends_tac).
Qed.

Lemma appendsIn_runPreparePhase :
  steps (appendsIn "prepare") (runPreparePhase cfg random).
Proof.
  engine_unfold.
  steps_with (appendsIn_preorder "prepare") ltac:(unfold appendsIn, events; simpl; appends_tac).
Qed.

Lemma appendsIn_runCommitPhase :
  steps (appendsIn "commit") (runCommitPhase cfg random).
Proof.
  engine_unfold.
  steps_with (appendsIn_preorder "commit") ltac:(unfold appendsIn, events; simpl; appends_tac).
Qed.

(** How far the [try] block gets. *)
Lemma tryBlock_outcome txHash w0 :
  (0 < length (validators (this w0)))%nat -> 0 <= currentView (this w0) ->
  (exists e w1,
      runPrePreparePhase cfg random w0 = (Throw e, w1) /\
      tryBlock cfg random txHash w0 = (Throw e, w1)) \/
  (exists pp w1 e w2,
      runPrePreparePhase cfg random w0 = (Ret pp, w1) /\
      runPreparePhase cfg random w1 = (Throw e, w2) /\
      tryBlock cfg random txHash w0 = (Throw e, w2)) \/
  (exists pp w1 p w2 e w3,
      runPrePreparePhase cfg random w0 = (Ret pp, w1) /\
      runPreparePhase cfg random w1 = (Ret p, w2) /\
      runCommitPhase cfg random w2 = (Throw e, w3) /\
      tryBlock cfg random txHash w0 = (Throw e, w3)) \/
  (exists pp w1 p w2 c w3 prim,
      runPrePreparePhase cfg random w0 = (Ret pp, w1) /\
      runPreparePhase cfg random w1 = (Ret p, w2) /\
      runCommitPhase cfg random w2 = (Ret c, w3) /\
      getPrimary (this w3) = Some prim /\
      tryBlock cfg random txHash w0 =
        (Ret (successResult (blockHeight (this w0)) (currentView (this w0))
                (address prim) pp p c txHash (now w3)), w3)).
Proof.
  intros Hn Hv. unfold tryBlock.
  destruct (runPrePreparePhase cfg random w0) as [[pp|e] w1] eqn:E1.
  2: { left. exists e, w1. split; [reflexivity|]. rewrite (bind_Throw _ _ _ _ _ E1). reflexivity. }
  right. rewrite (bind_Ret _ _ _ _ _ E1).
  destruct (runPreparePhase cfg random w1) as [[p|e] w2] eqn:E2.
  2: { left. exists pp, w1, e, w2. repeat split; try assumption. rewrite (bind_Throw _ _ _ _ _ E2). reflexivity. }
  right. rewrite (bind_Ret _ _ _ _ _ E2).
  destruct (runCommitPhase cfg random w2) as [[c|e] w3] eqn:E3.
  2: { left. exists pp, w1, p, w2, e, w3. repeat split; try assumption. rewrite (bind_Throw _ _ _ _ _ E3). reflexivity. }
  right. rewrite (bind_Ret _ _ _ _ _ E3).
  pose proof (keeps_eq _ _ _ _ _ (keeps_viewState_runPrePreparePhase cfg random) E1) as V1.
  pose proof (keeps_eq _ _ _ _ _ (keeps_viewState_runPreparePhase cfg random) E2) as V2.
  pose proof (keeps_eq _ _ _ _ _ (keeps_viewState_runCommitPhase cfg random) E3) as V3.
  assert (V : viewState w3 = viewState w0) by congruence.
  unfold viewState in V. injection V as Hv3 _ Hb3 _ _ Hn3.
  destruct (primaryAddress_returns w3) as (prim & Hp & Ep); [lia|lia|].
  exists pp, w1, p, w2, c, w3, prim. repeat split; try assumption.
  erewrite bind_Ret by reflexivity.
  erewrite bind_Ret by reflexivity.
  erewrite bind_Ret by exact Ep.
  erewrite bind_Ret by reflexivity.
  cbn [gets Date_now ret]. rewrite Hv3, Hb3. reflexivity.
Qed.

(** The two ways a round ends: committed, or failed with a completed view
    change behind it. *)
Lemma runConsensus_outcome txHash receipt w :
  wf w ->
  (exists r w3,
      tryBlock cfg random txHash (nextHeight w) = (Ret r, w3) /\
      runConsensus cfg random txHash receipt w =
        (Ret r, snd (recordConsensusState "consensus_complete" (Some r) w3))) \/
  (exists e w1 cnt w2,
      tryBlock cfg random txHash (nextHeight w) = (Throw e, w1) /\
      initiateViewChange cfg random e w1 = (Ret (Some (currentView (this w) + 1)), w2) /\
      ViewChanged cfg e cnt w1 w2 /\
      runConsensus cfg random txHash receipt w =
        (Ret (failureResult (blockHeight (this w) + 1) (currentView (this w) + 1) e (now w2)),
         snd (recordConsensusState "consensus_complete"
                (Some (failureResult (blockHeight (this w) + 1)
                         (currentView (this w) + 1) e (now w2))) w2))).
Proof.
  intros (Hn & Hv & Hflag). unfold runConsensus.
  erewrite bind_Ret by reflexivity. fold (nextHeight w).
  destruct (primaryAddress_returns (nextHeight w)) as (p0 & _ & Ep0); [exact Hn|exact Hv|].
  erewrite bind_Ret by exact Ep0.
  destruct (tryBlock cfg random txHash (nextHeight w)) as [[r|e] w1] eqn:E.
  - left. exists r, w1. split; [reflexivity|].
    erewrite bind_Ret by (unfold try_catch; rewrite E; reflexivity).
    erewrite bind_Ret by reflexivity. reflexivity.
  - right.
    pose proof (keeps_eq _ _ _ _ _ (keeps_viewState_tryBlock cfg random txHash) E) as V.
    unfold viewState in V. simpl in V. injection V as Hv1 _ Hb1 Hfl1 _ Hn1.
    destruct (initiateViewChange_spec cfg random e w1) as (cnt & wl & w2 & _ & Evc & Hvc).
    { repeat split; [lia|lia|congruence]. }
    exists e, w1, cnt, w2. rewrite <- Hv1. split_and!; [reflexivity|exact Evc|exact Hvc|].
    assert (Ec : catchBlock cfg random e w1 =
                 (Ret (failureResult (blockHeight (this w) + 1)
                         (currentView (this w1) + 1) e (now w2)), w2)).
    { unfold catchBlock.
      rewrite (bind_Ret _ _ w1 false w1) by (unfold gets; rewrite Hfl1, Hflag; reflexivity).
      erewrite bind_Ret by exact Evc.
      erewrite bind_Ret by reflexivity.
      erewrite bind_Ret by reflexivity.
      erewrite bind_Ret by reflexivity.
      cbn [ret]. rewrite (vc_view _ _ _ _ _ Hvc), (vc_height _ _ _ _ _ Hvc), Hb1.
      reflexivity. }
    erewrite bind_Ret by (unfold try_catch; rewrite E; exact Ec).
    erewrite bind_Ret by reflexivity. reflexivity.
Qed.

(** Well-formedness is an invariant of the rounds. *)
Lemma wf_runConsensus txHash receipt w :
  wf w -> wf (snd (runConsensus cfg random txHash receipt w)).
Proof.
  intros Hw. pose proof Hw as (Hn & Hv & Hflag).
  destruct (runConsensus_outcome txHash receipt w Hw)
    as [(r & w3 & E & ->)|(e & w1 & cnt & w2 & E & _ & Hvc & ->)].
  - pose proof (keeps_eq _ _ _ _ _ (keeps_viewState_tryBlock cfg random txHash) E) as V.
    unfold viewState in V. simpl in V. injection V as Hv1 _ _ Hfl1 _ Hn1.
    unfold wf. simpl. repeat split; [lia|lia|congruence].
  - pose proof (keeps_eq _ _ _ _ _ (keeps_viewState_tryBlock cfg random txHash) E) as V.
    unfold viewState in V. simpl in V. injection V as Hv1 _ _ Hfl1 _ Hn1.
    destruct Hvc. unfold wf. simpl. repeat split; [lia|lia|congruence].
Qed.
End Round.

Lemma newEvents_app w w' evs :
  events w' = events w ++ evs -> newEvents w w' = evs.
Proof. intros H. unfold newEvents. rewrite H. apply drop_app_length. Qed.

Section Claims.
Variable cfg : Config.
Variable random : nat -> Q.

(** C1. A phase reaches agreement if and only if its participant count is
    at least [2f+1], whatever the count and [f]: the prepare phase and the
    commit phase throw "Insufficient ... messages: count/required" exactly
    when the count their loop collected is below [2f+1], and return
    otherwise.  In a round, a prepare (commit) count below [2f+1] makes
    [runConsensus] return a failure whose error is that message, and a
    commit count of at least [2f+1] makes it return a success. *)
Theorem quorum_decides_phase txHash receipt w :
  wf w ->
  (forall w1, exists c b w1',
      prepareLoop cfg random w1 = (Ret (c, b), w1') /\
      (c < 2 * f (this w1) + 1 <->
         fst (runPreparePhase cfg random w1) =
           Throw (insufficient "prepare" c (2 * f (this w1) + 1))) /\
      (2 * f (this w1) + 1 <= c <->
         exists d, fst (runPreparePhase cfg random w1) = Ret d)) /\
  (forall w2, exists c b w2',
      commitLoop cfg random w2 = (Ret (c, b), w2') /\
      (c < 2 * f (this w2) + 1 <->
         fst (runCommitPhase cfg random w2) =
           Throw (insufficient "commit" c (2 * f (this w2) + 1))) /\
      (2 * f (this w2) + 1 <= c <->
         exists d, fst (runCommitPhase cfg random w2) = Ret d)) /\
  (forall pp w1 c b w1',
      runPrePreparePhase cfg random (nextHeight w) = (Ret pp, w1) ->
      prepareLoop cfg random w1 = (Ret (c, b), w1') ->
      c < 2 * f (this w) + 1 ->
      exists r, fst (runConsensus cfg random txHash receipt w) = Ret r /\
                getProp "success" r = JSBool false /\
                getProp "error" r =
                  JSStr (insufficient "prepare" c (2 * f (this w) + 1))) /\
  (forall pp w1 p w2 c b w2',
      runPrePreparePhase cfg random (nextHeight w) = (Ret pp, w1) ->
      runPreparePhase cfg random w1 = (Ret p, w2) ->
      commitLoop cfg random w2 = (Ret (c, b), w2') ->
      exists r, fst (runConsensus cfg random txHash receipt w) = Ret r /\
        (c < 2 * f (this w) + 1 ->
           getProp "success" r = JSBool false /\
           getProp "error" r =
             JSStr (insufficient "commit" c (2 * f (this w) + 1))) /\
        (2 * f (this w) + 1 <= c -> getProp "success" r = JSBool true)).
Proof.
  intros Hw. split_and!.
  - intros w1. destruct (prepareLoop_returns cfg random w1) as (c & b & w1' & E).
    exists c, b, w1'. split; [exact E|].
    destruct (runPreparePhase_spec cfg random _ _ _ _ E) as [Hlt Hge].
    split; split.
    + intros H. rewrite (Hlt H). reflexivity.
    + intros H. destruct (Z.lt_ge_cases c (2 * f (this w1) + 1)) as [|H']; [assumption|].
      destruct (Hge H') as (w' & E' & _). rewrite E' in H. discriminate.
    + intros H. destruct (Hge H) as (w' & E' & _). rewrite E'. eexists. reflexivity.
    + intros [d H]. destruct (Z.lt_ge_cases c (2 * f (this w1) + 1)) as [H'|]; [|assumption].
      rewrite (Hlt H') in H. discriminate.
  - intros w2. destruct (commitLoop_returns cfg random w2) as (c & b & w2' & E).
    exists c, b, w2'. split; [exact E|].
    destruct (runCommitPhase_spec cfg random _ _ _ _ E) as [Hlt Hge].
    split; split.
    + intros H. rewrite (Hlt H). reflexivity.
    + intros H. destruct (Z.lt_ge_cases c (2 * f (this w2) + 1)) as [|H']; [assumption|].
      destruct (Hge H') as (w' & E' & _). rewrite E' in H. discriminate.
    + intros H. destruct (Hge H) as (w' & E' & _). rewrite E'. eexists. reflexivity.
    + intros [d H]. destruct (Z.lt_ge_cases c (2 * f (this w2) + 1)) as [H'|]; [|assumption].
      rewrite (Hlt H') in H. discriminate.
  - intros pp w1 c b w1' E1 El Hc.
    pose proof (keeps_eq _ _ _ _ _ (keeps_viewState_runPrePreparePhase cfg random) E1) as V.
    unfold viewState in V. simpl in V. injection V as _ Hf _ _ _ _.
    destruct (runPreparePhase_spec cfg random _ _ _ _ El) as [Hlt _].
    rewrite Hf in Hlt. specialize (Hlt Hc).
    assert (Et : tryBlock cfg random txHash (nextHeight w) =
                 (Throw (insufficient "prepare" c (2 * f (this w) + 1)),
                  wake (PREPARE_PHASE_TIME cfg) w1')).
    { unfold tryBlock. rewrite (bind_Ret _ _ _ _ _ E1).
      rewrite (bind_Throw _ _ _ _ _ Hlt). reflexivity. }
    destruct (runConsensus_outcome cfg random txHash receipt w Hw)
      as [(r & w3 & E & _)|(e & wa & cnt & wb & E & _ & _ & ->)];
      rewrite Et in E; [discriminate|].
    injection E as <- <-. eexists. split; [reflexivity|]. split; reflexivity.
  - intros pp w1 p w2 c b w2' E1 E2 El.
    pose proof (keeps_eq _ _ _ _ _ (keeps_viewState_runPrePreparePhase cfg random) E1) as V1.
    pose proof (keeps_eq _ _ _ _ _ (keeps_viewState_runPreparePhase cfg random) E2) as V2.
    assert (V : viewState w2 = viewState (nextHeight w)) by congruence.
    unfold viewState in V. simpl in V. injection V as _ Hf _ _ _ _.
    destruct (runCommitPhase_spec cfg random _ _ _ _ El) as [Hlt Hge].
    rewrite Hf in Hlt, Hge.
    destruct (runConsensus_outcome cfg random txHash receipt w Hw)
      as [(r & w3 & E & ->)|(e & wa & cnt & wb & E & _ & _ & ->)].
    + exists r. split; [reflexivity|]. split; intros Hc.
      * specialize (Hlt Hc). exfalso. unfold tryBlock in E.
        rewrite (bind_Ret _ _ _ _ _ E1), (bind_Ret _ _ _ _ _ E2),
          (bind_Throw _ _ _ _ _ Hlt) in E. discriminate.
      * destruct (Hge Hc) as (w' & E3 & _). unfold tryBlock in E.
        rewrite (bind_Ret _ _ _ _ _ E1), (bind_Ret _ _ _ _ _ E2),
          (bind_Ret _ _ _ _ _ E3) in E.
        unfold bind, gets, primaryAddress, Date_now, ret in E.
        destruct (getPrimary (this w')); [|discriminate].
        injection E as <- _. reflexivity.
    + eexists. split; [reflexivity|]. split; intros Hc.
      * specialize (Hlt Hc). unfold tryBlock in E.
        rewrite (bind_Ret _ _ _ _ _ E1), (bind_Ret _ _ _ _ _ E2),
          (bind_Throw _ _ _ _ _ Hlt) in E. injection E as <- _.
        split; reflexivity.
      * exfalso. destruct (Hge Hc) as (w' & E3 & _). unfold tryBlock in E.
        rewrite (bind_Ret _ _ _ _ _ E1), (bind_Ret _ _ _ _ _ E2),
          (bind_Ret _ _ _ _ _ E3) in E.
        pose proof (keeps_eq _ _ _ _ _ (keeps_viewState_runCommitPhase cfg random) E3) as V3.
        assert (V : viewState w' = viewState (nextHeight w)) by congruence.
        unfold viewState in V. simpl in V. injection V as Hv3 _ _ _ _ Hn3.
        destruct Hw as (Hn & Hv & _).
        destruct (primaryAddress_returns w') as (prim & _ & Ep); [lia|lia|].
        unfold bind, gets, Date_now, ret in E. rewrite Ep in E. discriminate.
Qed.


(** ** A fault of the primary in pre-prepare *)

Lemma exhibits_Some i w ft :
  fst (exhibitsByzantineFailure cfg random i w) = Ret (Some ft) ->
  exists v,
    validators (this w) !! i = Some v /\
    isByzantine v = true /\
    byzantineType v = Some ft /\
    exhibitsByzantineFailure cfg random i w =
      (Ret (Some ft),
       updateValidator i (fun v => set_failures (failures v + 1) v)
         (set_draws (S (draws w)) w)).
Proof.
  unfold exhibitsByzantineFailure. intros H.
  destruct (validators (this w) !! i) as [v|] eqn:Hv; [|discriminate].
  exists v. destruct (isByzantine v); simpl in *; [|discriminate].
  destruct (Qltb _ _); simpl in *; [|discriminate].
  injection H as H. rewrite H. repeat split; reflexivity.
Qed.

Lemma exhibits_nextHeight i w :
  fst (exhibitsByzantineFailure cfg random i (nextHeight w)) =
  fst (exhibitsByzantineFailure cfg random i w).
Proof.
  unfold exhibitsByzantineFailure, nextHeight. simpl.
  repeat case_match; reflexivity.
Qed.

Lemma runPrePreparePhase_crash w p :
  primaryIndex (this w) = Some p ->
  fst (exhibitsByzantineFailure cfg random p w) = Ret (Some crash) ->
  exists v w1,
    validators (this w) !! p = Some v /\
    runPrePreparePhase cfg random w =
      (Throw "Primary crashed during pre-prepare phase", w1) /\
    events w1 = events w ++
      [ {| ByzantineEvent.timestamp := now w;
           ByzantineEvent.validator := address v;
           ByzantineEvent.validatorIndex := index v;
           ByzantineEvent.blockHeight := blockHeight (this w);
           ByzantineEvent.view := currentView (this w);
           ByzantineEvent.phase := "pre-prepare";
           ByzantineEvent.failureType := crash |} ] /\
    phaseCounters <$> validators (this w1) = phaseCounters <$> validators (this w) /\
    consensusPhases (measurements w1) = consensusPhases (measurements w) /\
    networkMessages (measurements w1) = networkMessages (measurements w) /\
    viewChanges (measurements w1) = viewChanges (measurements w) /\
    clock w1 = clock w.
Proof.
  intros Hp H. destruct (exhibits_Some _ _ _ H) as (v & Hv & _ & _ & E).
  exists v. eexists. split; [exact Hv|]. split.
  - unfold runPrePreparePhase.
    erewrite bind_Ret by reflexivity.
    erewrite bind_Ret by (rewrite Hp; reflexivity).
    erewrite bind_Ret by exact E.
    erewrite bind_Throw; [reflexivity|].
    erewrite bind_Ret; [reflexivity|].
    unfold recordByzantineEvent, updateValidator. simpl.
    rewrite list_lookup_alter_eq, Hv. simpl. reflexivity.
  - unfold events. simpl. split_and!; try reflexivity.
    apply fmap_alter_keep. intros []. reflexivity.
Qed.

(** C3. When the fault model yields crash for the primary in pre-prepare,
    the round returns the failure "Primary crashed during pre-prepare phase":
    no proposal counter is incremented, no prepare or commit is sent, no
    phase record and no network message is written, the only event is the
    crash of the primary, and a view change to the next view is recorded
    before the result is returned. *)
Theorem primary_crash_aborts txHash receipt w p :
  wf w ->
  primaryIndex (this w) = Some p ->
  fst (exhibitsByzantineFailure cfg random p w) = Ret (Some crash) ->
  exists v t cnt prim w',
    validators (this w) !! p = Some v /\
    runConsensus cfg random txHash receipt w =
      (Ret (failureResult (blockHeight (this w) + 1) (currentView (this w) + 1)
              "Primary crashed during pre-prepare phase" t), w') /\
    blocksProposed <$> validators (this w') = blocksProposed <$> validators (this w) /\
    preparesSent <$> validators (this w') = preparesSent <$> validators (this w) /\
    commitsSent <$> validators (this w') = commitsSent <$> validators (this w) /\
    consensusPhases (measurements w') = consensusPhases (measurements w) /\
    networkMessages (measurements w') = networkMessages (measurements w) /\
    events w' = events w ++
      [ {| ByzantineEvent.timestamp := now w;
           ByzantineEvent.validator := address v;
           ByzantineEvent.validatorIndex := index v;
           ByzantineEvent.blockHeight := blockHeight (this w) + 1;
           ByzantineEvent.view := currentView (this w);
           ByzantineEvent.phase := "pre-prepare";
           ByzantineEvent.failureType := crash |} ] /\
    currentView (this w') = currentView (this w) + 1 /\
    getPrimary (this w') = Some prim /\
    viewChanges (measurements w') = viewChanges (measurements w) ++
      [ {| ViewChangeRecord.timestamp := t;
           ViewChangeRecord.oldView := currentView (this w);
           ViewChangeRecord.newView := currentView (this w) + 1;
           ViewChangeRecord.reason := "Primary crashed during pre-prepare phase";
           ViewChangeRecord.duration := elapsed (VIEW_CHANGE_TIMEOUT cfg) w;
           ViewChangeRecord.messageCount :=
             cnt * Z.of_nat (length (validators (this w)));
           ViewChangeRecord.newPrimary := address prim |} ].
Proof.
  intros Hw Hp Hc.
  rewrite <- exhibits_nextHeight in Hc.
  destruct (runPrePreparePhase_crash (nextHeight w) p Hp Hc)
    as (v & w1 & Hv & E1 & He & Hpc & Hcp & Hnm & Hvc1 & Hnow).
  assert (Et : tryBlock cfg random txHash (nextHeight w) =
               (Throw "Primary crashed during pre-prepare phase", w1)).
  { unfold tryBlock. rewrite (bind_Throw _ _ _ _ _ E1). reflexivity. }
  pose proof (keeps_eq _ _ _ _ _ (keeps_viewState_tryBlock cfg random txHash) Et) as V.
  unfold viewState in V. simpl in V. injection V as Hv1 _ _ _ _ Hn1.
  destruct (runConsensus_outcome cfg random txHash receipt w Hw)
    as [(r & w3 & E & _)|(e & wa & cnt & wb & E & _ & Hvc & ->)];
    rewrite Et in E; [discriminate|].
  injection E as <- <-.
  destruct Hvc as [Vview Vflag Vf Vh Vlen Vnow Vt Vl (prim & Hprim & Hrec) Vev Vph Vmsg Vcnt].
  exists v, (now wb), cnt, prim. eexists. split; [exact Hv|]. split; [reflexivity|].
  pose proof (elapsed_clock (VIEW_CHANGE_TIMEOUT cfg) _ _ Hnow) as Hel.
  simpl in Hpc, Hcp, Hnm, Hvc1.
  assert (Hpc' : phaseCounters <$> validators (this wb) =
                 phaseCounters <$> validators (this w)) by congruence.
  simpl. split_and!.
  - apply (f_equal (fmap (fun x : Z * Z * Z * Z * Z => snd x))) in Hpc'.
    rewrite <- !list_fmap_compose in Hpc'. exact Hpc'.
  - apply (f_equal (fmap (fun x : Z * Z * Z * Z * Z => fst (fst (fst (fst x)))))) in Hpc'.
    rewrite <- !list_fmap_compose in Hpc'. exact Hpc'.
  - apply (f_equal (fmap (fun x : Z * Z * Z * Z * Z => snd (fst (fst x))))) in Hpc'.
    rewrite <- !list_fmap_compose in Hpc'. exact Hpc'.
  - congruence.
  - congruence.
  - unfold events in *. simpl in *. rewrite Vev. exact He.
  - lia.
  - exact Hprim.
  - rewrite Hrec, Hvc1, Hv1, Hn1, Hel. reflexivity.
Qed.
End Claims.


(** * Runs of several rounds *)

Lemma viewGrows_preorder : PreOrder viewGrows.
Proof.
  split.
  - intros w. split; [lia|]. exists []. rewrite app_nil_r. split; [reflexivity|constructor].
  - intros a b c [L1 (r1 & H1 & F1)] [L2 (r2 & H2 & F2)]. split; [lia|].
    exists (r1 ++ r2). rewrite H2, H1, app_assoc. split; [reflexivity|].
    apply Forall_app; auto.
Qed.

Section Runs.
Variable cfg : Config.
Variable random : nat -> Q.

(** Induction over the rounds of a run: an invariant [I] of the worlds
    between rounds, a preorder [P] on them and a property [Q] of every
    round result. *)
Lemma runRounds_ind (I : World -> Prop) (P : World -> World -> Prop)
    (Q : JSObject -> Prop) :
  PreOrder P ->
  (forall txHash receipt w, I w ->
     exists r w', runConsensus cfg random txHash receipt w = (Ret r, w') /\
                  I w' /\ P w w' /\ Q r) ->
  forall txs w, I w ->
    exists rs w', runRounds cfg random txs w = (Ret rs, w') /\
                  length rs = length txs /\ I w' /\ P w w' /\ Forall Q rs.
Proof.
  intros HP Hstep txs. induction txs as [|[txHash receipt] txs IH]; intros w Hw.
  - exists [], w. split_and!; try reflexivity; [exact Hw|constructor].
  - destruct (Hstep txHash receipt w Hw) as (r & w1 & E1 & Hw1 & P1 & Q1).
    destruct (IH w1 Hw1) as (rs & w' & E2 & Hlen & Hw' & P2 & Q2).
    exists (r :: rs), w'. split_and!.
    + cbn [runRounds]. rewrite (bind_Ret _ _ _ _ _ E1), (bind_Ret _ _ _ _ _ E2).
      reflexivity.
    + simpl. rewrite Hlen. reflexivity.
    + exact Hw'.
    + transitivity w1; assumption.
    + constructor; assumption.
Qed.

(** The shape of the result of a round and of the world it leaves. *)
Lemma runConsensus_result txHash receipt w :
  wf w ->
  exists r w',
    runConsensus cfg random txHash receipt w = (Ret r, w') /\
    wf w' /\
    ((exists prim pp p c t,
        r = successResult (blockHeight (this w) + 1) (currentView (this w))
              (address prim) pp p c txHash t /\
        currentView (this w') = currentView (this w) /\
        viewChanges (measurements w') = viewChanges (measurements w)) \/
     (exists e cnt prim k,
        r = failureResult (blockHeight (this w) + 1) (currentView (this w) + 1)
              e (now w') /\
        currentView (this w') = currentView (this w) + 1 /\
        getPrimary (this w') = Some prim /\
        viewChanges (measurements w') = viewChanges (measurements w) ++
          [ {| ViewChangeRecord.timestamp := now w';
               ViewChangeRecord.oldView := currentView (this w);
               ViewChangeRecord.newView := currentView (this w) + 1;
               ViewChangeRecord.reason := e;
               ViewChangeRecord.duration := VIEW_CHANGE_TIMEOUT cfg + lateness w k;
               ViewChangeRecord.messageCount :=
                 cnt * Z.of_nat (length (validators (this w)));
               ViewChangeRecord.newPrimary := address prim |} ])).
Proof.
  intros Hw. pose proof (wf_runConsensus cfg random txHash receipt w Hw) as Hw'.
  pose proof Hw as (Hn & Hv & Hflag).
  destruct (runConsensus_outcome cfg random txHash receipt w Hw)
    as [(r & w3 & E & Er)|(e & w1 & cnt & w2 & E & _ & Hvc & Er)];
    rewrite Er in Hw' |- *; eexists _, _; (split; [reflexivity|]);
    (split; [exact Hw'|]).
  - left.
    pose proof (keeps_eq _ _ _ _ _ (keeps_viewState_tryBlock cfg random txHash) E) as V.
    pose proof (keeps_eq _ _ _ _ _ (keeps_viewChanges_tryBlock cfg random txHash) E) as Hvcs.
    unfold viewState in V. simpl in V, Hvcs. injection V as Hv3 _ _ _ _ _.
    destruct (tryBlock_outcome cfg random txHash (nextHeight w) Hn Hv)
      as [(e & w1 & _ & E')|[(pp & w1 & e & w2 & _ & _ & E')
         |[(pp & w1 & p & w2 & e & w3' & _ & _ & _ & E')
          |(pp & w1 & p & w2 & c & w3' & prim & _ & _ & _ & _ & E')]]];
      rewrite E in E'; try discriminate.
    injection E' as -> ->. exists prim, pp, p, c, (now w3').
    simpl. split_and!; [reflexivity|exact Hv3|exact Hvcs].
  - right.
    pose proof (keeps_eq _ _ _ _ _ (keeps_viewState_tryBlock cfg random txHash) E) as V.
    pose proof (keeps_eq _ _ _ _ _ (keeps_viewChanges_tryBlock cfg random txHash) E) as Hvcs.
    unfold viewState in V. simpl in V, Hvcs. injection V as Hv1 _ _ _ _ Hn1.
    destruct Hvc as [Vview Vflag Vf Vh Vlen Vnow Vt Vl (prim & Hprim & Hrec) Vev Vph Vmsg Vcnt].
    pose proof (keeps_eq _ _ _ _ _ (keeps_lateness_tryBlock cfg random txHash) E) as Hl1.
    exists e, cnt, prim, (timers w1). simpl.
    split_and!; [reflexivity|lia|exact Hprim|].
    rewrite Hrec, Hvcs, Hv1, Hn1. unfold elapsed. rewrite Hl1. reflexivity.
Qed.

Lemma runConsensus_viewGrows txHash receipt w :
  wf w ->
  exists r w', runConsensus cfg random txHash receipt w = (Ret r, w') /\
               wf w' /\ viewGrows w w' /\ True.
Proof.
  intros Hw.
  destruct (runConsensus_result txHash receipt w Hw)
    as (r & w' & E & Hw' & [(prim & pp & p & c & t & _ & Hv & Hvc)
                           |(e & cnt & prim & k & _ & Hv & _ & Hvc)]);
    exists r, w'; split_and!; auto; split; try lia.
  - exists []. rewrite app_nil_r. split; [exact Hvc|constructor].
  - eexists [_]. split; [exact Hvc|]. repeat constructor.
Qed.

(** C4. A view change increments the view by exactly 1; over a run of
    rounds the view never decreases and every recorded view change goes from
    a view to its successor; and at every point between rounds the primary
    is [validators[currentView mod N]]. *)
Theorem view_monotone reason txs w :
  wf w ->
  (exists cnt w',
      initiateViewChange cfg random reason w =
        (Ret (Some (currentView (this w) + 1)), w') /\
      currentView (this w') = currentView (this w) + 1 /\
      ViewChanged cfg reason cnt w w') /\
  (exists rs w',
      runRounds cfg random txs w = (Ret rs, w') /\
      wf w' /\
      currentView (this w) <= currentView (this w') /\
      viewChangesBy1 w w' /\
      getPrimary (this w') =
        validators (this w') !!
          Z.to_nat (currentView (this w') mod Z.of_nat (length (validators (this w'))))) /\
  getPrimary (this w) =
    validators (this w) !!
      Z.to_nat (currentView (this w) mod Z.of_nat (length (validators (this w)))).
Proof.
  intros Hw.
  assert (Hprim : forall w0, wf w0 ->
            getPrimary (this w0) =
              validators (this w0) !!
                Z.to_nat (currentView (this w0)
                          mod Z.of_nat (length (validators (this w0))))).
  { intros w0 (Hn & Hv & _). unfold getPrimary.
    rewrite (primaryIndex_mod _ Hn Hv). reflexivity. }
  split_and!.
  - destruct (initiateViewChange_spec cfg random reason w Hw) as (cnt & w1 & w' & _ & E & Hvc).
    exists cnt, w'. split_and!; [exact E|apply (vc_view _ _ _ _ _ Hvc)|exact Hvc].
  - destruct (runRounds_ind wf viewGrows (fun _ => True) viewGrows_preorder
                runConsensus_viewGrows txs w Hw)
      as (rs & w' & E & _ & Hw' & [Hle Hby1] & _).
    exists rs, w'. split_and!; auto.
  - apply Hprim. exact Hw.
Qed.
End Runs.

Lemma view_monotone_witness :
  wf faulty_world /\
  exists rs w',
    runRounds default_config always_zero [("0x01", JSNull); ("0x02", JSNull)]
      faulty_world = (Ret rs, w') /\
    currentView (this faulty_world) <= currentView (this w').
Proof.
  assert (Hw : wf faulty_world) by (unfold wf; simpl; repeat split; lia).
  split; [exact Hw|].
  destruct (view_monotone default_config always_zero "reason"
              [("0x01", JSNull); ("0x02", JSNull)] faulty_world Hw)
    as (_ & (rs & w' & E & _ & Hle & _) & _).
  exists rs, w'. split; [exact E|exact Hle].
Defined.

Section Safety.
Variable cfg : Config.
Variable random : nat -> Q.

(** ** Crashes against the quorum *)

Lemma runPreparePhase_crashes w o w' p :
  primaryIndex (this w) = Some p ->
  runPreparePhase cfg random w = (o, w') ->
  exists c evs,
    events w' = events w ++ evs /\
    Forall (inPhase "prepare") evs /\
    c + crashesIn "prepare" evs = Z.of_nat (length (validators (this w))) - 1 /\
    (c < 2 * f (this w) + 1 ->
       o = Throw (insufficient "prepare" c (2 * f (this w) + 1))) /\
    (2 * f (this w) + 1 <= c -> o = Ret (elapsed (PREPARE_PHASE_TIME cfg) w)).
Proof.
  intros Hp E.
  destruct (prepareLoop_returns cfg random w) as (c & b & w1 & El).
  destruct (prepareLoop_count cfg random _ _ _ _ _ Hp El) as (evs & He & Hf & Hc & _).
  destruct (runPreparePhase_spec cfg random _ _ _ _ El) as [Hlt Hge].
  exists c, evs.
  destruct (Z.lt_ge_cases c (2 * f (this w) + 1)) as [H|H].
  - rewrite (Hlt H) in E. injection E as <- <-.
    split_and!; auto; try (intros; lia); exact He.
  - destruct (Hge H) as (w2 & E2 & He2 & _). rewrite E2 in E. injection E as <- <-.
    split_and!; auto; try (intros; lia); rewrite He2; exact He.
Qed.

Lemma runCommitPhase_crashes w o w' :
  runCommitPhase cfg random w = (o, w') ->
  exists c evs,
    events w' = events w ++ evs /\
    Forall (inPhase "commit") evs /\
    c + crashesIn "commit" evs = Z.of_nat (length (validators (this w))) /\
    (c < 2 * f (this w) + 1 ->
       o = Throw (insufficient "commit" c (2 * f (this w) + 1))) /\
    (2 * f (this w) + 1 <= c -> o = Ret (elapsed (COMMIT_PHASE_TIME cfg) w)).
Proof.
  intros E.
  destruct (commitLoop_returns cfg random w) as (c & b & w1 & El).
  destruct (commitLoop_count cfg random _ _ _ _ El) as (evs & He & Hf & Hc).
  destruct (runCommitPhase_spec cfg random _ _ _ _ El) as [Hlt Hge].
  exists c, evs.
  destruct (Z.lt_ge_cases c (2 * f (this w) + 1)) as [H|H].
  - rewrite (Hlt H) in E. injection E as <- <-.
    split_and!; auto; try (intros; lia); exact He.
  - destruct (Hge H) as (w2 & E2 & He2 & _). rewrite E2 in E. injection E as <- <-.
    split_and!; auto; try (intros; lia); rewrite He2; exact He.
Qed.

(** The events of a committed round, phase by phase. *)
Lemma committed_round_events txHash w r w3 :
  wf w ->
  tryBlock cfg random txHash (nextHeight w) = (Ret r, w3) ->
  exists e1 e2 e3,
    events w3 = events w ++ e1 ++ e2 ++ e3 /\
    Forall (inPhase "pre-prepare") e1 /\
    Forall (inPhase "prepare") e2 /\
    Forall (inPhase "commit") e3 /\
    crashesIn "prepare" e2 <=
      Z.of_nat (length (validators (this w))) - 1 - (2 * f (this w) + 1) /\
    crashesIn "commit" e3 <=
      Z.of_nat (length (validators (this w))) - (2 * f (this w) + 1).
Proof.
  intros (Hn & Hv & Hflag) E.
  destruct (tryBlock_outcome cfg random txHash (nextHeight w) Hn Hv)
    as [(e & w1 & _ & E')|[(pp & w1 & e & w2 & _ & _ & E')
       |[(pp & w1 & p & w2 & e & w3' & _ & _ & _ & E')
        |(pp & w1 & p & w2 & c & w3' & prim & E1 & E2 & E3 & _ & E')]]];
    rewrite E in E'; try discriminate.
  injection E' as _ ->.
  pose proof (appendsIn_runPrePreparePhase cfg random (nextHeight w)) as (e1 & He1 & F1).
  rewrite E1 in He1. simpl in He1.
  pose proof (keeps_eq _ _ _ _ _ (keeps_viewState_runPrePreparePhase cfg random) E1) as V1.
  pose proof (keeps_eq _ _ _ _ _ (keeps_viewState_runPreparePhase cfg random) E2) as V2.
  destruct (getPrimary_is_Some (this w) Hn Hv) as (i & _ & Hi & _).
  assert (Hi1 : primaryIndex (this w1) = Some i).
  { rewrite <- Hi. rewrite (primaryIndex_viewState _ _ V1). reflexivity. }
  destruct (runPreparePhase_crashes _ _ _ _ Hi1 E2) as (c2 & e2 & He2 & F2 & Hc2 & Hlt2 & _).
  destruct (runCommitPhase_crashes _ _ _ E3) as (c3 & e3 & He3 & F3 & Hc3 & Hlt3 & _).
  assert (Hf1 : f (this w1) = f (this w) /\
                length (validators (this w1)) = length (validators (this w))).
  { unfold viewState in V1. simpl in V1. injection V1 as _ ? _ _ _ ?. auto. }
  assert (Hf2 : f (this w2) = f (this w) /\
                length (validators (this w2)) = length (validators (this w))).
  { unfold viewState in V2. injection V2 as _ ? _ _ _ ?. split; [lia|lia]. }
  destruct Hf1 as [Hf1 Hn1], Hf2 as [Hf2 Hn2].
  rewrite Hf1, Hn1 in *. rewrite Hf2, Hn2 in *.
  exists e1, e2, e3. split_and!; auto.
  - rewrite He3, He2. unfold events in *. simpl in He1. rewrite He1.
    rewrite <- !app_assoc. reflexivity.
  - destruct (Z.lt_ge_cases c2 (2 * f (this w) + 1)) as [H|H]; [|lia].
    specialize (Hlt2 H). discriminate.
  - destruct (Z.lt_ge_cases c3 (2 * f (this w) + 1)) as [H|H]; [|lia].
    specialize (Hlt3 H). discriminate.
Qed.

(** C5. If more than [N - (2f+1)] validators crash in the prepare phase, or
    in the commit phase, that phase throws its "Insufficient ... messages"
    error; and a round in which more than [N - (2f+1)] validators crashed in
    one of these phases does not commit. *)
Theorem excess_crashes_fail txHash receipt w :
  wf w ->
  (forall o w',
      runPreparePhase cfg random w = (o, w') ->
      Z.of_nat (length (validators (this w))) - (2 * f (this w) + 1)
        < crashesIn "prepare" (newEvents w w') ->
      exists c, c < 2 * f (this w) + 1 /\
                o = Throw (insufficient "prepare" c (2 * f (this w) + 1))) /\
  (forall o w',
      runCommitPhase cfg random w = (o, w') ->
      Z.of_nat (length (validators (this w))) - (2 * f (this w) + 1)
        < crashesIn "commit" (newEvents w w') ->
      exists c, c < 2 * f (this w) + 1 /\
                o = Throw (insufficient "commit" c (2 * f (this w) + 1))) /\
  (forall r w',
      runConsensus cfg random txHash receipt w = (Ret r, w') ->
      Z.of_nat (length (validators (this w))) - (2 * f (this w) + 1)
        < crashesIn "prepare" (newEvents w w') \/
      Z.of_nat (length (validators (this w))) - (2 * f (this w) + 1)
        < crashesIn "commit" (newEvents w w') ->
      getProp "success" r = JSBool false).
Proof.
  intros Hw. pose proof Hw as (Hn & Hv & Hflag). split_and!.
  - intros o w' E Hx.
    destruct (getPrimary_is_Some (this w) Hn Hv) as (i & _ & Hi & _).
    destruct (runPreparePhase_crashes _ _ _ _ Hi E) as (c & evs & He & _ & Hc & Hlt & _).
    rewrite (newEvents_app _ _ _ He) in Hx.
    exists c. assert (c < 2 * f (this w) + 1) by lia. auto.
  - intros o w' E Hx.
    destruct (runCommitPhase_crashes _ _ _ E) as (c & evs & He & _ & Hc & Hlt & _).
    rewrite (newEvents_app _ _ _ He) in Hx.
    exists c. assert (c < 2 * f (this w) + 1) by lia. auto.
  - intros r w' E Hx.
    destruct (runConsensus_outcome cfg random txHash receipt w Hw)
      as [(r0 & w3 & Et & Er)|(e & w1 & cnt & w2 & _ & _ & _ & Er)];
      rewrite Er in E; injection E as Hr Hw'; [|rewrite <- Hr; reflexivity].
    exfalso.
    destruct (committed_round_events _ _ _ _ Hw Et)
      as (e1 & e2 & e3 & He & F1 & F2 & F3 & H2 & H3).
    assert (Hn' : newEvents w w' = e1 ++ e2 ++ e3).
    { apply newEvents_app. rewrite <- Hw'. unfold events in *. simpl. exact He. }
    rewrite Hn', !crashesIn_app in Hx.
    rewrite (crashesIn_other "prepare" "pre-prepare" e1) in Hx by (auto; discriminate).
    rewrite (crashesIn_other "prepare" "commit" e3) in Hx by (auto; discriminate).
    rewrite (crashesIn_other "commit" "pre-prepare" e1) in Hx by (auto; discriminate).
    rewrite (crashesIn_other "commit" "prepare" e2) in Hx by (auto; discriminate).
    lia.
Qed.

(** C8. A view change that collected fewer than [2f+1] acknowledgements
    still completes: it returns the incremented view, the view stays
    incremented, one record with message count [acknowledgements * N] is
    appended and the in-progress flag is cleared. *)
Theorem view_change_soft_fail reason w cnt w1 :
  wf w ->
  viewChangeLoop cfg random (enterViewChange w) = (Ret cnt, w1) ->
  cnt < 2 * f (this w) + 1 ->
  exists w' prim,
    initiateViewChange cfg random reason w =
      (Ret (Some (currentView (this w) + 1)), w') /\
    currentView (this w') = currentView (this w) + 1 /\
    viewChangeInProgress (this w') = false /\
    getPrimary (this w') = Some prim /\
    viewChanges (measurements w') = viewChanges (measurements w) ++
      [ {| ViewChangeRecord.timestamp := now w';
           ViewChangeRecord.oldView := currentView (this w);
           ViewChangeRecord.newView := currentView (this w) + 1;
           ViewChangeRecord.reason := reason;
           ViewChangeRecord.duration := elapsed (VIEW_CHANGE_TIMEOUT cfg) w;
           ViewChangeRecord.messageCount :=
             cnt * Z.of_nat (length (validators (this w)));
           ViewChangeRecord.newPrimary := address prim |} ].
Proof.
  intros Hw El _.
  destruct (initiateViewChange_spec cfg random reason w Hw)
    as (cnt' & w1' & w' & El' & E & Hvc).
  rewrite El in El'. injection El' as <- <-.
  destruct Hvc as [Vview Vflag Vf Vh Vlen Vnow Vt Vl (prim & Hprim & Hrec) Vev Vph Vmsg Vcnt].
  exists w', prim. split_and!; auto.
Qed.

(** C10. The result of a failed round carries the view after the view
    change (the old view plus 1), which was recorded before the result was
    built, and consists of the properties success, blockHeight, view, error
    and timestamp only: primary, phaseTimings and totalTime, which a success
    result has, are absent. *)
Theorem failed_round_result txHash receipt w r w' :
  wf w ->
  runConsensus cfg random txHash receipt w = (Ret r, w') ->
  (getProp "success" r = JSBool true \/ getProp "success" r = JSBool false) /\
  (getProp "success" r = JSBool true ->
     getProp "view" r = JSNum (currentView (this w)) /\
     ownKeys r = ["success"; "blockHeight"; "view"; "primary"; "phaseTimings";
                  "totalTime"; "txHash"; "timestamp"]) /\
  (getProp "success" r = JSBool false ->
     getProp "view" r = JSNum (currentView (this w) + 1) /\
     currentView (this w') = currentView (this w) + 1 /\
     (exists rec,
        viewChanges (measurements w') = viewChanges (measurements w) ++ [rec] /\
        ViewChangeRecord.oldView rec = currentView (this w) /\
        ViewChangeRecord.newView rec = currentView (this w) + 1 /\
        JSStr (ViewChangeRecord.reason rec) = getProp "error" r /\
        JSNum (ViewChangeRecord.timestamp rec) = getProp "timestamp" r) /\
     ownKeys r = ["success"; "blockHeight"; "view"; "error"; "timestamp"] /\
     getProp "primary" r = JSUndefined /\
     getProp "phaseTimings" r = JSUndefined /\
     getProp "totalTime" r = JSUndefined).
Proof.
  intros Hw E.
  destruct (runConsensus_result cfg random txHash receipt w Hw)
    as (r0 & w0 & E0 & _ & [(prim & pp & p & c & t & -> & Hv & Hvc)
                           |(e & cnt & prim & k & -> & Hv & _ & Hvc)]);
    rewrite E0 in E; injection E as <- <-.
  - split_and!.
    + left. reflexivity.
    + intros _. split; reflexivity.
    + intros H. discriminate H.
  - split_and!.
    + right. reflexivity.
    + intros H. discriminate H.
    + intros _. split_and!; try reflexivity; [exact Hv|].
      eexists. split; [exact Hvc|]. split_and!; reflexivity.
Qed.
End Safety.

Lemma excess_crashes_fail_witness :
  wf scenarioC_world /\
  exists r,
    fst (runConsensus scenarioC_config scenarioC_random "0x01" JSNull scenarioC_world)
      = Ret r /\
    getProp "success" r = JSBool false.
Proof.
  assert (Hw : wf scenarioC_world) by (unfold wf; simpl; repeat split; lia).
  split; [exact Hw|].
  assert (E : runConsensus scenarioC_config scenarioC_random "0x01" JSNull scenarioC_world
              = (Ret (failureResult 1 1 "Insufficient prepare messages: 0/3" 3500),
                 snd (runConsensus scenarioC_config scenarioC_random "0x01" JSNull
                        scenarioC_world)))
    by (vm_compute; reflexivity).
  exists (failureResult 1 1 "Insufficient prepare messages: 0/3" 3500).
  split; [rewrite E; reflexivity|].
  destruct (excess_crashes_fail scenarioC_config scenarioC_random "0x01" JSNull
              scenarioC_world Hw) as (_ & _ & H).
  apply (H _ _ E). left. vm_compute. reflexivity.
Defined.

Lemma view_change_soft_fail_witness :
  wf scenarioC_world /\
  exists w',
    initiateViewChange scenarioC_config scenarioC_random "no quorum" scenarioC_world
      = (Ret (Some 1), w') /\
    viewChangeInProgress (this w') = false /\
    ViewChangeRecord.messageCount <$> viewChanges (measurements w') = [1 * 4].
Proof.
  assert (Hw : wf scenarioC_world) by (unfold wf; simpl; repeat split; lia).
  split; [exact Hw|].
  assert (E : viewChangeLoop scenarioC_config scenarioC_random
                (enterViewChange scenarioC_world)
              = (Ret 1, snd (viewChangeLoop scenarioC_config scenarioC_random
                               (enterViewChange scenarioC_world))))
    by (vm_compute; reflexivity).
  destruct (view_change_soft_fail scenarioC_config scenarioC_random "no quorum"
              scenarioC_world 1 _ Hw E)
    as (w' & prim & E' & _ & Hflag & _ & Hrec); [vm_compute; reflexivity|].
  exists w'. split; [exact E'|]. split; [exact Hflag|].
  rewrite Hrec. reflexivity.
Defined.

Lemma failed_round_result_witness :
  wf faulty_world /\
  exists r w',
    runConsensus default_config always_zero "0x01" JSNull faulty_world = (Ret r, w') /\
    getProp "view" r = JSNum 1 /\
    ownKeys r = ["success"; "blockHeight"; "view"; "error"; "timestamp"].
Proof.
  assert (Hw : wf faulty_world) by (unfold wf; simpl; repeat split; lia).
  split; [exact Hw|].
  assert (E : runConsensus default_config always_zero "0x01" JSNull faulty_world
              = (Ret (failureResult 1 1 "Primary crashed during pre-prepare phase" 3000),
                 snd (runConsensus default_config always_zero "0x01" JSNull faulty_world)))
    by (vm_compute; reflexivity).
  destruct (failed_round_result default_config always_zero "0x01" JSNull
              faulty_world _ _ Hw E) as (_ & _ & H).
  destruct (H eq_refl) as (Hview & _ & _ & Hkeys & _).
  eexists _, _. split; [exact E|]. split; [exact Hview|exact Hkeys].
Defined.

Lemma quorum_decides_phase_witness :
  wf crashing_world /\
  exists r,
    fst (runConsensus default_config always_quarter "0x01" JSNull crashing_world)
      = Ret r /\
    getProp "success" r = JSBool false /\
    getProp "error" r = JSStr "Insufficient prepare messages: 2/3".
Proof.
  assert (Hw : wf crashing_world) by (unfold wf; simpl; repeat split; lia).
  split; [exact Hw|].
  destruct (quorum_decides_phase default_config always_quarter "0x01" JSNull
              crashing_world Hw) as (_ & _ & H & _).
  assert (E1 : runPrePreparePhase default_config always_quarter
                 (nextHeight crashing_world)
               = (Ret 200, snd (runPrePreparePhase default_config always_quarter
                                  (nextHeight crashing_world))))
    by (vm_compute; reflexivity).
  eapply (H _ _ 2 1 _ E1); vm_compute; reflexivity.
Defined.

Lemma primary_crash_aborts_witness :
  wf faulty_world /\
  exists t w',
    runConsensus default_config always_zero "0x01" JSNull faulty_world =
      (Ret (failureResult 1 1 "Primary crashed during pre-prepare phase" t), w') /\
    blocksProposed <$> validators (this w') = [0; 0; 0; 0] /\
    currentView (this w') = 1.
Proof.
  assert (Hw : wf faulty_world) by (unfold wf; simpl; repeat split; lia).
  split; [exact Hw|].
  destruct (primary_crash_aborts default_config always_zero "0x01" JSNull
              faulty_world 0%nat Hw eq_refl eq_refl)
    as (v & t & cnt & prim & w' & _ & E & Hbp & _ & _ & _ & _ & _ & Hview & _).
  exists t, w'. split; [exact E|]. split; [exact Hbp|exact Hview].
Defined.

(** * Rounds without faults *)

Lemma noFault_zero cfg random :
  (BYZANTINE_FAILURE_PROBABILITY cfg == 0)%Q -> random_in_range random ->
  noFault cfg random.
Proof.
  intros Hp Hr d. unfold Qltb. apply negb_false_iff. apply Qle_bool_iff.
  rewrite Hp. apply (Hr d).
Qed.

Lemma True_preorder : PreOrder (fun _ _ : World => True).
Proof. split; [intros w|intros a b c _ _]; exact I. Qed.

Section NoFault.
Variable cfg : Config.
Variable random : nat -> Q.
Hypothesis Hnf : noFault cfg random.

Lemma exhibits_noFault i w v :
  validators (this w) !! i = Some v ->
  exists d, exhibitsByzantineFailure cfg random i w = (Ret None, set_draws d w).
Proof.
  intros Hv. unfold exhibitsByzantineFailure. rewrite Hv, Hnf.
  destruct (isByzantine v); simpl.
  - exists (S (draws w)). reflexivity.
  - exists (draws w). destruct w; reflexivity.
Qed.

Lemma exhibits_noFault_outcome i w ft :
  fst (exhibitsByzantineFailure cfg random i w) <> Ret (Some ft).
Proof.
  intros H. destruct (exhibits_Some cfg random _ _ _ H) as (v & Hv & _ & _ & E).
  destruct (exhibits_noFault i w v Hv) as (d & E'). rewrite E' in E. discriminate.
Qed.

Lemma steps_bind_exhibits_noFault R (HR : PreOrder R) {A} i
    (k : option FailureType -> M A) :
  steps R (exhibitsByzantineFailure cfg random i) ->
  steps R (k None) ->
  steps R (bind (exhibitsByzantineFailure cfg random i) k).
Proof.
  intros Hm Hk w. unfold bind. specialize (Hm w).
  pose proof (exhibits_noFault_outcome i w) as Hno.
  destruct (exhibitsByzantineFailure cfg random i w) as [[[ft|]|e] w1];
    simpl in *; [destruct (Hno ft eq_refl)| |exact Hm].
  transitivity w1; [exact Hm|apply Hk].
Qed.

(** Without faults the phases append no event. *)
Lemma keeps_events_tryBlock txHash : keeps events (tryBlock cfg random txHash).
Proof.
  engine_unfold. unfold keeps.
  repeat first
    [ apply (steps_bind_exhibits_noFault _ (keeps_preorder events))
    | apply (steps_ret _ (keeps_preorder events))
    | apply (steps_throw _ (keeps_preorder events))
    | apply (steps_gets _ (keeps_preorder events))
    | apply (steps_bind _ (keeps_preorder events)); [|intros ?]
    | apply (steps_forOf _ (keeps_preorder events)); intros ? ?
    | match goal with
      | |- steps _ (match ?x with _ => _ end) => destruct x
      end ];
  try (prim_unfold; intros ?; simpl; repeat case_match; simpl; reflexivity).
Qed.

Lemma runPrePreparePhase_noFault w :
  (0 < length (validators (this w)))%nat -> 0 <= currentView (this w) ->
  exists w1,
    runPrePreparePhase cfg random w =
      (Ret (elapsed (PRE_PREPARE_PHASE_TIME cfg) w), w1) /\
    clock w1 = clock (wake (PRE_PREPARE_PHASE_TIME cfg) w).
Proof.
  intros Hn Hv. destruct (getPrimary_is_Some (this w) Hn Hv) as (i & p & Hi & Hp & _).
  destruct (exhibits_noFault i w p Hp) as (d & E).
  eexists. split.
  - unfold runPrePreparePhase.
    erewrite bind_Ret by reflexivity.
    erewrite bind_Ret by (rewrite Hi; reflexivity).
    erewrite bind_Ret by exact E.
    erewrite bind_Ret by reflexivity.
    erewrite bind_Ret by (unfold callOn; simpl; rewrite Hp; reflexivity).
    erewrite bind_Ret by reflexivity.
    erewrite bind_Ret by reflexivity.
    erewrite bind_Ret by reflexivity.
    erewrite bind_Ret by reflexivity.
    erewrite bind_Ret by reflexivity.
    unfold ret. simpl. f_equal. f_equal. unfold elapsed. simpl. lia.
  - reflexivity.
Qed.

(** A round without faults over at least two validators commits after
    three waits, and its phase timings are the times these waits took: the
    configured durations plus the lateness of the three timers. *)
Lemma runConsensus_noFault txHash receipt w :
  replicated w ->
  exists prim t w',
    runConsensus cfg random txHash receipt w =
      (Ret (successResult (blockHeight (this w) + 1) (currentView (this w))
              (address prim)
              (PRE_PREPARE_PHASE_TIME cfg + lateness w (timers w))
              (PREPARE_PHASE_TIME cfg + lateness w (timers w + 1))
              (COMMIT_PHASE_TIME cfg + lateness w (timers w + 2)) txHash t), w') /\
    replicated w' /\
    timers w' = (timers w + 3)%nat /\
    lateness w' = lateness w.
Proof.
  intros (Hw & Hn2 & Hf). pose proof Hw as (Hn & Hv & Hflag).
  pose proof (wf_runConsensus cfg random txHash receipt w Hw) as Hw'.
  pose proof (keeps_profile_runConsensus cfg random txHash receipt w) as Hprof.
  simpl in Hprof. injection Hprof as Hf' Hprof.
  apply (f_equal length) in Hprof. rewrite !length_fmap in Hprof.
  assert (Hq : 2 * f (this w) + 1 <= Z.of_nat (length (validators (this w))) - 1).
  { rewrite Hf.
    pose proof (Z.div_mod (Z.of_nat (length (validators (this w))) - 1) 3).
    pose proof (Z.mod_pos_bound (Z.of_nat (length (validators (this w))) - 1) 3).
    lia. }
  destruct (tryBlock_outcome cfg random txHash (nextHeight w) Hn Hv)
    as [(e & w1 & E1 & E)|[(pp & w1 & e & w2 & E1 & E2 & E)
       |[(pp & w1 & p & w2 & e & w3 & E1 & E2 & E3 & E)
        |(pp & w1 & p & w2 & c & w3 & prim & E1 & E2 & E3 & Hprim & E)]]].
  - exfalso. destruct (runPrePreparePhase_noFault (nextHeight w) Hn Hv) as (w1' & E1' & _).
    rewrite E1' in E1. discriminate.
  - exfalso.
    pose proof (keeps_eq _ _ _ _ _ (keeps_viewState_runPrePreparePhase cfg random) E1) as V1.
    destruct (getPrimary_is_Some (this w) Hn Hv) as (i & _ & Hi & _).
    assert (Hi1 : primaryIndex (this w1) = Some i).
    { rewrite <- Hi. rewrite (primaryIndex_viewState _ _ V1). reflexivity. }
    unfold viewState in V1. simpl in V1. injection V1 as _ Hf1 _ _ _ Hn1.
    destruct (runPreparePhase_crashes cfg random _ _ _ _ Hi1 E2)
      as (c2 & e2 & He2 & F2 & Hc2 & _ & Hge2).
    pose proof (keeps_eq _ _ _ _ _ (keeps_events_tryBlock txHash) E) as Hev.
    pose proof (appendsIn_runPrePreparePhase cfg random (nextHeight w)) as (e1 & He1 & _).
    rewrite E1 in He1. simpl in He1. rewrite He2, He1, <- app_assoc in Hev.
    apply (f_equal length) in Hev. rewrite !length_app in Hev.
    assert (e2 = []) as -> by (destruct e2; [reflexivity|simpl in Hev; lia]).
    rewrite Hf1, Hn1 in *. unfold crashesIn in Hc2. simpl in Hc2.
    assert (H : Throw e = Ret (elapsed (PREPARE_PHASE_TIME cfg) w1)) by (apply Hge2; lia).
    discriminate H.
  - exfalso.
    pose proof (keeps_eq _ _ _ _ _ (keeps_viewState_runPrePreparePhase cfg random) E1) as V1.
    pose proof (keeps_eq _ _ _ _ _ (keeps_viewState_runPreparePhase cfg random) E2) as V2.
    assert (V : viewState w2 = viewState (nextHeight w)) by congruence.
    unfold viewState in V. simpl in V. injection V as _ Hf2 _ _ _ Hn2'.
    destruct (runCommitPhase_crashes cfg random _ _ _ E3)
      as (c3 & e3 & He3 & F3 & Hc3 & _ & Hge3).
    pose proof (keeps_eq _ _ _ _ _ (keeps_events_tryBlock txHash) E) as Hev.
    pose proof (appendsIn_runPrePreparePhase cfg random (nextHeight w)) as (e1 & He1 & _).
    rewrite E1 in He1. simpl in He1.
    pose proof (appendsIn_runPreparePhase cfg random w1) as (e2 & He2 & _).
    rewrite E2 in He2. simpl in He2.
    rewrite He3, He2, He1, <- !app_assoc in Hev.
    apply (f_equal length) in Hev. rewrite !length_app in Hev.
    assert (e3 = []) as -> by (destruct e3; [reflexivity|simpl in Hev; lia]).
    rewrite Hf2, Hn2' in *. unfold crashesIn in Hc3. simpl in Hc3.
    assert (H : Throw e = Ret (elapsed (COMMIT_PHASE_TIME cfg) w2)) by (apply Hge3; lia).
    discriminate H.
  - destruct (runPrePreparePhase_noFault (nextHeight w) Hn Hv) as (w1' & E1' & C1).
    rewrite E1' in E1. injection E1 as <- <-.
    pose proof (keeps_eq _ _ _ _ _ (keeps_viewState_runPrePreparePhase cfg random) E1') as V1.
    pose proof (keeps_eq _ _ _ _ _ (keeps_viewState_runPreparePhase cfg random) E2) as V2.
    destruct (getPrimary_is_Some (this w) Hn Hv) as (i & _ & Hi & _).
    assert (Hi1 : primaryIndex (this w1') = Some i).
    { rewrite <- Hi. rewrite (primaryIndex_viewState _ _ V1). reflexivity. }
    destruct (runPreparePhase_crashes cfg random _ _ _ _ Hi1 E2)
      as (c2 & e2 & _ & _ & _ & Hlt2 & Hge2).
    destruct (runCommitPhase_crashes cfg random _ _ _ E3)
      as (c3 & e3 & _ & _ & _ & Hlt3 & Hge3).
    pose proof (runPreparePhase_clock cfg random _ _ _ E2) as C2.
    pose proof (runCommitPhase_clock cfg random _ _ _ E3) as C3.
    unfold clock, wake, elapsed in C1, C2, C3. simpl in C1, C2, C3.
    injection C1 as N1 T1 L1. injection C2 as N2 T2 L2. injection C3 as N3 T3 L3.
    assert (p = PREPARE_PHASE_TIME cfg + lateness w (timers w + 1)) as ->.
    { destruct (Z.lt_ge_cases c2 (2 * f (this w1') + 1)) as [H|H];
        [specialize (Hlt2 H); discriminate|specialize (Hge2 H)].
      injection Hge2 as ->. unfold elapsed. rewrite L1, T1.
      replace (S (timers w)) with (timers w + 1)%nat by lia. reflexivity. }
    assert (c = COMMIT_PHASE_TIME cfg + lateness w (timers w + 2)) as ->.
    { destruct (Z.lt_ge_cases c3 (2 * f (this w2) + 1)) as [H|H];
        [specialize (Hlt3 H); discriminate|specialize (Hge3 H)].
      injection Hge3 as ->. unfold elapsed. rewrite L2, L1, T2, T1.
      replace (S (S (timers w))) with (timers w + 2)%nat by lia. reflexivity. }
    destruct (runConsensus_outcome cfg random txHash receipt w Hw)
      as [(r & wa & Et & Er)|(e & wa & cnt & wb & Et & _)];
      rewrite E in Et; [|discriminate].
    injection Et as <- <-. rewrite Er in Hw', Hprof, Hf'.
    exists prim, (now w3). eexists. split; [exact Er|].
    simpl in Hw', Hprof, Hf'.
    unfold replicated. simpl.
    split_and!; [exact Hw'|lia|rewrite Hf', Hprof; exact Hf|lia|congruence].
Qed.

(** The same over a run: the round of index [j] starts the timers
    [3j], [3j + 1] and [3j + 2] after those that had fired before the run. *)
Lemma runRounds_noFault txs : forall w,
  replicated w ->
  exists rs w',
    runRounds cfg random txs w = (Ret rs, w') /\
    length rs = length txs /\
    forall j r, rs !! j = Some r ->
      getProp "success" r = JSBool true /\
      getProp "phaseTimings" r = JSObj (roundTimings cfg (lateness w) (timers w + 3 * j)) /\
      getProp "totalTime" r =
        JSNum (PRE_PREPARE_PHASE_TIME cfg + PREPARE_PHASE_TIME cfg
               + COMMIT_PHASE_TIME cfg
               + (lateness w (timers w + 3 * j) + lateness w (timers w + 3 * j + 1)
                  + lateness w (timers w + 3 * j + 2))).
Proof.
  induction txs as [|[txHash receipt] txs IH]; intros w Hw.
  - exists [], w. split_and!; try reflexivity. intros j r Hj. discriminate Hj.
  - destruct (runConsensus_noFault txHash receipt w Hw)
      as (prim & t & w1 & E1 & Hw1 & T1 & L1).
    destruct (IH w1 Hw1) as (rs & w' & E2 & Hlen & HQ).
    eexists (_ :: rs), w'. split_and!.
    + cbn [runRounds]. rewrite (bind_Ret _ _ _ _ _ E1), (bind_Ret _ _ _ _ _ E2).
      reflexivity.
    + simpl. rewrite Hlen. reflexivity.
    + intros [|j] r Hj.
      * injection Hj as <-. rewrite Nat.mul_0_r, !Nat.add_0_r.
        split_and!; [reflexivity|reflexivity|].
        unfold successResult. simpl. f_equal. lia.
      * destruct (HQ j r Hj) as (Hs & Hp & Ht). rewrite L1, T1 in Hp, Ht.
        replace (timers w + 3 * S j)%nat with (timers w + 3 + 3 * j)%nat by lia.
        split_and!; assumption.
Qed.
End NoFault.

(** C6, amended. With all fault probabilities equal to 0 and a registry of
    at least two validators, every round of a run reaches COMMITTED, and
    the totalTime it reports is the sum of the three phase timings it
    reports.  Each timing is measured on the clock around the wait of the
    phase: it is the configured duration plus the lateness of the timer, so
    that totalTime is the sum of the three configured durations plus the
    lateness of the three timers of the round.  It is that sum exactly when
    these timers fire on time: then, with the durations 200, 300 and 300,
    the reported totalTime is 800. *)
Theorem no_fault_rounds_commit cfg random txs w :
  replicated w ->
  (BYZANTINE_FAILURE_PROBABILITY cfg == 0)%Q ->
  random_in_range random ->
  exists rs w',
    runRounds cfg random txs w = (Ret rs, w') /\
    length rs = length txs /\
    forall j r, rs !! j = Some r ->
      let k := (timers w + 3 * j)%nat in
      let late := lateness w k + lateness w (k + 1) + lateness w (k + 2) in
      getProp "success" r = JSBool true /\
      getProp "phaseTimings" r =
        JSObj [("prePrepare", JSNum (PRE_PREPARE_PHASE_TIME cfg + lateness w k));
               ("prepare", JSNum (PREPARE_PHASE_TIME cfg + lateness w (k + 1)));
               ("commit", JSNum (COMMIT_PHASE_TIME cfg + lateness w (k + 2)))] /\
      getProp "totalTime" r =
        JSNum (PRE_PREPARE_PHASE_TIME cfg + PREPARE_PHASE_TIME cfg
               + COMMIT_PHASE_TIME cfg + late) /\
      (late = 0 ->
       PRE_PREPARE_PHASE_TIME cfg = 200 -> PREPARE_PHASE_TIME cfg = 300 ->
       COMMIT_PHASE_TIME cfg = 300 ->
       getProp "totalTime" r = JSNum 800).
Proof.
  intros Hw Hp Hr. pose proof (noFault_zero cfg random Hp Hr) as Hnf.
  destruct (runRounds_noFault cfg random Hnf txs w Hw) as (rs & w' & E & Hlen & HQ).
  exists rs, w'. split_and!; [exact E|exact Hlen|].
  intros j r Hj. cbv zeta. destruct (HQ j r Hj) as (Hs & Ht & Htot).
  split_and!; [exact Hs|exact Ht|exact Htot|].
  intros H0 H1 H2 H3. rewrite Htot, H0, H1, H2, H3. reflexivity.
Qed.

Lemma no_fault_rounds_commit_witness :
  replicated scenarioA_late_world /\
  (BYZANTINE_FAILURE_PROBABILITY no_fault_config == 0)%Q /\
  random_in_range always_quarter /\
  exists rs w',
    runRounds no_fault_config always_quarter
      [("0x01", JSNull); ("0x02", JSNull)] scenarioA_late_world = (Ret rs, w') /\
    length rs = 2%nat /\
    forall j r, rs !! j = Some r ->
      getProp "success" r = JSBool true /\
      getProp "totalTime" r = JSNum 806.
Proof.
  assert (Hw : replicated scenarioA_late_world).
  { unfold replicated, wf. simpl. repeat split; lia. }
  assert (Hp : (BYZANTINE_FAILURE_PROBABILITY no_fault_config == 0)%Q) by reflexivity.
  assert (Hr : random_in_range always_quarter).
  { intros d. unfold always_quarter, Qle, Qlt. simpl. lia. }
  split_and!; [exact Hw|exact Hp|exact Hr|].
  destruct (no_fault_rounds_commit no_fault_config always_quarter
              [("0x01", JSNull); ("0x02", JSNull)] scenarioA_late_world Hw Hp Hr)
    as (rs & w' & E & Hlen & HQ).
  exists rs, w'. split_and!; [exact E|exact Hlen|].
  intros j r Hj. destruct (HQ j r Hj) as (Hs & _ & Ht & _). split; [exact Hs|].
  assert (Hj2 : (j < 2)%nat).
  { pose proof (lookup_lt_Some _ _ _ Hj) as Hlt. rewrite Hlen in Hlt. exact Hlt. }
  rewrite Ht. destruct j as [|[|j]]; [reflexivity|reflexivity|lia].
Defined.

(** C6 as stated fails for a single validator: without any fault the
    prepare phase counts 0 participants against a threshold of 1. *)
Lemma no_fault_single_validator_fails :
  wf single_world /\
  f (this single_world) = (Z.of_nat (length (validators (this single_world))) - 1) / 3 /\
  (BYZANTINE_FAILURE_PROBABILITY no_fault_config == 0)%Q /\
  random_in_range always_quarter /\
  fst (runConsensus no_fault_config always_quarter "0x01" JSNull single_world) =
    Ret (failureResult 1 1 "Insufficient prepare messages: 0/1" 3500) /\
  getProp "success" (failureResult 1 1 "Insufficient prepare messages: 0/1" 3500)
    = JSBool false.
Proof.
  split_and!.
  - unfold wf. simpl. repeat split; lia.
  - reflexivity.
  - reflexivity.
  - intros d. unfold always_quarter, Qle, Qlt. simpl. lia.
  - vm_compute. reflexivity.
  - reflexivity.
Qed.

(** C6 as stated also fails on a clock whose timers fire late: with four
    validators, no fault and the durations 200, 300 and 300, timers that
    fire 1, 2 and 3 milliseconds late make the committed round report the
    timings 201, 302 and 303 and the total 806. *)
Lemma late_timers_lengthen_round :
  replicated scenarioA_late_world /\
  (BYZANTINE_FAILURE_PROBABILITY no_fault_config == 0)%Q /\
  exists r,
    fst (runConsensus no_fault_config always_quarter "0x01" JSNull scenarioA_late_world)
      = Ret r /\
    getProp "success" r = JSBool true /\
    getProp "phaseTimings" r =
      JSObj [("prePrepare", JSNum 201); ("prepare", JSNum 302); ("commit", JSNum 303)] /\
    getProp "totalTime" r = JSNum 806.
Proof.
  split_and!.
  - unfold replicated, wf. simpl. repeat split; lia.
  - reflexivity.
  - eexists. split; [vm_compute; reflexivity|]. split_and!; reflexivity.
Qed.

(** * Faults and their records *)

Lemma blames_profile vs vs' e :
  profile <$> vs' = profile <$> vs -> blames vs' e -> blames vs e.
Proof.
  intros Hp (i & v' & Hv' & Ha & Hi & Hb & Ht).
  assert (H : (profile <$> vs) !! i = Some (profile v')).
  { rewrite <- Hp, list_lookup_fmap, Hv'. reflexivity. }
  rewrite list_lookup_fmap in H.
  destruct (vs !! i) as [v|] eqn:Hv; [|discriminate].
  simpl in H. unfold profile in H. injection H as _ Ha' Hi' Hb' Ht' _.
  exists i, v. split_and!; congruence.
Qed.

Lemma describes_stable w w' e :
  viewState w' = viewState w ->
  profile <$> validators (this w') = profile <$> validators (this w) ->
  describes w' e -> describes w e.
Proof.
  intros V Hp (Hb & Hv & Hph & Hbl). unfold viewState in V.
  injection V as Hv' _ Hb' _ _ _.
  split_and!; [congruence|congruence|exact Hph|].
  eapply blames_profile; eassumption.
Qed.

Lemma typed_stable w w' :
  profile <$> validators (this w') = profile <$> validators (this w) ->
  typed w -> typed w'.
Proof. unfold typed. intros ->. auto. Qed.

Lemma recorded_preorder : PreOrder recorded.
Proof.
  split.
  - intros w. split_and!; try reflexivity. exists []. rewrite app_nil_r.
    split_and!; [reflexivity|constructor|intros _; simpl; lia].
  - intros a b c (V1 & P1 & e1 & E1 & F1 & C1) (V2 & P2 & e2 & E2 & F2 & C2).
    split_and!; [congruence|congruence|].
    exists (e1 ++ e2). rewrite E2, E1, app_assoc. split_and!; [reflexivity| |].
    + apply Forall_app. split; [exact F1|].
      eapply Forall_impl; [exact F2|]. intros e. apply describes_stable; assumption.
    + intros Ha. specialize (C1 Ha). specialize (C2 (typed_stable _ _ P1 Ha)).
      rewrite length_app. lia.
Qed.

#[local] Existing Instance recorded_preorder.

Lemma recorded1_then w1 w2 w3 :
  recorded1 w1 w2 -> recorded w2 w3 -> recorded1 w1 w3.
Proof.
  intros (V1 & P1 & e1 & E1 & F1 & C1) (V2 & P2 & e2 & E2 & F2 & C2).
  split_and!; [congruence|congruence|].
  exists (e1 ++ e2). rewrite E2, E1, app_assoc. split_and!; [reflexivity| |].
  - apply Forall_app. split; [exact F1|].
    eapply Forall_impl; [exact F2|]. intros e. apply describes_stable; assumption.
  - intros Ha. specialize (C1 Ha). specialize (C2 (typed_stable _ _ P1 Ha)).
    rewrite length_app. lia.
Qed.

Lemma foldr_add_alter_incr (l : list PBFTValidator) i v :
  l !! i = Some v ->
  foldr Z.add 0 (failures <$> alter (fun v => set_failures (failures v + 1) v) i l)
  = foldr Z.add 0 (failures <$> l) + 1.
Proof.
  revert i. induction l as [|x l IH]; intros [|i] Hl; simplify_eq/=.
  - lia.
  - rewrite (IH i Hl). lia.
Qed.

Lemma recorded_intro w w' :
  viewState w' = viewState w ->
  profile <$> validators (this w') = profile <$> validators (this w) ->
  events w' = events w ->
  failures <$> validators (this w') = failures <$> validators (this w) ->
  recorded w w'.
Proof.
  intros V P E F. split_and!; [exact V|exact P|].
  exists []. rewrite app_nil_r. split_and!; [exact E|constructor|].
  intros _. unfold totalFailures. rewrite F. simpl. lia.
Qed.

Lemma typed_lookup w i v :
  typed w -> validators (this w) !! i = Some v ->
  isByzantine v = true -> byzantineType v <> None.
Proof.
  unfold typed. intros Ht Hv Hb Hn.
  rewrite forallb_forall in Ht.
  specialize (Ht (profile v)). unfold profile, kindedProfile in Ht.
  rewrite Hb, Hn in Ht. simpl in Ht.
  assert (false = true); [|discriminate].
  apply Ht. apply list_elem_of_In. apply list_elem_of_fmap.
  exists v. split; [unfold profile; rewrite Hb, Hn; reflexivity|].
  eapply list_elem_of_lookup_2. exact Hv.
Qed.

Lemma hsteps1_bind {A B} (P : World -> Prop) (m : M A) (k : A -> M B) :
  hsteps1 P m -> (forall a, steps recorded (k a)) -> hsteps1 P (bind m k).
Proof.
  intros Hm Hk w Hw. unfold bind. specialize (Hm w Hw).
  destruct (m w) as [[a|e] w1]; simpl in *; [|exact Hm].
  eapply recorded1_then; [exact Hm|apply Hk].
Qed.

Lemma hsteps1_record i ph ft :
  ph ∈ ["pre-prepare"; "prepare"; "commit"] ->
  hsteps1 (faultyAt i ft) (recordByzantineEvent i ph ft).
Proof.
  intros Hph w (v & Hv & Hb & Ht). unfold recordByzantineEvent. rewrite Hv. simpl.
  split_and!; try reflexivity.
  eexists [_]. split_and!; [reflexivity| |intros _; unfold totalFailures; simpl; lia].
  constructor; [|constructor]. unfold describes. simpl.
  split_and!; [reflexivity|reflexivity|exact Hph|].
  exists i, v. simpl. split_and!; auto.
Qed.

Section Recorded.
Variable cfg : Config.
Variable random : nat -> Q.

Lemma recorded_bind_exhibits {A} i (K : option FailureType -> M A) :
  steps recorded (K None) ->
  (forall ft, hsteps1 (faultyAt i ft) (K (Some ft))) ->
  steps recorded (bind (exhibitsByzantineFailure cfg random i) K).
Proof.
  intros HN HS w. unfold bind, exhibitsByzantineFailure.
  destruct (validators (this w) !! i) as [v|] eqn:Hv; simpl;
    [|reflexivity].
  destruct (isByzantine v) eqn:Hb; simpl; [|apply HN].
  destruct (Qltb _ _); simpl.
  - destruct (byzantineType v) as [ft|] eqn:Ht.
    + set (w1 := updateValidator i (fun v0 => set_failures (failures v0 + 1) v0)
                   (set_draws (S (draws w)) w)).
      assert (V1 : viewState w1 = viewState w).
      { unfold viewState, w1. simpl. rewrite length_alter. reflexivity. }
      assert (P1 : profile <$> validators (this w1) = profile <$> validators (this w)).
      { unfold w1. simpl. eapply fmap_alter_keep_at; [exact Hv|].
        unfold profile. simpl. rewrite Hb. reflexivity. }
      assert (F1 : totalFailures w1 = totalFailures w + 1).
      { unfold totalFailures, w1. simpl. apply (foldr_add_alter_incr _ _ _ Hv). }
      assert (Hf : faultyAt i ft w1).
      { exists (set_failures (failures v + 1) v). unfold w1. simpl.
        rewrite list_lookup_alter_eq, Hv. split_and!; auto. }
      destruct (HS ft w1 Hf) as (V2 & P2 & evs & E2 & F2 & C2).
      split_and!; [congruence|congruence|].
      exists evs. split_and!.
      * rewrite E2. reflexivity.
      * eapply Forall_impl; [exact F2|]. intros e. apply describes_stable; assumption.
      * intros Hty. specialize (C2 (typed_stable _ _ P1 Hty)). lia.
    + set (w1 := updateValidator i (fun v0 => set_failures (failures v0 + 1) v0)
                   (set_draws (S (draws w)) w)).
      transitivity w1; [|apply HN].
      split_and!.
      * unfold viewState, w1. simpl. rewrite length_alter. reflexivity.
      * unfold w1. simpl. eapply fmap_alter_keep_at; [exact Hv|].
        unfold profile. simpl. rewrite Hb. reflexivity.
      * exists []. rewrite app_nil_r. split_and!; [reflexivity|constructor|].
        intros Hty. destruct (typed_lookup _ _ _ Hty Hv Hb Ht).
  - transitivity (set_draws (S (draws w)) w); [|apply HN].
    apply recorded_intro; reflexivity.
Qed.
End Recorded.

Ltac hsteps1_descend :=
  first
    [ apply hsteps1_record; apply list_elem_of_In; simpl; auto 10
    | apply hsteps1_bind; [hsteps1_descend|intros ?] ].

Ltac recorded_split cfg random :=
  repeat first
    [ apply (steps_ret _ recorded_preorder)
    | apply (steps_throw _ recorded_preorder)
    | apply (steps_gets _ recorded_preorder)
    | apply (recorded_bind_exhibits cfg random);
      [cbv beta iota
      |intros ?; cbv beta iota; hsteps1_descend]
    | apply (steps_bind _ recorded_preorder); [|intros ?]
    | apply (steps_forOf _ recorded_preorder); intros ? ?
    | match goal with
      | |- steps _ (match ?x with _ => _ end) => destruct x
      end ];
  try (prim_unfold; intros ?; simpl; repeat case_match; simpl;
       apply recorded_intro; keep_tac).

Section RecordedPhases.
Variable cfg : Config.
Variable random : nat -> Q.

(** In the three phases every triggered fault is recorded once. *)
Lemma recorded_tryBlock txHash : steps recorded (tryBlock cfg random txHash).
Proof. engine_unfold. recorded_split cfg random. Qed.
End RecordedPhases.

Section RecordedClaims.
Variable cfg : Config.
Variable random : nat -> Q.

Lemma recorded_runPrePreparePhase : steps recorded (runPrePreparePhase cfg random).
Proof. engine_unfold. recorded_split cfg random. Qed.

Lemma recorded_runPreparePhase : steps recorded (runPreparePhase cfg random).
Proof. engine_unfold. recorded_split cfg random. Qed.

Lemma recorded_runCommitPhase : steps recorded (runCommitPhase cfg random).
Proof. engine_unfold. recorded_split cfg random. Qed.

Lemma recordsFaults_intro ph {A} (m : M A) w :
  typed w -> recorded w (snd (m w)) -> appendsIn ph w (snd (m w)) ->
  recordsFaults ph m w.
Proof.
  intros Hty (_ & _ & evs & He & Hd & Hc) (evs' & He' & Hp).
  assert (evs' = evs) as ->.
  { rewrite He in He'. apply app_inv_head in He'. congruence. }
  exists evs. split_and!; auto.
Qed.

(** In the pre-prepare, prepare and commit phases, every triggered fault
    appends exactly one ByzantineEvent: the number of events a phase appends
    is the number of faults it triggered, and every event carries the
    address and index of a Byzantine validator of the registry, the height
    and view of the round, the tag of the phase and the fault kind of that
    validator. *)
Theorem faults_recorded_in_phases w :
  typed w ->
  recordsFaults "pre-prepare" (runPrePreparePhase cfg random) w /\
  recordsFaults "prepare" (runPreparePhase cfg random) w /\
  recordsFaults "commit" (runCommitPhase cfg random) w /\
  (forall txHash,
     exists evs,
       events (snd (tryBlock cfg random txHash w)) = events w ++ evs /\
       Z.of_nat (length evs) =
         totalFailures (snd (tryBlock cfg random txHash w)) - totalFailures w /\
       Forall (describes w) evs).
Proof.
  intros Hty. split_and!.
  - apply recordsFaults_intro;
      [exact Hty|apply recorded_runPrePreparePhase|apply appendsIn_runPrePreparePhase].
  - apply recordsFaults_intro;
      [exact Hty|apply recorded_runPreparePhase|apply appendsIn_runPreparePhase].
  - apply recordsFaults_intro;
      [exact Hty|apply recorded_runCommitPhase|apply appendsIn_runCommitPhase].
  - intros txHash.
    destruct (recorded_tryBlock cfg random txHash w) as (_ & _ & evs & He & Hd & Hc).
    exists evs. split_and!; auto.
Qed.
End RecordedClaims.

Lemma faults_recorded_in_phases_witness :
  typed (nextHeight crashing_world) /\
  exists evs,
    events (snd (tryBlock default_config always_quarter "0x01"
                   (nextHeight crashing_world))) = evs /\
    Z.of_nat (length evs) = 1 /\
    Forall (describes (nextHeight crashing_world)) evs.
Proof.
  assert (Hty : typed (nextHeight crashing_world)) by reflexivity.
  split; [exact Hty|].
  destruct (faults_recorded_in_phases default_config always_quarter
              (nextHeight crashing_world) Hty) as (_ & _ & _ & H).
  destruct (H "0x01") as (evs & He & Hc & Hd).
  exists evs. split_and!; [exact He| |exact Hd].
  rewrite Hc. vm_compute. reflexivity.
Defined.

(** C7.  The claim asks for one ByzantineEvent per triggered fault, the
    view change included.  In the first round of [faulty_world] the fault
    model fires twice for the validator of slot 0, in pre-prepare and again
    in the view change that follows (its failure counter ends at 2), and
    the log holds the single pre-prepare event: the fault triggered in the
    view change incremented the counter and appended nothing. *)
Lemma view_change_fault_unrecorded :
  wf faulty_world /\
  fst (runConsensus default_config always_zero "0x01" JSNull faulty_world)
    = Ret (failureResult 1 1 "Primary crashed during pre-prepare phase" 3000) /\
  failures <$> validators
    (this (snd (runConsensus default_config always_zero "0x01" JSNull faulty_world)))
    = [2; 0; 0; 0] /\
  ByzantineEvent.phase <$>
    events (snd (runConsensus default_config always_zero "0x01" JSNull faulty_world))
    = ["pre-prepare"] /\
  fst (exhibitsByzantineFailure default_config always_zero 0
         (enterViewChange faulty_world)) = Ret (Some crash) /\
  totalFailures (snd (initiateViewChange default_config always_zero "reason"
                        faulty_world))
    = totalFailures faulty_world + 1 /\
  events (snd (initiateViewChange default_config always_zero "reason" faulty_world))
    = events faulty_world.
Proof.
  split_and!.
  - unfold wf. simpl. repeat split; lia.
  - vm_compute. reflexivity.
  - vm_compute. reflexivity.
  - vm_compute. reflexivity.
  - vm_compute. reflexivity.
  - vm_compute. reflexivity.
  - vm_compute. reflexivity.
Qed.

(** * The fault profile over a run *)

Lemma sameProfiles_preorder : PreOrder sameProfiles.
Proof.
  split.
  - intros w. split; [reflexivity|]. exists []. rewrite app_nil_r.
    split; [reflexivity|constructor].
  - intros a b c (P1 & e1 & E1 & F1) (P2 & e2 & E2 & F2).
    split; [congruence|]. exists (e1 ++ e2). rewrite E2, E1, app_assoc.
    split; [reflexivity|]. apply Forall_app. split; [exact F1|].
    eapply Forall_impl; [exact F2|]. intros e. apply blames_profile. exact P1.
Qed.

Lemma profile_lookup (vs vs' : list PBFTValidator) i v :
  profile <$> vs' = profile <$> vs -> vs !! i = Some v ->
  exists v', vs' !! i = Some v' /\
             isByzantine v' = isByzantine v /\
             byzantineType v' = byzantineType v /\
             address v' = address v /\
             index v' = index v /\
             (isByzantine v = false -> failures v' = failures v).
Proof.
  intros Hp Hv.
  assert (H : (profile <$> vs') !! i = Some (profile v)).
  { rewrite Hp, list_lookup_fmap, Hv. reflexivity. }
  rewrite list_lookup_fmap in H.
  destruct (vs' !! i) as [v'|]; [|discriminate].
  simpl in H. unfold profile in H. injection H as _ Ha Hi Hb Ht Hf.
  exists v'. split_and!; auto. intros Hh. rewrite Hb, Hh in Hf. congruence.
Qed.

Lemma new_PBFTValidator_kind random acct idx t d :
  (0 <= random d)%Q -> (random d < 1)%Q ->
  exists ft, byzantineType (fst (new_PBFTValidator random acct idx true t d)) = Some ft /\
             ft ∈ BYZANTINE_FAILURE_TYPES.
Proof.
  intros H0 H1.
  assert (Hgen : forall k, 0 <= k < 3 ->
            exists ft,
              (if k <? 0 then None else BYZANTINE_FAILURE_TYPES !! Z.to_nat k) = Some ft /\
              ft ∈ BYZANTINE_FAILURE_TYPES).
  { intros k Hk. destruct (Z.ltb_spec k 0); [lia|].
    assert (Hc : k = 0 \/ k = 1 \/ k = 2) by lia.
    destruct Hc as [->|[->| ->]]; simpl; eexists; (split; [reflexivity|]);
      apply list_elem_of_In; simpl; auto. }
  apply (Hgen (Qfloor (random d * inject_Z 3)%Q)). split.
  - change 0 with (Qfloor (inject_Z 0)). apply Qfloor_resp_le.
    apply (Qle_trans _ (0 * inject_Z 3)%Q); [unfold Qle; simpl; lia|].
    apply Qmult_le_compat_r; [exact H0|unfold Qle; simpl; lia].
  - rewrite Zlt_Qlt. eapply Qle_lt_trans; [apply Qfloor_le|].
    apply (Qlt_le_trans _ (1 * inject_Z 3)%Q); [|unfold Qle; simpl; lia].
    apply Qmult_lt_compat_r; [reflexivity|exact H1].
Qed.

Section Profiles.
Variable cfg : Config.
Variable random : nat -> Q.

Lemma runConsensus_sameProfiles txHash receipt w :
  wf w ->
  exists r w', runConsensus cfg random txHash receipt w = (Ret r, w') /\
               wf w' /\ sameProfiles w w' /\ True.
Proof.
  intros Hw.
  pose proof (keeps_profile_runConsensus cfg random txHash receipt w) as Hp.
  simpl in Hp. injection Hp as _ Hp.
  pose proof (wf_runConsensus cfg random txHash receipt w Hw) as Hw'.
  pose proof (recorded_tryBlock cfg random txHash (nextHeight w))
    as (_ & _ & evs & He & Hd & _).
  assert (Hbl : Forall (blames (validators (this w))) evs).
  { eapply Forall_impl; [exact Hd|]. intros e (_ & _ & _ & H). exact H. }
  destruct (runConsensus_outcome cfg random txHash receipt w Hw)
    as [(r & w3 & E & Er)|(e & w1 & cnt & w2 & E & _ & Hvc & Er)];
    rewrite Er in Hw', Hp |- *; eexists _, _; (split; [reflexivity|]);
    (split; [exact Hw'|]); (split; [|exact I]); (split; [exact Hp|]);
    exists evs; (split; [|exact Hbl]); rewrite E in He; unfold events in *; simpl in *.
  - exact He.
  - rewrite (vc_events _ _ _ _ _ Hvc). exact He.
Qed.

(** C9. The fault kind of a validator is fixed at construction: over any
    run the Byzantine flag and the kind of every validator stay what they
    were, whatever the fault model yields for a validator is its own kind,
    every recorded event reports the kind of the validator it blames, and a
    validator constructed with [isByzantine = false] has no kind, starts
    with 0 failures and keeps its failure counter unchanged forever. *)
Theorem fault_kind_fixed txs w :
  wf w ->
  exists rs w',
    runRounds cfg random txs w = (Ret rs, w') /\
    (forall i v, validators (this w) !! i = Some v ->
       exists v',
         validators (this w') !! i = Some v' /\
         isByzantine v' = isByzantine v /\
         byzantineType v' = byzantineType v /\
         (isByzantine v = false -> failures v' = failures v) /\
         (forall wx ft,
            validators (this wx) !! i = Some v' ->
            fst (exhibitsByzantineFailure cfg random i wx) = Ret (Some ft) ->
            isByzantine v = true /\ byzantineType v = Some ft)) /\
    Forall (blames (validators (this w))) (newEvents w w') /\
    (forall acct idx t d,
       isByzantine (fst (new_PBFTValidator random acct idx false t d)) = false /\
       byzantineType (fst (new_PBFTValidator random acct idx false t d)) = None /\
       failures (fst (new_PBFTValidator random acct idx false t d)) = 0 /\
       snd (new_PBFTValidator random acct idx false t d) = d) /\
    (forall acct idx t d,
       (0 <= random d)%Q -> (random d < 1)%Q ->
       exists ft,
         byzantineType (fst (new_PBFTValidator random acct idx true t d)) = Some ft /\
         ft ∈ BYZANTINE_FAILURE_TYPES).
Proof.
  intros Hw.
  destruct (runRounds_ind cfg random wf sameProfiles (fun _ => True)
              sameProfiles_preorder runConsensus_sameProfiles txs w Hw)
    as (rs & w' & E & _ & _ & (Hp & evs & He & Hbl) & _).
  exists rs, w'. split_and!.
  - exact E.
  - intros i v Hv.
    destruct (profile_lookup _ _ i v Hp Hv) as (v' & Hv' & Hb & Ht & _ & _ & Hf).
    exists v'. split_and!; auto.
    intros wx ft Hx Hex.
    destruct (exhibits_Some cfg random _ _ _ Hex) as (vx & Hvx & Hbx & Htx & _).
    rewrite Hx in Hvx. injection Hvx as <-. split; congruence.
  - rewrite (newEvents_app _ _ _ He). exact Hbl.
  - intros acct idx t d. repeat split.
  - intros acct idx t d. apply new_PBFTValidator_kind.
Qed.
End Profiles.

Lemma fault_kind_fixed_witness :
  wf crashing_world /\
  exists rs w' v',
    runRounds default_config always_quarter
      [("0x01", JSNull); ("0x02", JSNull); ("0x03", JSNull)] crashing_world
      = (Ret rs, w') /\
    validators (this w') !! 1%nat = Some v' /\
    byzantineType v' = Some crash /\
    Forall (blames (validators (this crashing_world))) (newEvents crashing_world w').
Proof.
  assert (Hw : wf crashing_world) by (unfold wf; simpl; repeat split; lia).
  split; [exact Hw|].
  destruct (fault_kind_fixed default_config always_quarter
              [("0x01", JSNull); ("0x02", JSNull); ("0x03", JSNull)]
              crashing_world Hw) as (rs & w' & E & Hp & Hbl & _).
  destruct (Hp 1%nat _ eq_refl) as (v1 & H1 & _ & T1 & _).
  exists rs, w', v1. split_and!; [exact E|exact H1|exact T1|exact Hbl].
Defined.

(** * The constructor establishes the invariants *)

Section Constructor.
Variable cfg : Config.
Variable random : nat -> Q.

Lemma buildValidators_length accounts : forall idx byz t d,
  length (fst (buildValidators random accounts idx byz t d)) = length accounts.
Proof.
  induction accounts as [|a accounts IH]; intros idx byz t d; [reflexivity|].
  cbn [buildValidators].
  destruct (new_PBFTValidator random a idx (bool_decide (idx ∈ byz)) t d) as [v d1].
  specialize (IH (idx + 1) byz t d1).
  destruct (buildValidators random accounts (idx + 1) byz t d1) as [vs d2].
  simpl in *. rewrite IH. reflexivity.
Qed.

Lemma buildValidators_typed accounts : forall idx byz t d,
  random_in_range random ->
  forallb kindedProfile
    (profile <$> fst (buildValidators random accounts idx byz t d)) = true.
Proof.
  induction accounts as [|a accounts IH]; intros idx byz t d Hr; [reflexivity|].
  cbn [buildValidators].
  pose proof (new_PBFTValidator_kind random a idx t d
                (proj1 (Hr d)) (proj2 (Hr d))) as (ft & Hft & _).
  destruct (bool_decide (idx ∈ byz)) eqn:Hb.
  - destruct (new_PBFTValidator random a idx true t d) as [v d1] eqn:Ev.
    specialize (IH (idx + 1) byz t d1 Hr).
    destruct (buildValidators random accounts (idx + 1) byz t d1) as [vs d2].
    cbn [fst] in *. rewrite fmap_cons. cbn [forallb]. rewrite IH, andb_true_r.
    unfold profile, kindedProfile. rewrite Hft.
    destruct (isByzantine v); reflexivity.
  - destruct (new_PBFTValidator random a idx false t d) as [v d1] eqn:Ev.
    unfold new_PBFTValidator in Ev. injection Ev as <- <-.
    specialize (IH (idx + 1) byz t d Hr).
    destruct (buildValidators random accounts (idx + 1) byz t d) as [vs d2].
    cbn [fst] in *. rewrite fmap_cons. cbn [forallb]. rewrite IH. reflexivity.
Qed.

(** A consensus object built over at least one account is well formed, its
    [f] is the one computed from the size of the registry, and its Byzantine
    validators have a kind. *)
Lemma new_PBFTConsensus_wf fuel accounts m t late d w :
  new_PBFTConsensus cfg random fuel accounts m t late d = Some w ->
  accounts <> [] ->
  wf w /\
  length (validators (this w)) = length accounts /\
  f (this w) = (Z.of_nat (length accounts) - 1) / 3 /\
  (random_in_range random -> typed w).
Proof.
  unfold new_PBFTConsensus, setupValidators. intros E Hne.
  destruct (pickByzantine cfg random fuel (Z.of_nat (length accounts)) [] d)
    as [[byz d1]|]; [|discriminate].
  pose proof (buildValidators_length accounts 0 byz t d1) as Hlen.
  pose proof (buildValidators_typed accounts 0 byz t d1) as Hty.
  destruct (buildValidators random accounts 0 byz t d1) as [vs d2].
  injection E as <-. simpl in *. unfold wf, typed. simpl.
  rewrite Hlen. split_and!; auto; try lia.
  destruct accounts; [contradiction|simpl; lia].
Qed.
End Constructor.

(** With the script's single Byzantine validator the selection loop of
    [setupValidators] ends after one draw. *)
Lemma pickByzantine_one cfg random fuel n d :
  BYZANTINE_VALIDATOR_COUNT cfg = 1%nat ->
  pickByzantine cfg random (S fuel) n [] d =
    Some ([Qfloor (random d * inject_Z n)%Q], S d).
Proof.
  intros H. cbn [pickByzantine]. rewrite H. simpl.
  destruct fuel; cbn [pickByzantine]; rewrite H; reflexivity.
Qed.

(** The example worlds are the ones the constructor builds. *)
Lemma example_worlds_built :
  new_PBFTConsensus default_config always_zero 1 four_accounts
    empty_measurements 1000 on_time 0 = Some faulty_world /\
  new_PBFTConsensus default_config always_quarter 1 four_accounts
    empty_measurements 1000 on_time 0 = Some crashing_world /\
  new_PBFTConsensus scenarioC_config scenarioC_random 3 four_accounts
    empty_measurements 1000 on_time 0 = Some scenarioC_world /\
  new_PBFTConsensus no_fault_config always_quarter 1 four_accounts
    empty_measurements 1000 on_time 0 = Some scenarioA_world /\
  new_PBFTConsensus no_fault_config always_quarter 1
    [ {| acc_address := "0xA1" |} ] empty_measurements 1000 on_time 0 = Some single_world.
Proof. split_and!; reflexivity. Qed.

(** * Accounting over a run: heights, views and failed rounds *)

Section Accounting.
Variable cfg : Config.
Variable random : nat -> Q.

Lemma runConsensus_height txHash receipt w :
  wf w -> blockHeight (this (snd (runConsensus cfg random txHash receipt w)))
          = blockHeight (this w) + 1.
Proof.
  intros Hw.
  destruct (runConsensus_outcome cfg random txHash receipt w Hw)
    as [(r & w3 & E & ->)|(e & w1 & cnt & w2 & E & _ & Hvc & ->)];
    pose proof (keeps_eq _ _ _ _ _ (keeps_viewState_tryBlock cfg random txHash) E) as V;
    unfold viewState in V; simpl in V; injection V as _ _ Hb _ _ _; simpl.
  - exact Hb.
  - rewrite (vc_height _ _ _ _ _ Hvc). exact Hb.
Qed.

Lemma heightsFrom_cons h k :
  heightsFrom h (S k) = JSNum (h + 1) :: heightsFrom (h + 1) k.
Proof.
  unfold heightsFrom. cbn [seq fmap list_fmap]. f_equal.
  rewrite <- fmap_S_seq, <- list_fmap_compose. apply list_fmap_ext.
  intros i x _. simpl. f_equal. lia.
Qed.

Lemma failed_failureResult bh v e t : failed (failureResult bh v e t) = true.
Proof. reflexivity. Qed.

Lemma failed_successResult bh v p a b c h t :
  failed (successResult bh v p a b c h t) = false.
Proof. reflexivity. Qed.

Lemma runRounds_accounting txs : forall w,
  wf w ->
  exists rs w',
    runRounds cfg random txs w = (Ret rs, w') /\
    wf w' /\
    length rs = length txs /\
    blockHeight (this w') = blockHeight (this w) + Z.of_nat (length txs) /\
    getProp "blockHeight" <$> rs = heightsFrom (blockHeight (this w)) (length txs) /\
    currentView (this w') =
      currentView (this w) + Z.of_nat (length (List.filter failed rs)) /\
    length (viewChanges (measurements w')) =
      (length (viewChanges (measurements w)) + length (List.filter failed rs))%nat.
Proof.
  induction txs as [|[txHash receipt] txs IH]; intros w Hw.
  - exists [], w. simpl. split_and!; auto; lia.
  - pose proof (runConsensus_height txHash receipt w Hw) as Hh.
    destruct (runConsensus_result cfg random txHash receipt w Hw)
      as (r & w1 & E1 & Hw1 & Hr).
    rewrite E1 in Hh. simpl in Hh.
    destruct (IH w1 Hw1) as (rs & w' & E2 & Hw' & Hlen & Hbh & Hhs & Hv & Hvc).
    exists (r :: rs), w'.
    cbn [runRounds]. rewrite (bind_Ret _ _ _ _ _ E1), (bind_Ret _ _ _ _ _ E2).
    split; [reflexivity|]. split; [exact Hw'|].
    cbn [length]. rewrite heightsFrom_cons, <- Hh, <- Hhs.
    destruct Hr as [(prim & pp & p & c & t & -> & Hv1 & Hvc1)
                   |(e & cnt & prim & k & -> & Hv1 & _ & Hvc1)];
      cbn [List.filter fmap list_fmap];
      rewrite ?failed_failureResult, ?failed_successResult;
      rewrite Hv, Hvc, Hbh, Hvc1, Hv1, ?length_app, Hh; cbn [length];
      split_and!; try reflexivity; lia.
Qed.

(** X1. Every round takes the next height: after a run of [k] rounds the
    height of the consensus object is the initial height plus [k], and the
    results report, in order, the heights [h + 1, ..., h + k], committed or
    not. *)
Theorem round_heights_consecutive txs w :
  wf w ->
  exists rs w',
    runRounds cfg random txs w = (Ret rs, w') /\
    blockHeight (this w') = blockHeight (this w) + Z.of_nat (length txs) /\
    getProp "blockHeight" <$> rs = heightsFrom (blockHeight (this w)) (length txs).
Proof.
  intros Hw.
  destruct (runRounds_accounting txs w Hw) as (rs & w' & E & _ & _ & Hb & Hh & _).
  exists rs, w'. split_and!; assumption.
Qed.

(** X2. Over a run every work item gets one result, and each failed round
    costs exactly one view: the view after the run is the initial view plus
    the number of failed rounds, and that many view-change records were
    appended. *)
Theorem failed_rounds_change_view txs w :
  wf w ->
  exists rs w',
    runRounds cfg random txs w = (Ret rs, w') /\
    length rs = length txs /\
    currentView (this w') =
      currentView (this w) + Z.of_nat (length (List.filter failed rs)) /\
    length (viewChanges (measurements w')) =
      (length (viewChanges (measurements w)) + length (List.filter failed rs))%nat.
Proof.
  intros Hw.
  destruct (runRounds_accounting txs w Hw)
    as (rs & w' & E & _ & Hlen & _ & _ & Hv & Hvc).
  exists rs, w'. split_and!; assumption.
Qed.
End Accounting.

Lemma round_heights_consecutive_witness :
  wf faulty_world /\
  exists rs w',
    runRounds default_config always_zero [("0x01", JSNull); ("0x02", JSNull)]
      faulty_world = (Ret rs, w') /\
    blockHeight (this w') = 2 /\
    getProp "blockHeight" <$> rs = [JSNum 1; JSNum 2].
Proof.
  assert (Hw : wf faulty_world) by (unfold wf; simpl; repeat split; lia).
  split; [exact Hw|].
  destruct (round_heights_consecutive default_config always_zero
              [("0x01", JSNull); ("0x02", JSNull)] faulty_world Hw)
    as (rs & w' & E & Hb & Hh).
  exists rs, w'. split_and!; [exact E|exact Hb|exact Hh].
Defined.

Lemma failed_rounds_change_view_witness :
  wf faulty_world /\
  exists rs w',
    runRounds default_config always_zero [("0x01", JSNull); ("0x02", JSNull)]
      faulty_world = (Ret rs, w') /\
    length rs = 2%nat /\
    currentView (this w') = Z.of_nat (length (List.filter failed rs)).
Proof.
  assert (Hw : wf faulty_world) by (unfold wf; simpl; repeat split; lia).
  split; [exact Hw|].
  destruct (failed_rounds_change_view default_config always_zero
              [("0x01", JSNull); ("0x02", JSNull)] faulty_world Hw)
    as (rs & w' & E & Hlen & Hv & _).
  exists rs, w'. split_and!; [exact E|exact Hlen|exact Hv].
Defined.

(** * What a phase writes *)

Ltac tally_fin :=
  repeat split;
  try reflexivity;
  try (simpl; lia).

(** Two records that differ in the way their numbers are written. *)
Ltac same_fields := repeat first [reflexivity | lia | progress f_equal].

Section Effects.
Variable cfg : Config.
Variable random : nat -> Q.

Lemma keeps_phaseLogs_prepareLoop : keeps phaseLogs (prepareLoop cfg random).
Proof. engine_unfold. keeps_with keep_tac. Qed.

Lemma keeps_phaseLogs_commitLoop : keeps phaseLogs (commitLoop cfg random).
Proof. engine_unfold. keeps_with keep_tac. Qed.

Lemma prepareBody_tally i c b w c' b' w' :
  prepareBody cfg random i (c, b) w = (Ret (c', b'), w') ->
  exists evs,
    events w' = events w ++ evs /\
    b' = b + Z.of_nat (length evs) /\
    (length evs <= 1)%nat /\
    c <= c' <= c + 1.
Proof.
  unfold prepareBody, bind, gets, exhibitsByzantineFailure, recordByzantineEvent,
    callOn, ret, events.
  intros H. repeat case_match; simplify_eq/=;
    first [ by (exists []; rewrite app_nil_r; tally_fin)
          | by (eexists [_]; tally_fin) ].
Qed.

Lemma commitBody_tally i c b w c' b' w' :
  commitBody cfg random i (c, b) w = (Ret (c', b'), w') ->
  exists evs,
    events w' = events w ++ evs /\
    b' = b + Z.of_nat (length evs) /\
    (length evs <= 1)%nat /\
    c <= c' <= c + 1.
Proof.
  unfold commitBody, bind, gets, exhibitsByzantineFailure, recordByzantineEvent,
    callOn, ret, events.
  intros H. repeat case_match; simplify_eq/=;
    first [ by (exists []; rewrite app_nil_r; tally_fin)
          | by (eexists [_]; tally_fin) ].
Qed.

Lemma forOf_tally (body : nat -> Z * Z -> M (Z * Z)) :
  (forall i c b w c' b' w',
     body i (c, b) w = (Ret (c', b'), w') ->
     exists evs, events w' = events w ++ evs /\
                 b' = b + Z.of_nat (length evs) /\
                 (length evs <= 1)%nat /\ c <= c' <= c + 1) ->
  forall l c b w c' b' w',
    forOf l body (c, b) w = (Ret (c', b'), w') ->
    exists evs, events w' = events w ++ evs /\
                b' = b + Z.of_nat (length evs) /\
                (length evs <= length l)%nat /\
                c <= c' <= c + Z.of_nat (length l).
Proof.
  intros Hb l. induction l as [|i l IH]; intros c b w c' b' w'; cbn [forOf].
  - intros [= <- <- <-]. exists []. rewrite app_nil_r. simpl. split_and!; auto; lia.
  - destruct (body i (c, b) w) as [[[c1 b1]|e] w1] eqn:E1;
      [rewrite (bind_Ret _ _ _ _ _ E1)
      |rewrite (bind_Throw _ _ _ _ _ E1); intros; discriminate].
    intros E2.
    destruct (Hb _ _ _ _ _ _ _ E1) as (ev1 & He1 & Hb1 & Hl1 & Hc1).
    destruct (IH _ _ _ _ _ _ E2) as (ev2 & He2 & Hb2 & Hl2 & Hc2).
    exists (ev1 ++ ev2). rewrite He2, He1, app_assoc, length_app.
    cbn [length]. split_and!; auto; lia.
Qed.

(** The second loop variable counts the events the loop appended. *)
Lemma prepareLoop_tally w c b w1 :
  prepareLoop cfg random w = (Ret (c, b), w1) ->
  b = Z.of_nat (length (newEvents w w1)) /\
  0 <= b <= Z.of_nat (length (validators (this w))) /\
  0 <= c <= Z.of_nat (length (validators (this w))).
Proof.
  intros E. unfold prepareLoop, bind, validatorIndices, gets in E.
  destruct (forOf_tally _ prepareBody_tally _ _ _ _ _ _ _ E) as (evs & He & Hb & Hl & Hc).
  rewrite (newEvents_app _ _ _ He). rewrite length_seq in Hc, Hl. split_and!; lia.
Qed.

Lemma commitLoop_tally w c b w1 :
  commitLoop cfg random w = (Ret (c, b), w1) ->
  b = Z.of_nat (length (newEvents w w1)) /\
  0 <= b <= Z.of_nat (length (validators (this w))) /\
  0 <= c <= Z.of_nat (length (validators (this w))).
Proof.
  intros E. unfold commitLoop, bind, validatorIndices, gets in E.
  destruct (forOf_tally _ commitBody_tally _ _ _ _ _ _ _ E) as (evs & He & Hb & Hl & Hc).
  rewrite (newEvents_app _ _ _ He). rewrite length_seq in Hc, Hl. split_and!; lia.
Qed.

(** The world a completed prepare (commit) phase leaves. *)
Lemma runPreparePhase_done w c b w1 :
  prepareLoop cfg random w = (Ret (c, b), w1) ->
  2 * f (this w) + 1 <= c ->
  runPreparePhase cfg random w =
    (Ret (elapsed (PREPARE_PHASE_TIME cfg) w),
     phaseDone "prepare" (PREPARE_PHASE_TIME cfg)
       (c * Z.of_nat (length (validators (this w)))) 512 (Some c) b w1).
Proof.
  intros E Hc.
  pose proof (keeps_eq _ _ _ _ _ (keeps_viewState_prepareLoop cfg random) E) as Hvs.
  pose proof (keeps_eq _ _ _ _ _ (keeps_now_prepareLoop cfg random) E) as Hck.
  pose proof (elapsed_clock (PREPARE_PHASE_TIME cfg) _ _ Hck) as Hel.
  unfold clock in Hck. injection Hck as Hnow _ _.
  unfold viewState in Hvs. injection Hvs as _ Hf _ _ _ Hn.
  unfold runPreparePhase.
  erewrite bind_Ret by reflexivity.
  erewrite bind_Ret by exact E.
  cbv beta iota.
  erewrite bind_Ret by reflexivity.
  erewrite bind_Ret by reflexivity.
  simpl. rewrite Hf.
  destruct (Z.ltb_spec c (2 * f (this w) + 1)); [lia|].
  erewrite bind_Ret by reflexivity.
  erewrite bind_Ret by reflexivity.
  erewrite bind_Ret by reflexivity.
  erewrite bind_Ret by reflexivity.
  unfold ret, phaseDone. simpl. rewrite Hn, <- Hel.
  replace (now w1 + elapsed (PREPARE_PHASE_TIME cfg) w1 - now w)
    with (elapsed (PREPARE_PHASE_TIME cfg) w1) by lia.
  reflexivity.
Qed.

Lemma runCommitPhase_done w c b w1 :
  commitLoop cfg random w = (Ret (c, b), w1) ->
  2 * f (this w) + 1 <= c ->
  runCommitPhase cfg random w =
    (Ret (elapsed (COMMIT_PHASE_TIME cfg) w),
     phaseDone "commit" (COMMIT_PHASE_TIME cfg)
       (c * Z.of_nat (length (validators (this w)))) 512 (Some c) b w1).
Proof.
  intros E Hc.
  pose proof (keeps_eq _ _ _ _ _ (keeps_viewState_commitLoop cfg random) E) as Hvs.
  pose proof (keeps_eq _ _ _ _ _ (keeps_now_commitLoop cfg random) E) as Hck.
  pose proof (elapsed_clock (COMMIT_PHASE_TIME cfg) _ _ Hck) as Hel.
  unfold clock in Hck. injection Hck as Hnow _ _.
  unfold viewState in Hvs. injection Hvs as _ Hf _ _ _ Hn.
  unfold runCommitPhase.
  erewrite bind_Ret by reflexivity.
  erewrite bind_Ret by exact E.
  cbv beta iota.
  erewrite bind_Ret by reflexivity.
  erewrite bind_Ret by reflexivity.
  simpl. rewrite Hf.
  destruct (Z.ltb_spec c (2 * f (this w) + 1)); [lia|].
  erewrite bind_Ret by reflexivity.
  erewrite bind_Ret by reflexivity.
  erewrite bind_Ret by reflexivity.
  erewrite bind_Ret by reflexivity.
  unfold ret, phaseDone. simpl. rewrite Hn, <- Hel.
  replace (now w1 + elapsed (COMMIT_PHASE_TIME cfg) w1 - now w)
    with (elapsed (COMMIT_PHASE_TIME cfg) w1) by lia.
  reflexivity.
Qed.

(** The pre-prepare phase of a primary that does not crash. *)
Lemma runPrePreparePhase_done w i o w0 :
  primaryIndex (this w) = Some i ->
  exhibitsByzantineFailure cfg random i w = (o, w0) ->
  o <> Ret (Some crash) ->
  exists w1,
    runPrePreparePhase cfg random w =
      (Ret (primaryDelay cfg o w
            + elapsed (PRE_PREPARE_PHASE_TIME cfg) (delayedBy cfg o w)),
       prePrepareDone cfg
         (primaryDelay cfg o w
          + elapsed (PRE_PREPARE_PHASE_TIME cfg) (delayedBy cfg o w)) w1) /\
    clock w1 = clock (delayedBy cfg o w) /\
    phaseLogs w1 = phaseLogs w /\
    viewState w1 = viewState w.
Proof.
  intros Hp E Ho. pose proof (primaryIndex_lt _ _ Hp) as Hlt.
  destruct (lookup_lt_is_Some_2 (validators (this w)) i Hlt) as [v Hv].
  unfold runPrePreparePhase.
  erewrite bind_Ret by reflexivity.
  erewrite bind_Ret by (rewrite Hp; reflexivity).
  assert (Hcall : forall w2 : World,
            length (validators (this w2)) = length (validators (this w)) ->
            callOn i recordProposal w2 = (Ret tt, updateValidator i (recordProposal (now w2)) w2)).
  { intros w2 H2. unfold callOn.
    destruct (lookup_lt_is_Some_2 (validators (this w2)) i) as [v2 Hv2]; [lia|].
    rewrite Hv2. reflexivity. }
  destruct o as [[[| |]|]|e]; [congruence| | | |].
  - (* malicious *)
    destruct (exhibits_Some cfg random i w malicious) as (v' & Hv' & _ & _ & E');
      [rewrite E; reflexivity|].
    erewrite bind_Ret by exact E'.
    erewrite bind_Ret.
    2: { erewrite bind_Ret; [reflexivity|].
         unfold recordByzantineEvent, updateValidator. simpl.
         rewrite list_lookup_alter_eq, Hv. reflexivity. }
    erewrite bind_Ret by (apply Hcall; simpl; rewrite length_alter; reflexivity).
    match goal with |- exists w1, _ ?W = _ /\ _ => exists W end.
    split; [|split_and!].
    + unfold prePrepareDone, primaryDelay, delayedBy.
      erewrite bind_Ret by reflexivity.
      erewrite bind_Ret by reflexivity.
      erewrite bind_Ret by reflexivity.
      erewrite bind_Ret by reflexivity.
      erewrite bind_Ret by reflexivity.
      unfold ret. simpl. unfold elapsed. simpl. rewrite !length_alter.
      same_fields.
    + reflexivity.
    + reflexivity.
    + unfold viewState. simpl. rewrite !length_alter. reflexivity.
  - (* delayed *)
    destruct (exhibits_Some cfg random i w delayed) as (v' & Hv' & _ & _ & E');
      [rewrite E; reflexivity|].
    erewrite bind_Ret by exact E'.
    erewrite bind_Ret.
    2: { erewrite bind_Ret; [reflexivity|].
         unfold recordByzantineEvent, updateValidator. simpl.
         rewrite list_lookup_alter_eq, Hv. reflexivity. }
    erewrite bind_Ret by (apply Hcall; simpl; rewrite length_alter; reflexivity).
    match goal with |- exists w1, _ ?W = _ /\ _ => exists W end.
    split; [|split_and!].
    + unfold prePrepareDone, primaryDelay, delayedBy.
      erewrite bind_Ret by reflexivity.
      erewrite bind_Ret by reflexivity.
      erewrite bind_Ret by reflexivity.
      erewrite bind_Ret by reflexivity.
      erewrite bind_Ret by reflexivity.
      unfold ret. simpl. unfold elapsed. simpl. rewrite !length_alter.
      same_fields.
    + reflexivity.
    + reflexivity.
    + unfold viewState. simpl. rewrite !length_alter. reflexivity.
  - (* no fault *)
    erewrite bind_Ret by exact E.
    assert (Hn0 : length (validators (this w0)) = length (validators (this w)) /\
                  clock w0 = clock w /\ phaseLogs w0 = phaseLogs w /\
                  viewState w0 = viewState w).
    { unfold exhibitsByzantineFailure in E. rewrite Hv in E.
      repeat case_match; simplify_eq/=; unfold viewState; simpl;
        rewrite ?length_alter; auto. }
    destruct Hn0 as (Hl0 & Hnow0 & Hlog0 & Hvs0).
    erewrite bind_Ret by reflexivity.
    erewrite bind_Ret by (apply Hcall; exact Hl0).
    match goal with |- exists w1, _ ?W = _ /\ _ => exists W end.
    split; [|split_and!].
    + unfold prePrepareDone, primaryDelay, delayedBy.
      erewrite bind_Ret by reflexivity.
      erewrite bind_Ret by reflexivity.
      erewrite bind_Ret by reflexivity.
      erewrite bind_Ret by reflexivity.
      erewrite bind_Ret by reflexivity.
      pose proof (elapsed_clock (PRE_PREPARE_PHASE_TIME cfg) _ _ Hnow0) as Hel0.
      unfold clock in Hnow0. injection Hnow0 as Hnow0 _ _.
      unfold ret. simpl. rewrite !length_alter, <- Hel0.
      unfold elapsed. simpl. same_fields.
    + simpl. exact Hnow0.
    + unfold phaseLogs in *. simpl. exact Hlog0.
    + unfold viewState in *. simpl. rewrite !length_alter. exact Hvs0.
  - exfalso. unfold exhibitsByzantineFailure in E. rewrite Hv in E.
    repeat case_match; discriminate.
Qed.
End Effects.

(** * The timings of a committed round *)

Lemma delayedBy_timers cfg o w :
  timers (delayedBy cfg o w) = (timers w + delayTimers o)%nat /\
  lateness (delayedBy cfg o w) = lateness w.
Proof. destruct o as [[[| |]|]|e]; simpl; split; solve [reflexivity | lia]. Qed.

Section Timing.
Variable cfg : Config.
Variable random : nat -> Q.

(** A prepare (commit) phase that returns took the time of its wait. *)
Lemma runPreparePhase_returns_done w d w' :
  runPreparePhase cfg random w = (Ret d, w') ->
  exists c b w1,
    prepareLoop cfg random w = (Ret (c, b), w1) /\
    2 * f (this w) + 1 <= c /\
    d = elapsed (PREPARE_PHASE_TIME cfg) w /\
    w' = phaseDone "prepare" (PREPARE_PHASE_TIME cfg)
           (c * Z.of_nat (length (validators (this w)))) 512 (Some c) b w1.
Proof.
  intros E. destruct (prepareLoop_returns cfg random w) as (c & b & w1 & El).
  exists c, b, w1. split; [exact El|].
  destruct (Z.lt_ge_cases c (2 * f (this w) + 1)) as [H|H].
  - destruct (runPreparePhase_spec cfg random _ _ _ _ El) as [Hlt _].
    rewrite (Hlt H) in E. discriminate.
  - rewrite (runPreparePhase_done cfg random _ _ _ _ El H) in E.
    injection E as <- <-. auto.
Qed.

Lemma runCommitPhase_returns_done w d w' :
  runCommitPhase cfg random w = (Ret d, w') ->
  exists c b w1,
    commitLoop cfg random w = (Ret (c, b), w1) /\
    2 * f (this w) + 1 <= c /\
    d = elapsed (COMMIT_PHASE_TIME cfg) w /\
    w' = phaseDone "commit" (COMMIT_PHASE_TIME cfg)
           (c * Z.of_nat (length (validators (this w)))) 512 (Some c) b w1.
Proof.
  intros E. destruct (commitLoop_returns cfg random w) as (c & b & w1 & El).
  exists c, b, w1. split; [exact El|].
  destruct (Z.lt_ge_cases c (2 * f (this w) + 1)) as [H|H].
  - destruct (runCommitPhase_spec cfg random _ _ _ _ El) as [Hlt _].
    rewrite (Hlt H) in E. discriminate.
  - rewrite (runCommitPhase_done cfg random _ _ _ _ El H) in E.
    injection E as <- <-. auto.
Qed.

Lemma runPrePreparePhase_returns_done w i d w' :
  primaryIndex (this w) = Some i ->
  runPrePreparePhase cfg random w = (Ret d, w') ->
  let o := fst (exhibitsByzantineFailure cfg random i w) in
  exists w1,
    d = primaryDelay cfg o w
        + elapsed (PRE_PREPARE_PHASE_TIME cfg) (delayedBy cfg o w) /\
    w' = prePrepareDone cfg d w1 /\
    clock w1 = clock (delayedBy cfg o w) /\
    phaseLogs w1 = phaseLogs w /\
    viewState w1 = viewState w.
Proof.
  intros Hp E. cbv zeta.
  destruct (exhibitsByzantineFailure cfg random i w) as [o w0] eqn:Eo.
  assert (Ho : o <> Ret (Some crash)).
  { intros ->.
    destruct (runPrePreparePhase_crash cfg random w i Hp) as (v & w1 & _ & E' & _).
    - rewrite Eo. reflexivity.
    - rewrite E' in E. discriminate. }
  destruct (runPrePreparePhase_done cfg random w i o w0 Hp Eo Ho)
    as (w1 & E' & Hnow & Hlogs & Hvs).
  rewrite E' in E. injection E as <- <-. exists w1. simpl. auto.
Qed.

(** X3. The timings of a committed round.  Each phase timing the round
    reports is the time its wait took on the clock: the configured duration
    of the phase plus the lateness of its timer; the pre-prepare timing
    also holds, exactly when the fault model made the primary delay the
    proposal, the wait of half the view-change timeout with the lateness of
    that timer.  Faults of kind delayed in the other two phases start no
    timer.  The total is the sum of the three timings, the round starts
    three timers (four with a delayed primary), and the three phase records
    it appends carry the same three durations. *)
Theorem committed_round_timing txHash receipt w r w' :
  wf w ->
  runConsensus cfg random txHash receipt w = (Ret r, w') ->
  getProp "success" r = JSBool true ->
  exists i,
    primaryIndex (this w) = Some i /\
    let o := fst (exhibitsByzantineFailure cfg random i w) in
    let k := (timers w + delayTimers o)%nat in
    let pp := primaryDelay cfg o w + (PRE_PREPARE_PHASE_TIME cfg + lateness w k) in
    let p := PREPARE_PHASE_TIME cfg + lateness w (k + 1) in
    let c := COMMIT_PHASE_TIME cfg + lateness w (k + 2) in
    getProp "phaseTimings" r =
      JSObj [("prePrepare", JSNum pp); ("prepare", JSNum p); ("commit", JSNum c)] /\
    getProp "totalTime" r = JSNum (pp + p + c) /\
    timers w' = (k + 3)%nat /\
    exists ps,
      consensusPhases (measurements w') = consensusPhases (measurements w) ++ ps /\
      PhaseRecord.duration <$> ps = [pp; p; c].
Proof.
  intros Hw E Hs. pose proof Hw as (Hn & Hv & Hflag).
  destruct (runConsensus_outcome cfg random txHash receipt w Hw)
    as [(r0 & w3 & Et & Er)|(e & w1 & cnt & w2 & _ & _ & _ & Er)];
    rewrite Er in E; injection E as <- <-; [|discriminate Hs].
  destruct (tryBlock_outcome cfg random txHash (nextHeight w) Hn Hv)
    as [(e & w1 & _ & E')|[(pp & w1 & e & w2 & _ & _ & E')
       |[(pp & w1 & p & w2 & e & w3' & _ & _ & _ & E')
        |(pp & w1 & p & w2 & c & w3' & prim & E1 & E2 & E3 & _ & E')]]];
    rewrite Et in E'; try discriminate.
  injection E' as -> ->.
  destruct (getPrimary_is_Some (this w) Hn Hv) as (i & _ & Hi & _).
  exists i. split; [exact Hi|].
  destruct (runPrePreparePhase_returns_done (nextHeight w) i _ _ Hi E1)
    as (wa & Hpp & -> & Hcka & Hla & _).
  destruct (runPreparePhase_returns_done _ _ _ E2) as (c2 & b2 & wb & El2 & _ & -> & ->).
  destruct (runCommitPhase_returns_done _ _ _ E3) as (c3 & b3 & wc & El3 & _ & -> & ->).
  pose proof (keeps_eq _ _ _ _ _ (keeps_now_prepareLoop cfg random) El2) as Hckb.
  pose proof (keeps_eq _ _ _ _ _ (keeps_now_commitLoop cfg random) El3) as Hckc.
  pose proof (keeps_eq _ _ _ _ _ (keeps_phaseLogs_prepareLoop cfg random) El2) as Hlb.
  pose proof (keeps_eq _ _ _ _ _ (keeps_phaseLogs_commitLoop cfg random) El3) as Hlc.
  rewrite exhibits_nextHeight in Hpp, Hcka.
  set (o := fst (exhibitsByzantineFailure cfg random i w)) in *.
  destruct (delayedBy_timers cfg o (nextHeight w)) as [Hdt Hdl].
  unfold clock in Hcka, Hckb, Hckc. simpl in Hckb, Hckc.
  injection Hcka as _ Hta Hlta. injection Hckb as _ Htb Hltb.
  injection Hckc as _ Htc Hltc.
  rewrite Hdt in Hta. rewrite Hdl in Hlta. simpl in Hta, Hlta.
  assert (Hpp' : pp = primaryDelay cfg o w
                      + (PRE_PREPARE_PHASE_TIME cfg
                         + lateness w (timers w + delayTimers o))).
  { rewrite Hpp. unfold elapsed. rewrite Hdt, Hdl. reflexivity. }
  assert (Hp' : elapsed (PREPARE_PHASE_TIME cfg) (prePrepareDone cfg pp wa)
                = PREPARE_PHASE_TIME cfg + lateness w (timers w + delayTimers o + 1)).
  { unfold elapsed. simpl. rewrite Hlta, Hta.
    replace (S (timers w + delayTimers o)) with (timers w + delayTimers o + 1)%nat by lia.
    reflexivity. }
  assert (Hc' : elapsed (COMMIT_PHASE_TIME cfg)
                  (phaseDone "prepare" (PREPARE_PHASE_TIME cfg)
                     (c2 * Z.of_nat (length (validators (this (prePrepareDone cfg pp wa)))))
                     512 (Some c2) b2 wb)
                = COMMIT_PHASE_TIME cfg + lateness w (timers w + delayTimers o + 2)).
  { unfold elapsed. simpl. rewrite Hltb, Htb, Hlta, Hta.
    replace (S (S (timers w + delayTimers o)))
      with (timers w + delayTimers o + 2)%nat by lia.
    reflexivity. }
  cbv zeta. rewrite Hp', Hc', Hpp'. split_and!.
  - reflexivity.
  - reflexivity.
  - simpl. rewrite Htc. simpl. rewrite Htb, Hta. lia.
  - unfold phaseLogs in Hla, Hlb, Hlc. simpl in Hla, Hlb, Hlc.
    injection Hla as _ Hpa. injection Hlb as _ Hpb. injection Hlc as _ Hpc.
    eexists [_; _; _]. split.
    + simpl. rewrite Hpc. simpl. rewrite Hpb. simpl. rewrite Hpa.
      rewrite <- !app_assoc. reflexivity.
    + simpl. rewrite <- Hpp'. f_equal. f_equal; [|f_equal].
      * unfold elapsed. rewrite Htb, Hltb. simpl. rewrite Hta, Hlta.
        f_equal. f_equal. lia.
      * unfold elapsed. rewrite Htc, Hltc. simpl. rewrite Htb, Hltb, Hta, Hlta.
        f_equal. f_equal. lia.
Qed.
End Timing.

Lemma committed_round_timing_witness :
  wf delaying_late_world /\
  exists r w',
    runConsensus default_config delaying_random "0x01" JSNull delaying_late_world
      = (Ret r, w') /\
    getProp "success" r = JSBool true /\
    getProp "totalTime" r = JSNum (1001 + 202 + 303 + 301) /\
    timers w' = 4%nat.
Proof.
  assert (Hw : wf delaying_late_world) by (unfold wf; simpl; repeat split; lia).
  split; [exact Hw|].
  assert (E : runConsensus default_config delaying_random "0x01" JSNull delaying_late_world =
              (Ret (successResult 1 0 "0xA1" 1203 303 301 "0x01" 2807),
               snd (runConsensus default_config delaying_random "0x01" JSNull
                      delaying_late_world))) by (vm_compute; reflexivity).
  destruct (committed_round_timing default_config delaying_random "0x01" JSNull
              delaying_late_world _ _ Hw E eq_refl) as (i & Hi & _ & Ht & Htm & _).
  eexists _, _. split; [exact E|]. split; [reflexivity|]. split; [reflexivity|].
  assert (i = 0%nat) as -> by (vm_compute in Hi; congruence).
  exact Htm.
Defined.

(** * The logs of network messages and of phases *)

Lemma logsGrow_preorder : PreOrder logsGrow.
Proof.
  split.
  - intros w. split; [reflexivity|]. split; [reflexivity|].
    exists [], []. rewrite !app_nil_r. split_and!; auto.
  - intros a b c (Hn1 & Hf1 & m1 & p1 & Hm1 & Hp1 & S1 & M1 & P1)
                 (Hn2 & Hf2 & m2 & p2 & Hm2 & Hp2 & S2 & M2 & P2).
    split; [congruence|]. split; [congruence|].
    exists (m1 ++ m2), (p1 ++ p2). rewrite Hm2, Hm1, Hp2, Hp1, !app_assoc.
    rewrite Hn1, Hf1 in *.
    split_and!; auto using Forall2_app.
    + apply Forall_app; auto.
    + apply Forall_app; auto.
Qed.

Lemma logsGrow_keeps w w' : logState w' = logState w -> logsGrow w w'.
Proof.
  unfold logState. intros [= Hm Hp Hn Hf].
  split; [exact Hn|]. split; [exact Hf|].
  exists [], []. rewrite !app_nil_r. split_and!; auto.
Qed.

Ltac logState_tac :=
  first [ reflexivity
        | unfold logState; simpl; rewrite ?length_alter; reflexivity
        | congruence ].

Section Logs.
Variable cfg : Config.
Variable random : nat -> Q.

Lemma keeps_logState_prepareLoop : keeps logState (prepareLoop cfg random).
Proof. engine_unfold. keeps_with logState_tac. Qed.

Lemma keeps_logState_commitLoop : keeps logState (commitLoop cfg random).
Proof. engine_unfold. keeps_with logState_tac. Qed.

Lemma keeps_logState_catchBlock e : keeps logState (catchBlock cfg random e).
Proof. engine_unfold. keeps_with logState_tac. Qed.

Lemma logsGrow_runPreparePhase : steps logsGrow (runPreparePhase cfg random).
Proof.
  intros w. destruct (prepareLoop_returns cfg random w) as (c & b & w1 & El).
  pose proof (keeps_eq _ _ _ _ _ keeps_logState_prepareLoop El) as Hls.
  destruct (prepareLoop_tally cfg random _ _ _ _ El) as (_ & Hb & Hc).
  destruct (Z.lt_ge_cases c (2 * f (this w) + 1)) as [H|H].
  - destruct (runPreparePhase_spec cfg random _ _ _ _ El) as [Hlt _].
    rewrite (Hlt H). apply logsGrow_keeps. rewrite <- Hls. reflexivity.
  - rewrite (runPreparePhase_done cfg random _ _ _ _ El H).
    unfold logState in Hls. injection Hls as Hm Hp Hn Hf.
    unfold logsGrow, phaseDone. simpl. split; [exact Hn|]. split; [exact Hf|].
    eexists [_], [_]. rewrite Hm, Hp. split; [reflexivity|]. split; [reflexivity|].
    split_and!; repeat constructor; simpl; auto; lia.
Qed.

Lemma logsGrow_runCommitPhase : steps logsGrow (runCommitPhase cfg random).
Proof.
  intros w. destruct (commitLoop_returns cfg random w) as (c & b & w1 & El).
  pose proof (keeps_eq _ _ _ _ _ keeps_logState_commitLoop El) as Hls.
  destruct (commitLoop_tally cfg random _ _ _ _ El) as (_ & Hb & Hc).
  destruct (Z.lt_ge_cases c (2 * f (this w) + 1)) as [H|H].
  - destruct (runCommitPhase_spec cfg random _ _ _ _ El) as [Hlt _].
    rewrite (Hlt H). apply logsGrow_keeps. rewrite <- Hls. reflexivity.
  - rewrite (runCommitPhase_done cfg random _ _ _ _ El H).
    unfold logState in Hls. injection Hls as Hm Hp Hn Hf.
    unfold logsGrow, phaseDone. simpl. split; [exact Hn|]. split; [exact Hf|].
    eexists [_], [_]. rewrite Hm, Hp. split; [reflexivity|]. split; [reflexivity|].
    split_and!; repeat constructor; simpl; auto; lia.
Qed.

Lemma logsGrow_runPrePreparePhase :
  steps logsGrow (runPrePreparePhase cfg random).
Proof.
  intros w. destruct (primaryIndex (this w)) as [i|] eqn:Hp.
  2: { unfold runPrePreparePhase. erewrite bind_Ret by reflexivity.
       erewrite bind_Throw by (rewrite Hp; reflexivity).
       apply logsGrow_keeps. reflexivity. }
  destruct (exhibitsByzantineFailure cfg random i w) as [o w0] eqn:Eo.
  assert (Hdec : o = Ret (Some crash) \/ o <> Ret (Some crash)).
  { destruct o as [[[| |]|]|]; auto; right; discriminate. }
  destruct Hdec as [->|Ho].
  - destruct (runPrePreparePhase_crash cfg random w i Hp)
      as (v & w1 & _ & E & _ & _ & Hcp & Hnm & _); [rewrite Eo; reflexivity|].
    pose proof (keeps_eq _ _ _ _ _ (keeps_viewState_runPrePreparePhase cfg random) E) as V.
    unfold viewState in V. injection V as _ Hf _ _ _ Hn.
    rewrite E. apply logsGrow_keeps. unfold logState. simpl. congruence.
  - destruct (runPrePreparePhase_done cfg random w i o w0 Hp Eo Ho)
      as (w1 & E & _ & Hlogs & V).
    unfold viewState in V. injection V as _ Hf _ _ _ Hn.
    unfold phaseLogs in Hlogs. injection Hlogs as Hm Hph.
    rewrite E. unfold logsGrow, prePrepareDone. simpl.
    split; [exact Hn|]. split; [exact Hf|].
    eexists [_], [_]. rewrite Hm, Hph, Hn.
    split; [reflexivity|]. split; [reflexivity|].
    split_and!.
    + repeat constructor.
    + repeat constructor; simpl; auto.
    + constructor; [|constructor]. unfold phaseShape. simpl. split_and!; auto.
Qed.

Lemma logsGrow_tryBlock txHash : steps logsGrow (tryBlock cfg random txHash).
Proof.
  unfold tryBlock.
  apply (steps_bind _ logsGrow_preorder); [apply logsGrow_runPrePreparePhase|intros pp].
  apply (steps_bind _ logsGrow_preorder); [apply logsGrow_runPreparePhase|intros p].
  apply (steps_bind _ logsGrow_preorder); [apply logsGrow_runCommitPhase|intros c].
  steps_with logsGrow_preorder ltac:(apply logsGrow_keeps; logState_tac).
Qed.

Lemma logsGrow_runConsensus txHash receipt :
  steps logsGrow (runConsensus cfg random txHash receipt).
Proof.
  unfold runConsensus.
  apply (steps_bind _ logsGrow_preorder);
    [intros w; apply logsGrow_keeps; reflexivity|intros _].
  apply (steps_bind _ logsGrow_preorder);
    [intros w; apply logsGrow_keeps; unfold primaryAddress; case_match; reflexivity
    |intros _].
  apply (steps_bind _ logsGrow_preorder).
  - apply (steps_try_catch _ logsGrow_preorder); [apply logsGrow_tryBlock|].
    intros e w. apply logsGrow_keeps. apply keeps_logState_catchBlock.
  - intros r.
    steps_with logsGrow_preorder ltac:(apply logsGrow_keeps; logState_tac).
Qed.

Lemma runConsensus_logsGrow txHash receipt w :
  wf w ->
  exists r w', runConsensus cfg random txHash receipt w = (Ret r, w') /\
               wf w' /\ logsGrow w w' /\ True.
Proof.
  intros Hw.
  destruct (runConsensus_result cfg random txHash receipt w Hw) as (r & w' & E & Hw' & _).
  exists r, w'. split_and!; auto.
  pose proof (logsGrow_runConsensus txHash receipt w) as H. rewrite E in H. exact H.
Qed.

(** X4. The log of network messages and the log of phase records grow in
    lockstep: over a run they gain the same number of entries, the k-th new
    message and the k-th new phase record carry the same phase, height, view
    and message count, every message accounts for
    [totalBytes = messageCount * messageSize], a proposal being [N] messages
    of 1024 bytes and prepare and commit messages having 512 bytes. *)
Theorem phase_logs_in_lockstep txs w :
  wf w ->
  exists rs w' ms ps,
    runRounds cfg random txs w = (Ret rs, w') /\
    networkMessages (measurements w') = networkMessages (measurements w) ++ ms /\
    consensusPhases (measurements w') = consensusPhases (measurements w) ++ ps /\
    length ms = length ps /\
    Forall2 sameEntry ms ps /\
    Forall (messageShape (Z.of_nat (length (validators (this w))))) ms.
Proof.
  intros Hw.
  destruct (runRounds_ind cfg random wf logsGrow (fun _ => True)
              logsGrow_preorder runConsensus_logsGrow txs w Hw)
    as (rs & w' & E & _ & _ & (_ & _ & ms & ps & Hm & Hp & HS & HM & _) & _).
  exists rs, w', ms, ps. split_and!; auto. eapply Forall2_length; eauto.
Qed.

(** X5. Every phase record written during a run has the shape its phase
    gives it.  A record with a participant count is a prepare or a commit
    record: the count [c] satisfies [2f+1 <= c <= N], the message count is
    [c * N] and the Byzantine count lies between 0 and [N].  A record
    without participant count is a pre-prepare record: its message count is
    [N] and its Byzantine count is 0 even when the primary exhibited a
    fault. *)
Theorem phase_records_shape txs w :
  wf w ->
  exists rs w' ps,
    runRounds cfg random txs w = (Ret rs, w') /\
    consensusPhases (measurements w') = consensusPhases (measurements w) ++ ps /\
    Forall (phaseShape (Z.of_nat (length (validators (this w)))) (f (this w))) ps.
Proof.
  intros Hw.
  destruct (runRounds_ind cfg random wf logsGrow (fun _ => True)
              logsGrow_preorder runConsensus_logsGrow txs w Hw)
    as (rs & w' & E & _ & _ & (_ & _ & ms & ps & Hm & Hp & HS & HM & HP) & _).
  exists rs, w', ps. split_and!; auto.
Qed.
End Logs.

Lemma phase_logs_in_lockstep_witness :
  wf delaying_world /\
  exists rs w' ms ps,
    runRounds default_config delaying_random [("0x01", JSNull)] delaying_world
      = (Ret rs, w') /\
    networkMessages (measurements w') = ms /\
    consensusPhases (measurements w') = ps /\
    length ms = length ps.
Proof.
  assert (Hw : wf delaying_world) by (unfold wf; simpl; repeat split; lia).
  split; [exact Hw|].
  destruct (phase_logs_in_lockstep default_config delaying_random
              [("0x01", JSNull)] delaying_world Hw)
    as (rs & w' & ms & ps & E & Hm & Hp & Hlen & _).
  exists rs, w', ms, ps. split_and!; [exact E|exact Hm|exact Hp|exact Hlen].
Defined.

Lemma phase_records_shape_witness :
  wf delaying_world /\
  exists rs w' ps,
    runRounds default_config delaying_random [("0x01", JSNull)] delaying_world
      = (Ret rs, w') /\
    consensusPhases (measurements w') = ps /\
    Forall (phaseShape 4 1) ps.
Proof.
  assert (Hw : wf delaying_world) by (unfold wf; simpl; repeat split; lia).
  split; [exact Hw|].
  destruct (phase_records_shape default_config delaying_random
              [("0x01", JSNull)] delaying_world Hw)
    as (rs & w' & ps & E & Hp & HP).
  exists rs, w', ps. split_and!; [exact E|exact Hp|exact HP].
Defined.

(** * Participation of the honest validators *)

Lemma honestAt_filter_seq flags :
  length (List.filter (honestAt flags) (seq 0 (length flags))) =
  length (List.filter negb flags).
Proof.
  induction flags as [|x flags IH] using rev_ind; [reflexivity|].
  rewrite length_app. cbn [length]. rewrite Nat.add_1_r, seq_S, !List.filter_app, !length_app.
  cbn [List.filter Nat.add]. f_equal.
  - rewrite <- IH. f_equal. apply List.filter_ext_in. intros i Hi.
    apply in_seq in Hi. unfold honestAt. rewrite lookup_app_l by lia. reflexivity.
  - unfold honestAt. rewrite list_lookup_middle by reflexivity.
    destruct (negb x); reflexivity.
Qed.

Lemma filter_except (g : nat -> bool) p l :
  NoDup l ->
  length (List.filter g l) =
    (length (List.filter (fun i => g i && negb (Nat.eqb i p)) l)
     + (if g p && bool_decide (p ∈ l) then 1 else 0))%nat.
Proof.
  induction 1 as [|i l Hi Hl IH]; [simpl; rewrite andb_false_r; reflexivity|].
  cbn [List.filter]. destruct (Nat.eqb_spec i p) as [->|Hne].
  - rewrite andb_false_r. rewrite bool_decide_eq_true_2 by left.
    assert (E : List.filter (fun i => g i && negb (Nat.eqb i p)) l = List.filter g l).
    { apply List.filter_ext_in. intros j Hj. destruct (Nat.eqb_spec j p) as [->|_].
      - exfalso. apply Hi. apply list_elem_of_In. exact Hj.
      - rewrite andb_true_r. reflexivity. }
    rewrite E. destruct (g p); simpl; lia.
  - rewrite andb_true_r.
    assert (Ed : bool_decide (p ∈ i :: l) = bool_decide (p ∈ l)).
    { apply bool_decide_ext. rewrite elem_of_cons. split; [intros [?|?]; [congruence|assumption]|auto]. }
    rewrite Ed. destruct (g i); simpl; rewrite IH; lia.
Qed.

Section Participation.
Variable cfg : Config.
Variable random : nat -> Q.

Lemma keeps_byzantineFlags_commitBody i s :
  keeps byzantineFlags (commitBody cfg random i s).
Proof. engine_unfold. keeps_with keep_tac. Qed.

Lemma keeps_byzantineFlags_viewChangeBody i s :
  keeps byzantineFlags (viewChangeBody cfg random i s).
Proof. engine_unfold. keeps_with keep_tac. Qed.

Lemma keeps_byzantineFlags_prepareBody i s :
  keeps byzantineFlags (prepareBody cfg random i s).
Proof. engine_unfold. keeps_with keep_tac. Qed.

Lemma keeps_byzantineFlags_runPrePreparePhase :
  keeps byzantineFlags (runPrePreparePhase cfg random).
Proof. engine_unfold. keeps_with keep_tac. Qed.

Lemma keeps_byzantineFlags_runPreparePhase :
  keeps byzantineFlags (runPreparePhase cfg random).
Proof. engine_unfold. keeps_with keep_tac. Qed.

(** A loop whose body counts every honest slot selected by [sel]. *)
Lemma forOf_counts_honest {S} (cnt : S -> Z) (sel : nat -> bool)
    (I : World -> Prop) (body : nat -> S -> M S) :
  (forall i s, keeps byzantineFlags (body i s)) ->
  (forall i s w s' w', I w -> body i s w = (Ret s', w') ->
     I w' /\
     cnt s + (if honestAt (byzantineFlags w) i && sel i then 1 else 0) <= cnt s'
       <= cnt s + 1) ->
  forall l s w s' w',
    I w -> forOf l body s w = (Ret s', w') ->
    cnt s + Z.of_nat (length (List.filter
                                (fun i => honestAt (byzantineFlags w) i && sel i) l))
      <= cnt s' <= cnt s + Z.of_nat (length l).
Proof.
  intros Hk Hb l. induction l as [|i l IH]; intros s w s' w' Hw; cbn [forOf].
  - intros [= <- <-]. simpl. lia.
  - destruct (body i s w) as [[s1|e] w1] eqn:E1;
      [rewrite (bind_Ret _ _ _ _ _ E1)
      |rewrite (bind_Throw _ _ _ _ _ E1); intros; discriminate].
    intros E2. destruct (Hb _ _ _ _ _ Hw E1) as (Hw1 & H1).
    pose proof (keeps_eq _ _ _ _ _ (Hk i s) E1) as Hfl.
    specialize (IH _ _ _ _ Hw1 E2). rewrite Hfl in IH.
    cbn [List.filter]. destruct (honestAt (byzantineFlags w) i && sel i);
      cbn [length] in *; lia.
Qed.

Lemma honestAt_lookup w i v :
  validators (this w) !! i = Some v ->
  honestAt (byzantineFlags w) i = negb (isByzantine v).
Proof.
  intros Hv. unfold honestAt, byzantineFlags. rewrite list_lookup_fmap, Hv. reflexivity.
Qed.

Lemma honestAt_None w i :
  validators (this w) !! i = None -> honestAt (byzantineFlags w) i = false.
Proof.
  intros Hv. unfold honestAt, byzantineFlags. rewrite list_lookup_fmap, Hv. reflexivity.
Qed.

Lemma commitBody_honest i c b w c' b' w' :
  True -> commitBody cfg random i (c, b) w = (Ret (c', b'), w') ->
  True /\ c + (if honestAt (byzantineFlags w) i && true then 1 else 0) <= c' <= c + 1.
Proof.
  intros _ E. split; [exact I|]. rewrite andb_true_r.
  destruct (commitBody_tally cfg random _ _ _ _ _ _ _ E) as (_ & _ & _ & _ & Hc).
  destruct (validators (this w) !! i) as [v|] eqn:Hv.
  2: { rewrite (honestAt_None _ _ Hv). lia. }
  rewrite (honestAt_lookup _ _ _ Hv).
  destruct (isByzantine v) eqn:Hb; simpl; [lia|].
  unfold commitBody, bind, exhibitsByzantineFailure in E. rewrite Hv, Hb in E.
  simpl in E. unfold callOn in E. rewrite Hv in E. injection E as <- _ _. lia.
Qed.

Lemma viewChangeBody_honest i c w c' w' :
  True -> viewChangeBody cfg random i c w = (Ret c', w') ->
  True /\ c + (if honestAt (byzantineFlags w) i && true then 1 else 0) <= c' <= c + 1.
Proof.
  intros _ E. split; [exact I|]. rewrite andb_true_r.
  destruct (validators (this w) !! i) as [v|] eqn:Hv.
  2: { unfold viewChangeBody, bind, exhibitsByzantineFailure in E. rewrite Hv in E.
       discriminate. }
  rewrite (honestAt_lookup _ _ _ Hv).
  unfold viewChangeBody, bind, exhibitsByzantineFailure in E. rewrite Hv in E.
  unfold callOn, ret in E.
  destruct (isByzantine v) eqn:Hb; simpl in *;
    repeat case_match; simplify_eq/=; lia.
Qed.

Lemma prepareBody_honest p i c b w c' b' w' :
  primaryIndex (this w) = Some p ->
  prepareBody cfg random i (c, b) w = (Ret (c', b'), w') ->
  primaryIndex (this w') = Some p /\
  c + (if honestAt (byzantineFlags w) i && negb (Nat.eqb i p) then 1 else 0) <= c'
    <= c + 1.
Proof.
  intros Hp E. split.
  { rewrite <- Hp. apply primaryIndex_viewState.
    exact (keeps_eq _ _ _ _ _ (keeps_viewState_prepareBody cfg random i (c, b)) E). }
  destruct (prepareBody_tally cfg random _ _ _ _ _ _ _ E) as (_ & _ & _ & _ & Hc).
  destruct (Nat.eqb_spec i p) as [->|Hne]; [rewrite andb_false_r; lia|].
  rewrite andb_true_r.
  destruct (validators (this w) !! i) as [v|] eqn:Hv.
  2: { rewrite (honestAt_None _ _ Hv). lia. }
  rewrite (honestAt_lookup _ _ _ Hv).
  destruct (isByzantine v) eqn:Hb; simpl; [lia|].
  unfold prepareBody, bind, gets, isPrimary, exhibitsByzantineFailure in E.
  rewrite Hp in E. destruct (Nat.eqb_spec i p) as [|_]; [contradiction|].
  cbv beta iota in E. rewrite Hv, Hb in E.
  simpl in E. unfold callOn in E. rewrite Hv in E. injection E as <- _ _. lia.
Qed.

Lemma honestCount_seq w :
  Z.of_nat (length (List.filter (fun i => honestAt (byzantineFlags w) i && true)
                      (seq 0 (length (validators (this w)))))) = honestCount w.
Proof.
  unfold honestCount. rewrite <- honestAt_filter_seq.
  unfold byzantineFlags at 3. rewrite length_fmap. do 2 f_equal.
  apply List.filter_ext. intros i. apply andb_true_r.
Qed.

Lemma commitLoop_honest w c b w1 :
  commitLoop cfg random w = (Ret (c, b), w1) ->
  honestCount w <= c <= Z.of_nat (length (validators (this w))).
Proof.
  intros E. unfold commitLoop, bind, validatorIndices, gets in E.
  pose proof (forOf_counts_honest (fun s : Z * Z => fst s) (fun _ => true)
                (fun _ => True) (commitBody cfg random)
                keeps_byzantineFlags_commitBody
                (fun i s => match s with (c, b) => fun w s' =>
                   match s' with (c', b') => commitBody_honest i c b w c' b' end end)
                _ _ _ _ _ I E) as H.
  rewrite honestCount_seq, length_seq in H. simpl in H. lia.
Qed.

Lemma viewChangeLoop_honest w c w1 :
  viewChangeLoop cfg random w = (Ret c, w1) ->
  honestCount w <= c <= Z.of_nat (length (validators (this w))).
Proof.
  intros E. unfold viewChangeLoop, bind, validatorIndices, gets in E.
  pose proof (forOf_counts_honest (fun s : Z => s) (fun _ => true)
                (fun _ => True) (viewChangeBody cfg random)
                keeps_byzantineFlags_viewChangeBody
                (fun i s w s' => viewChangeBody_honest i s w s')
                _ _ _ _ _ I E) as H.
  rewrite honestCount_seq, length_seq in H. simpl in H. lia.
Qed.

Lemma prepareLoop_honest w p c b w1 :
  primaryIndex (this w) = Some p ->
  prepareLoop cfg random w = (Ret (c, b), w1) ->
  honestCount w - (if honestAt (byzantineFlags w) p then 1 else 0) <= c.
Proof.
  intros Hp E. unfold prepareLoop, bind, validatorIndices, gets in E.
  pose proof (forOf_counts_honest (fun s : Z * Z => fst s)
                (fun i => negb (Nat.eqb i p))
                (fun w => primaryIndex (this w) = Some p) (prepareBody cfg random)
                keeps_byzantineFlags_prepareBody
                (fun i s => match s with (c, b) => fun w s' =>
                   match s' with (c', b') => prepareBody_honest p i c b w c' b' end end)
                _ _ _ _ _ Hp E) as H.
  simpl in H.
  pose proof (filter_except (honestAt (byzantineFlags w)) p
                (seq 0 (length (validators (this w)))) (NoDup_seq _ _)) as Hx.
  pose proof (honestCount_seq w) as Hs.
  rewrite (List.filter_ext _ (honestAt (byzantineFlags w))) in Hs
    by (intros i; apply andb_true_r).
  destruct (honestAt (byzantineFlags w) p); simpl in Hx;
    [destruct (bool_decide _) in Hx|]; lia.
Qed.

(** X6. The honest validators always take part: the commit loop and the
    loop of a view change count at least the validators that are not
    Byzantine and at most the [N] of the registry; the prepare loop counts
    at least the honest validators other than the primary and at most
    [N - 1].  So a registry with at least [2f+1] honest validators never
    fails the commit phase. *)
Theorem honest_validators_participate w :
  (exists c b w1,
      commitLoop cfg random w = (Ret (c, b), w1) /\
      honestCount w <= c <= Z.of_nat (length (validators (this w)))) /\
  (exists cnt w1,
      viewChangeLoop cfg random w = (Ret cnt, w1) /\
      honestCount w <= cnt <= Z.of_nat (length (validators (this w)))) /\
  (forall p, primaryIndex (this w) = Some p ->
     exists c b w1,
       prepareLoop cfg random w = (Ret (c, b), w1) /\
       honestCount w - (if honestAt (byzantineFlags w) p then 1 else 0) <= c
         <= Z.of_nat (length (validators (this w))) - 1) /\
  (2 * f (this w) + 1 <= honestCount w ->
     fst (runCommitPhase cfg random w) = Ret (elapsed (COMMIT_PHASE_TIME cfg) w)).
Proof.
  split_and!.
  - destruct (commitLoop_returns cfg random w) as (c & b & w1 & E).
    exists c, b, w1. split; [exact E|]. exact (commitLoop_honest _ _ _ _ E).
  - destruct (viewChangeLoop_returns cfg random w) as (c & w1 & E).
    exists c, w1. split; [exact E|]. exact (viewChangeLoop_honest _ _ _ E).
  - intros p Hp. destruct (prepareLoop_returns cfg random w) as (c & b & w1 & E).
    exists c, b, w1. split; [exact E|].
    pose proof (prepareLoop_honest _ _ _ _ _ Hp E).
    destruct (prepareLoop_count cfg random _ _ _ _ _ Hp E) as (evs & _ & _ & Hc & _).
    unfold crashesIn in Hc. lia.
  - intros Hq. destruct (commitLoop_returns cfg random w) as (c & b & w1 & E).
    pose proof (commitLoop_honest _ _ _ _ E).
    rewrite (runCommitPhase_done cfg random _ _ _ _ E) by lia. reflexivity.
Qed.
End Participation.

Lemma honest_validators_participate_witness :
  2 * f (this crashing_world) + 1 <= honestCount crashing_world /\
  fst (runCommitPhase default_config always_quarter crashing_world) = Ret 300.
Proof.
  assert (H : 2 * f (this crashing_world) + 1 <= honestCount crashing_world)
    by (vm_compute; discriminate).
  split; [exact H|].
  exact (proj2 (proj2 (proj2 (honest_validators_participate default_config
                                always_quarter crashing_world))) H).
Defined.

(** * A registry without Byzantine validators *)

Lemma quiet_preorder : PreOrder quiet.
Proof.
  split.
  - intros w _. auto.
  - intros a b c H1 H2 Ha. destruct (H1 Ha) as (D1 & E1 & F1).
    destruct H2 as (D2 & E2 & F2); [unfold allHonest; rewrite F1; exact Ha|].
    split_and!; congruence.
Qed.

Lemma allHonest_lookup w i v :
  allHonest w -> validators (this w) !! i = Some v -> isByzantine v = false.
Proof.
  intros Hall Hv. unfold allHonest, byzantineFlags in Hall.
  apply (Forall_lookup_1 _ _ i (isByzantine v)) in Hall; [exact Hall|].
  rewrite list_lookup_fmap, Hv. reflexivity.
Qed.

Lemma allHonest_count w :
  allHonest w -> honestCount w = Z.of_nat (length (validators (this w))).
Proof.
  unfold allHonest, honestCount. intros H.
  rewrite <- (length_fmap isByzantine (validators (this w))).
  fold (byzantineFlags w). f_equal.
  induction H as [|x l -> _ IH]; [reflexivity|]. simpl. f_equal. exact IH.
Qed.

Ltac quiet_tac :=
  unfold quiet, events, byzantineFlags; simpl; intros Hall;
  first
    [ by (split_and!; try reflexivity; apply fmap_alter_keep; intros []; reflexivity)
    | exfalso;
      match goal with
      | Hv : validators (this ?w) !! _ = Some ?v,
        Hb : negb (isByzantine ?v) = false |- _ =>
          rewrite (allHonest_lookup w _ v Hall Hv) in Hb; discriminate Hb
      end ].

Section HonestRegistry.
Variable cfg : Config.
Variable random : nat -> Q.

Lemma exhibits_honest i w :
  allHonest w ->
  exhibitsByzantineFailure cfg random i w = (Ret None, w) \/
  exhibitsByzantineFailure cfg random i w = (Throw TypeError_undefined, w).
Proof.
  intros Hall. unfold exhibitsByzantineFailure.
  destruct (validators (this w) !! i) as [v|] eqn:Hv; [|right; reflexivity].
  rewrite (allHonest_lookup w i v Hall Hv). left. reflexivity.
Qed.

Lemma steps_bind_exhibits_quiet {A} i (k : option FailureType -> M A) :
  steps quiet (k None) ->
  steps quiet (bind (exhibitsByzantineFailure cfg random i) k).
Proof.
  intros Hk w Hall. unfold bind.
  destruct (exhibits_honest i w Hall) as [E|E]; rewrite E.
  - apply Hk. exact Hall.
  - simpl. auto.
Qed.

Lemma quiet_runConsensus txHash receipt :
  steps quiet (runConsensus cfg random txHash receipt).
Proof.
  engine_unfold.
  repeat first
    [ apply steps_bind_exhibits_quiet
    | apply (steps_ret _ quiet_preorder)
    | apply (steps_throw _ quiet_preorder)
    | apply (steps_gets _ quiet_preorder)
    | apply (steps_bind _ quiet_preorder); [|intros ?]
    | apply (steps_try_catch _ quiet_preorder); [|intros ?]
    | apply (steps_forOf _ quiet_preorder); intros ? ?
    | match goal with
      | |- steps _ (match ?x with _ => _ end) => destruct x
      end ];
  try (prim_unfold; intros ?; simpl; repeat case_match; simpl; quiet_tac).
Qed.

(** A round over a registry without Byzantine validators. *)
Lemma runConsensus_honest txHash receipt w :
  replicated w /\ allHonest w ->
  exists r w',
    runConsensus cfg random txHash receipt w = (Ret r, w') /\
    (replicated w' /\ allHonest w') /\
    (draws w', events w') = (draws w, events w) /\
    getProp "success" r = JSBool true.
Proof.
  intros ((Hw & Hn2 & Hf) & Hall). pose proof Hw as (Hn & Hv & Hflag).
  pose proof (wf_runConsensus cfg random txHash receipt w Hw) as Hw'.
  pose proof (keeps_profile_runConsensus cfg random txHash receipt w) as Hprof.
  simpl in Hprof. injection Hprof as Hf' Hprof.
  apply (f_equal length) in Hprof. rewrite !length_fmap in Hprof.
  pose proof (quiet_runConsensus txHash receipt w Hall) as (Hd & He & Hfl).
  assert (Hq : 2 * f (this w) + 1 <= Z.of_nat (length (validators (this w))) - 1).
  { rewrite Hf.
    pose proof (Z.div_mod (Z.of_nat (length (validators (this w))) - 1) 3).
    pose proof (Z.mod_pos_bound (Z.of_nat (length (validators (this w))) - 1) 3).
    lia. }
  destruct (getPrimary_is_Some (this w) Hn Hv) as (i & pv & Hi & Hpv & _).
  (* pre-prepare *)
  assert (Hall0 : allHonest (nextHeight w)) by exact Hall.
  assert (Eo : exhibitsByzantineFailure cfg random i (nextHeight w)
               = (Ret None, nextHeight w)).
  { destruct (exhibits_honest i (nextHeight w) Hall0) as [E|E]; [exact E|].
    unfold exhibitsByzantineFailure in E. simpl in E. rewrite Hpv in E.
    repeat case_match; discriminate. }
  destruct (runPrePreparePhase_done cfg random (nextHeight w) i _ _ Hi Eo)
    as (wa & E1 & _ & _ & Va); [discriminate|].
  remember (prePrepareDone cfg _ wa) as w1 eqn:Hw1eq in E1.
  pose proof (keeps_eq _ _ _ _ _ (keeps_viewState_runPrePreparePhase cfg random) E1) as V1.
  assert (Hi1 : primaryIndex (this w1) = Some i).
  { rewrite <- Hi. rewrite (primaryIndex_viewState _ _ V1). reflexivity. }
  assert (Hall1 : allHonest w1).
  { unfold allHonest. 
    pose proof (keeps_eq _ _ _ _ _ (keeps_byzantineFlags_runPrePreparePhase cfg random) E1) as F1.
    rewrite F1. exact Hall. }
  unfold viewState in V1. simpl in V1. injection V1 as Hv1 Hf1 _ _ _ Hn1.
  (* prepare *)
  destruct (prepareLoop_returns cfg random w1) as (c2 & b2 & wb & El2).
  pose proof (prepareLoop_honest cfg random _ _ _ _ _ Hi1 El2) as Hc2.
  rewrite (allHonest_count _ Hall1) in Hc2.
  assert (E2 : exists w2, runPreparePhase cfg random w1 =
                 (Ret (elapsed (PREPARE_PHASE_TIME cfg) w1), w2)).
  { eexists. apply runPreparePhase_done; [exact El2|].
    destruct (honestAt (byzantineFlags w1) i); lia. }
  destruct E2 as (w2 & E2).
  pose proof (keeps_eq _ _ _ _ _ (keeps_viewState_runPreparePhase cfg random) E2) as V2.
  assert (Hall2 : allHonest w2).
  { unfold allHonest. 
    pose proof (keeps_eq _ _ _ _ _ (keeps_byzantineFlags_runPreparePhase cfg random) E2) as F2.
    rewrite F2. exact Hall1. }
  unfold viewState in V2. simpl in V2. injection V2 as Hv2 Hf2 _ _ _ Hn2'.
  (* commit *)
  destruct (commitLoop_returns cfg random w2) as (c3 & b3 & wc & El3).
  pose proof (commitLoop_honest cfg random _ _ _ _ El3) as Hc3.
  rewrite (allHonest_count _ Hall2) in Hc3.
  assert (E3 : exists w3, runCommitPhase cfg random w2 =
                 (Ret (elapsed (COMMIT_PHASE_TIME cfg) w2), w3)).
  { eexists. apply runCommitPhase_done; [exact El3|]. lia. }
  destruct E3 as (w3 & E3).
  destruct (tryBlock_outcome cfg random txHash (nextHeight w) Hn Hv)
    as [(e & wx & E1' & E)|[(pp & wx & e & wy & E1' & E2' & E)
       |[(pp & wx & p & wy & e & wz & E1' & E2' & E3' & E)
        |(pp & wx & p & wy & c & wz & prim & E1' & E2' & E3' & Hprim & E)]]];
    rewrite E1 in E1'; try discriminate; injection E1' as <- <-;
    rewrite E2 in E2'; try discriminate; injection E2' as <- <-;
    rewrite E3 in E3'; try discriminate; injection E3' as <- <-.
  destruct (runConsensus_outcome cfg random txHash receipt w Hw)
    as [(r & wr & Et & Er)|(e & wr & cnt & ws & Et & _)];
    rewrite E in Et; [|discriminate].
  injection Et as <- <-. rewrite Er in Hw', Hprof, Hf', Hd, He, Hfl.
  eexists _, _. split; [exact Er|]. simpl in *.
  split_and!; auto.
  - unfold replicated. simpl. split_and!; [exact Hw'|lia|rewrite Hf', Hprof; exact Hf].
  - unfold allHonest. rewrite Hfl. exact Hall.
  - rewrite Hd, He. reflexivity.
Qed.

(** X7. Over a registry without Byzantine validators (at least two
    validators, [f] as the constructor computes it) every round of a run
    commits, whatever the failure probability; no random number is drawn
    and no Byzantine event is logged. *)
Theorem honest_registry_commits txs w :
  replicated w ->
  allHonest w ->
  exists rs w',
    runRounds cfg random txs w = (Ret rs, w') /\
    length rs = length txs /\
    draws w' = draws w /\
    events w' = events w /\
    Forall (fun r => getProp "success" r = JSBool true) rs.
Proof.
  intros Hw Hall.
  destruct (runRounds_ind cfg random (fun w => replicated w /\ allHonest w)
              (fun w w' => (draws w', events w') = (draws w, events w))
              (fun r => getProp "success" r = JSBool true)
              (keeps_preorder (fun w => (draws w, events w)))) with (txs := txs) (w := w)
    as (rs & w' & E & Hlen & _ & Hde & HQ).
  - exact runConsensus_honest.
  - split; assumption.
  - injection Hde as Hd He. exists rs, w'. split_and!; assumption.
Qed.
End HonestRegistry.

Lemma honest_registry_commits_witness :
  replicated honest_world /\ allHonest honest_world /\
  exists rs w',
    runRounds honest_config always_zero [("0x01", JSNull); ("0x02", JSNull)]
      honest_world = (Ret rs, w') /\
    length rs = 2%nat /\
    draws w' = draws honest_world /\
    Forall (fun r => getProp "success" r = JSBool true) rs.
Proof.
  assert (Hw : replicated honest_world).
  { unfold replicated, wf. simpl. repeat split; lia. }
  assert (Hall : allHonest honest_world) by (repeat constructor).
  split_and!; [exact Hw|exact Hall|].
  destruct (honest_registry_commits honest_config always_zero
              [("0x01", JSNull); ("0x02", JSNull)] honest_world Hw Hall)
    as (rs & w' & E & Hlen & Hd & _ & HQ).
  exists rs, w'. split_and!; [exact E|exact Hlen|exact Hd|exact HQ].
Defined.

(** * What a run leaves untouched, and the edges of a round *)

Lemma steps_runRounds cfg random (R : World -> World -> Prop) (HR : PreOrder R) :
  (forall txHash receipt, steps R (runConsensus cfg random txHash receipt)) ->
  forall txs, steps R (runRounds cfg random txs).
Proof.
  intros Hstep txs. induction txs as [|[txHash receipt] txs IH]; cbn [runRounds].
  - apply (steps_ret _ HR).
  - apply (steps_bind _ HR); [apply Hstep|intros r].
    apply (steps_bind _ HR); [apply IH|intros rs]. apply (steps_ret _ HR).
Qed.

Lemma buildValidators_received random accounts : forall idx byz t d,
  Forall (fun v => receivedCounters v = (0, 0, 0))
    (fst (buildValidators random accounts idx byz t d)).
Proof.
  induction accounts as [|a accounts IH]; intros idx byz t d; cbn [buildValidators].
  - constructor.
  - destruct (new_PBFTValidator random a idx (bool_decide (idx ∈ byz)) t d)
      as [v d1] eqn:Ev.
    specialize (IH (idx + 1) byz t d1).
    destruct (buildValidators random accounts (idx + 1) byz t d1) as [vs d2].
    simpl in *. constructor; [|exact IH].
    unfold new_PBFTValidator in Ev. destruct (bool_decide (idx ∈ byz));
      injection Ev as <- _; reflexivity.
Qed.

Section Untouched.
Variable cfg : Config.
Variable random : nat -> Q.

Lemma keeps_received_runConsensus txHash receipt :
  keeps (fun w => receivedCounters <$> validators (this w))
    (runConsensus cfg random txHash receipt).
Proof. engine_unfold. keeps_with keep_tac. Qed.

(** X8. No code path counts an incoming message: the counters
    [preparesReceived], [commitsReceived] and [viewChangesReceived] that the
    constructor sets to 0 are still 0 in every validator after any run, and
    so are they in every snapshot a run writes. *)
Theorem received_counters_stay_zero fuel accounts m t late d w txs :
  new_PBFTConsensus cfg random fuel accounts m t late d = Some w ->
  Forall (fun v => receivedCounters v = (0, 0, 0))
    (validators (this (snd (runRounds cfg random txs w)))).
Proof.
  intros Hnew.
  pose proof (steps_runRounds cfg random _
                (keeps_preorder (fun w => receivedCounters <$> validators (this w)))
                keeps_received_runConsensus txs w) as Hk.
  simpl in Hk.
  assert (H0 : Forall (fun v => receivedCounters v = (0, 0, 0)) (validators (this w))).
  { unfold new_PBFTConsensus, setupValidators in Hnew.
    destruct (pickByzantine cfg random fuel _ [] d) as [[byz d1]|]; [|discriminate].
    pose proof (buildValidators_received random accounts 0 byz t d1) as Hb.
    destruct (buildValidators random accounts 0 byz t d1) as [vs d2].
    injection Hnew as <-. exact Hb. }
  apply (Forall_fmap receivedCounters (fun c => c = (0, 0, 0))).
  rewrite Hk. apply Forall_fmap. exact H0.
Qed.

(** X9. A consensus object without validators cannot run a round: the
    read of the primary's address throws the TypeError of a property read on
    [undefined], outside the [try] block, after the height was incremented;
    nothing else changed, and the run stops at its first work item. *)
Theorem empty_registry_throws tx txs w :
  validators (this w) = [] ->
  runRounds cfg random (tx :: txs) w = (Throw TypeError_undefined, nextHeight w).
Proof.
  intros Hvs. destruct tx as [txHash receipt]. cbn [runRounds].
  erewrite bind_Throw; [reflexivity|].
  unfold runConsensus. erewrite bind_Ret by reflexivity.
  erewrite bind_Throw; [reflexivity|].
  unfold primaryAddress, getPrimary, primaryIndex. simpl. rewrite Hvs. reflexivity.
Qed.

(** X10. A round that fails while a view change is in flight starts no
    second one: the view stays as it was, no view-change record is written
    and the flag stays set; the failure result then reports the unchanged
    view. *)
Theorem no_nested_view_change txHash receipt w :
  (0 < length (validators (this w)))%nat ->
  0 <= currentView (this w) ->
  viewChangeInProgress (this w) = true ->
  exists r w',
    runConsensus cfg random txHash receipt w = (Ret r, w') /\
    getProp "view" r = JSNum (currentView (this w)) /\
    currentView (this w') = currentView (this w) /\
    viewChangeInProgress (this w') = true /\
    viewChanges (measurements w') = viewChanges (measurements w).
Proof.
  intros Hn Hv Hflag. unfold runConsensus.
  erewrite bind_Ret by reflexivity. fold (nextHeight w).
  destruct (primaryAddress_returns (nextHeight w)) as (p0 & _ & Ep0); [exact Hn|exact Hv|].
  erewrite bind_Ret by exact Ep0.
  destruct (tryBlock cfg random txHash (nextHeight w)) as [[r|e] w1] eqn:E;
    pose proof (keeps_eq _ _ _ _ _ (keeps_viewState_tryBlock cfg random txHash) E) as V;
    pose proof (keeps_eq _ _ _ _ _ (keeps_viewChanges_tryBlock cfg random txHash) E) as Hvcs;
    unfold viewState in V; simpl in V, Hvcs; injection V as Hv1 _ _ Hfl1 _ _.
  - destruct (tryBlock_outcome cfg random txHash (nextHeight w) Hn Hv)
      as [(e & wa & _ & E')|[(pp & wa & e & wb & _ & _ & E')
         |[(pp & wa & p & wb & e & wc & _ & _ & _ & E')
          |(pp & wa & p & wb & c & wc & prim & _ & _ & _ & _ & E')]]];
      rewrite E in E'; try discriminate.
    injection E' as -> ->.
    erewrite bind_Ret by (unfold try_catch; rewrite E; reflexivity).
    erewrite bind_Ret by reflexivity.
    eexists _, _. split; [reflexivity|]. simpl. split_and!; auto; congruence.
  - assert (Ec : catchBlock cfg random e w1 =
                 (Ret (failureResult (blockHeight (this w1)) (currentView (this w1))
                         e (now w1)), w1)).
    { unfold catchBlock.
      rewrite (bind_Ret _ _ w1 true w1) by (unfold gets; rewrite Hfl1, Hflag; reflexivity).
      erewrite bind_Ret by reflexivity.
      erewrite bind_Ret by reflexivity.
      erewrite bind_Ret by reflexivity.
      erewrite bind_Ret by reflexivity. reflexivity. }
    erewrite bind_Ret by (unfold try_catch; rewrite E; exact Ec).
    erewrite bind_Ret by reflexivity.
    eexists _, _. split; [reflexivity|]. simpl. split_and!; auto; congruence.
Qed.

(** X11. The number of crashes a phase tolerates, exactly: the prepare
    phase completes if and only if at most [N - 1 - (2f+1)] validators
    crashed in it, the primary not being counted, and the commit phase if
    and only if at most [N - (2f+1)] did.  For [N = 3f + 1] that is [f - 1]
    crashes in prepare and [f] in commit. *)
Theorem crash_tolerance_exact w p :
  primaryIndex (this w) = Some p ->
  (forall o w', runPreparePhase cfg random w = (o, w') ->
     (o = Ret (elapsed (PREPARE_PHASE_TIME cfg) w) <->
      crashesIn "prepare" (newEvents w w')
        <= Z.of_nat (length (validators (this w))) - 1 - (2 * f (this w) + 1))) /\
  (forall o w', runCommitPhase cfg random w = (o, w') ->
     (o = Ret (elapsed (COMMIT_PHASE_TIME cfg) w) <->
      crashesIn "commit" (newEvents w w')
        <= Z.of_nat (length (validators (this w))) - (2 * f (this w) + 1))).
Proof.
  intros Hp. split.
  - intros o w' E.
    destruct (runPreparePhase_crashes cfg random _ _ _ _ Hp E)
      as (c & evs & He & _ & Hc & Hlt & Hge).
    rewrite (newEvents_app _ _ _ He). split.
    + intros ->. destruct (Z.lt_ge_cases c (2 * f (this w) + 1)) as [H|H]; [|lia].
      specialize (Hlt H). discriminate.
    + intros H. apply Hge. lia.
  - intros o w' E.
    destruct (runCommitPhase_crashes cfg random _ _ _ E)
      as (c & evs & He & _ & Hc & Hlt & Hge).
    rewrite (newEvents_app _ _ _ He). split.
    + intros ->. destruct (Z.lt_ge_cases c (2 * f (this w) + 1)) as [H|H]; [|lia].
      specialize (Hlt H). discriminate.
    + intros H. apply Hge. lia.
Qed.
End Untouched.

Lemma received_counters_stay_zero_witness :
  Forall (fun v => receivedCounters v = (0, 0, 0))
    (validators (this (snd (runRounds default_config always_zero
                              [("0x01", JSNull); ("0x02", JSNull)] faulty_world)))).
Proof.
  apply (received_counters_stay_zero default_config always_zero 1 four_accounts
           empty_measurements 1000 on_time 0 faulty_world). reflexivity.
Defined.

Lemma empty_registry_throws_witness :
  runRounds default_config always_zero [("0x01", JSNull); ("0x02", JSNull)] blank_world
  = (Throw "Cannot read properties of undefined (reading 'address')",
     nextHeight blank_world).
Proof.
  apply (empty_registry_throws default_config always_zero). reflexivity.
Defined.

Lemma no_nested_view_change_witness :
  viewChangeInProgress (this midViewChange_world) = true /\
  exists r w',
    runConsensus default_config always_zero "0x01" JSNull midViewChange_world
      = (Ret r, w') /\
    getProp "view" r = JSNum 0 /\
    viewChanges (measurements w') = [].
Proof.
  split; [reflexivity|].
  destruct (no_nested_view_change default_config always_zero "0x01" JSNull
              midViewChange_world) as (r & w' & E & Hv & _ & _ & Hvc);
    [simpl; lia|simpl; lia|reflexivity|].
  exists r, w'. split_and!; [exact E|exact Hv|exact Hvc].
Defined.

Lemma crash_tolerance_exact_witness :
  primaryIndex (this crashing_world) = Some 0%nat /\
  fst (runPreparePhase default_config always_quarter crashing_world) <> Ret 300 /\
  fst (runCommitPhase default_config always_quarter crashing_world) = Ret 300.
Proof.
  split; [reflexivity|].
  destruct (crash_tolerance_exact default_config always_quarter crashing_world 0%nat
              eq_refl) as [Hprep Hcom].
  split.
  - intros H.
    apply (Hprep _ _ (surjective_pairing _)) in H. vm_compute in H. apply H. reflexivity.
  - apply (Hcom _ _ (surjective_pairing _)). vm_compute. discriminate.
Defined.

(** * Acknowledgements of a view change and the messages recorded for them *)

Lemma foldr_add_app (a b : list Z) :
  foldr Z.add 0 (a ++ b) = foldr Z.add 0 a + foldr Z.add 0 b.
Proof. induction a as [|x a IH]; simpl; lia. Qed.

Lemma foldr_add_alter (g : PBFTValidator -> Z) (h : PBFTValidator -> PBFTValidator)
    (l : list PBFTValidator) i v :
  l !! i = Some v ->
  foldr Z.add 0 (g <$> alter h i l) = foldr Z.add 0 (g <$> l) + (g (h v) - g v).
Proof.
  revert i. induction l as [|y l IH]; intros [|i] Hl; simplify_eq/=.
  - lia.
  - rewrite (IH _ Hl). lia.
Qed.

Lemma acknowledged_preorder : PreOrder acknowledged.
Proof.
  split.
  - intros w. split; [reflexivity|lia].
  - intros a b c [N1 H1] [N2 H2]. split; [congruence|]. rewrite N1 in H2. lia.
Qed.

Section Acknowledged.
Variable cfg : Config.
Variable random : nat -> Q.

Lemma viewChangeBody_sent i c w c' w' :
  viewChangeBody cfg random i c w = (Ret c', w') ->
  sentViewChanges w' - sentViewChanges w = c' - c.
Proof.
  unfold viewChangeBody, bind, exhibitsByzantineFailure, callOn, ret, sentViewChanges.
  intros H. repeat case_match; simplify_eq/=;
    repeat match goal with
    | |- context [foldr Z.add 0 (viewChangesSent <$> alter ?h ?i ?l)] =>
        erewrite (foldr_add_alter viewChangesSent h l i)
          by (rewrite ?list_lookup_alter_eq; try eassumption;
              match goal with
              | Hv : _ !! _ = Some _ |- _ => rewrite Hv; reflexivity
              end)
    end; simpl; lia.
Qed.

Lemma forOf_viewChangeBody_sent l : forall c w c' w',
  forOf l (viewChangeBody cfg random) c w = (Ret c', w') ->
  sentViewChanges w' - sentViewChanges w = c' - c.
Proof.
  induction l as [|i l IH]; intros c w c' w'; cbn [forOf].
  - intros [= <- <-]. lia.
  - destruct (viewChangeBody cfg random i c w) as [[c1|e] w1] eqn:E1;
      [rewrite (bind_Ret _ _ _ _ _ E1)
      |rewrite (bind_Throw _ _ _ _ _ E1); intros; discriminate].
    intros E2. pose proof (viewChangeBody_sent _ _ _ _ _ E1).
    pose proof (IH _ _ _ _ E2). lia.
Qed.

Lemma viewChangeLoop_sent w c w1 :
  viewChangeLoop cfg random w = (Ret c, w1) ->
  sentViewChanges w1 = sentViewChanges w + c.
Proof.
  intros E. unfold viewChangeLoop, bind, validatorIndices, gets in E.
  pose proof (forOf_viewChangeBody_sent _ _ _ _ _ E). lia.
Qed.

Lemma keeps_sent_tryBlock txHash :
  keeps (fun w => viewChangesSent <$> validators (this w)) (tryBlock cfg random txHash).
Proof. engine_unfold. keeps_with keep_tac. Qed.

Lemma initiateViewChange_validators reason w cnt w1 :
  wf w ->
  viewChangeLoop cfg random (enterViewChange w) = (Ret cnt, w1) ->
  validators (this (snd (initiateViewChange cfg random reason w))) =
    validators (this w1).
Proof.
  intros (Hn & Hv & Hflag) E.
  pose proof (keeps_eq _ _ _ _ _ (keeps_viewState_viewChangeLoop cfg random) E) as Hvs.
  unfold viewState in Hvs. simpl in Hvs.
  injection Hvs as Hv1 Hf1 Hb1 Hfl1 Hl1 Hn1.
  destruct (primaryAddress_returns (set_this (set_viewChangeInProgress true (this w)) w))
    as (p0 & _ & Ep0); [exact Hn|exact Hv|].
  destruct (primaryAddress_returns (wake (VIEW_CHANGE_TIMEOUT cfg) w1))
    as (p & Hp & Ep); [simpl; lia|simpl; lia|].
  unfold initiateViewChange.
  rewrite (bind_Ret _ _ w false w) by (unfold gets; rewrite Hflag; reflexivity).
  erewrite bind_Ret by reflexivity.
  erewrite bind_Ret by reflexivity.
  erewrite bind_Ret by exact Ep0.
  erewrite bind_Ret by reflexivity.
  erewrite bind_Ret by reflexivity.
  erewrite bind_Ret by exact E.
  erewrite bind_Ret by reflexivity.
  erewrite bind_Ret by exact Ep.
  erewrite bind_Ret by reflexivity.
  erewrite bind_Ret by reflexivity.
  erewrite bind_Ret by reflexivity.
  erewrite bind_Ret by reflexivity.
  erewrite bind_Ret by reflexivity.
  erewrite bind_Ret by reflexivity.
  reflexivity.
Qed.

Lemma runConsensus_acknowledged txHash receipt w :
  wf w ->
  exists r w', runConsensus cfg random txHash receipt w = (Ret r, w') /\
               wf w' /\ acknowledged w w' /\ True.
Proof.
  intros Hw. pose proof (wf_runConsensus cfg random txHash receipt w Hw) as Hw'.
  pose proof Hw as (Hn & Hv & Hflag).
  destruct (runConsensus_outcome cfg random txHash receipt w Hw)
    as [(r & w3 & E & Er)|(e & w1 & cnt0 & w2 & E & Evc0 & _ & Er)];
    rewrite Er in Hw' |- *; eexists _, _; (split; [reflexivity|]);
    (split; [exact Hw'|]); (split; [|exact I]);
    pose proof (keeps_eq _ _ _ _ _ (keeps_viewState_tryBlock cfg random txHash) E) as V;
    pose proof (keeps_eq _ _ _ _ _ (keeps_viewChanges_tryBlock cfg random txHash) E) as Hvcs;
    pose proof (keeps_eq _ _ _ _ _ (keeps_sent_tryBlock txHash) E) as Hsent;
    unfold viewState in V; simpl in V, Hvcs, Hsent; injection V as Hv1 _ _ Hfl1 _ Hn1.
  - unfold acknowledged, viewChangeMessages, sentViewChanges. simpl.
    rewrite Hvcs, Hsent. split; [exact Hn1|lia].
  - assert (Hw1 : wf w1) by (repeat split; [lia|lia|congruence]).
    destruct (initiateViewChange_spec cfg random e w1 Hw1)
      as (cnt & wl & w2' & El & Evc & Hvc).
    rewrite Evc in Evc0. injection Evc0 as Hw2. subst w2.
    pose proof (initiateViewChange_validators e w1 cnt wl Hw1 El) as Hvals.
    rewrite Evc in Hvals. simpl in Hvals.
    pose proof (viewChangeLoop_sent _ _ _ El) as Hs.
    destruct Hvc as [Vview Vflag Vf Vh Vlen Vnow Vt Vl (prim & Hprim & Hrec) Vev Vph Vmsg Vcnt].
    unfold acknowledged, viewChangeMessages, sentViewChanges in *. simpl in *.
    split; [rewrite Vlen; exact Hn1|].
    rewrite Hvals, Hrec, fmap_app, foldr_add_app, Hvcs. simpl.
    rewrite Hs, Hsent, Hn1. lia.
Qed.

(** X12. Every acknowledgement of a view change is accounted for as [N]
    messages: over a run, the message counts of the view-change records that
    were appended sum up to [N] times the increase of the validators'
    [viewChangesSent] counters, and no other code touches these counters. *)
Theorem view_change_messages_match_counters txs w :
  wf w ->
  exists rs w',
    runRounds cfg random txs w = (Ret rs, w') /\
    viewChangeMessages w' - viewChangeMessages w =
      Z.of_nat (length (validators (this w))) * (sentViewChanges w' - sentViewChanges w).
Proof.
  intros Hw.
  destruct (runRounds_ind cfg random wf acknowledged (fun _ => True)
              acknowledged_preorder runConsensus_acknowledged txs w Hw)
    as (rs & w' & E & _ & _ & (_ & H) & _).
  exists rs, w'. split; [exact E|exact H].
Qed.
End Acknowledged.

Lemma view_change_messages_match_counters_witness :
  wf faulty_world /\
  exists rs w',
    runRounds default_config always_zero [("0x01", JSNull); ("0x02", JSNull)]
      faulty_world = (Ret rs, w') /\
    viewChangeMessages w' = 4 * sentViewChanges w'.
Proof.
  assert (Hw : wf faulty_world) by (unfold wf; simpl; repeat split; lia).
  split; [exact Hw|].
  destruct (view_change_messages_match_counters default_config always_zero
              [("0x01", JSNull); ("0x02", JSNull)] faulty_world Hw)
    as (rs & w' & E & H).
  exists rs, w'. split; [exact E|].
  change (viewChangeMessages w' - 0 = 4 * (sentViewChanges w' - 0)) in H. lia.
Defined.

(** * The registry built by [setupValidators] *)

Lemma randomIndex_in_range random n d :
  random_in_range random -> 0 < n ->
  0 <= Qfloor (random d * inject_Z n)%Q < n.
Proof.
  intros Hr Hn. destruct (Hr d) as [H0 H1]. split.
  - change 0 with (Qfloor 0). apply Qfloor_resp_le.
    apply Qmult_le_0_compat; [exact H0|].
    change 0%Q with (inject_Z 0). rewrite <- Zle_Qle. lia.
  - rewrite Zlt_Qlt. eapply Qle_lt_trans; [apply Qfloor_le|].
    rewrite <- (Qmult_1_l (inject_Z n)) at 2.
    apply Qmult_lt_compat_r; [|exact H1].
    change 0%Q with (inject_Z 0). rewrite <- Zlt_Qlt. exact Hn.
Qed.

Lemma randomIndex_zero (random : nat -> Q) d : Qfloor (random d * inject_Z 0)%Q = 0.
Proof.
  assert (H : (random d * inject_Z 0 == 0)%Q) by (unfold inject_Z; ring).
  rewrite H. reflexivity.
Qed.

(** A duplicate-free list of indices below [m] has at most [m] entries. *)
Lemma bounded_NoDup_length (s : list Z) (m : nat) :
  NoDup s -> Forall (fun k => 0 <= k < Z.of_nat m) s -> (length s <= m)%nat.
Proof.
  intros Hnd Hb.
  transitivity (length (Z.of_nat <$> seq 0 m));
    [|rewrite length_fmap, length_seq; reflexivity].
  apply NoDup_incl_length.
  - apply NoDup_ListNoDup. exact Hnd.
  - intros k Hk. apply list_elem_of_In in Hk.
    rewrite Forall_forall in Hb. specialize (Hb k Hk).
    apply list_elem_of_In. apply list_elem_of_fmap. exists (Z.to_nat k).
    split; [lia|]. apply elem_of_seq. lia.
Qed.

Section Selection.
Variable cfg : Config.
Variable random : nat -> Q.

(** What the selection loop keeps: the set has no duplicates and its
    members are indices below [m]. *)
Lemma pickByzantine_invariant (m : nat) n fuel : forall s d s' d',
  (forall d0, 0 <= Qfloor (random d0 * inject_Z n)%Q < Z.of_nat m) ->
  NoDup s -> Forall (fun k => 0 <= k < Z.of_nat m) s ->
  pickByzantine cfg random fuel n s d = Some (s', d') ->
  NoDup s' /\ Forall (fun k => 0 <= k < Z.of_nat m) s' /\
  (length s <= length s')%nat /\
  (BYZANTINE_VALIDATOR_COUNT cfg <= length s')%nat /\
  ((length s <= BYZANTINE_VALIDATOR_COUNT cfg)%nat ->
   length s' = BYZANTINE_VALIDATOR_COUNT cfg).
Proof.
  induction fuel as [|fuel IH]; intros s d s' d' Hidx Hnd Hb; cbn [pickByzantine];
    destruct (Nat.ltb_spec (length s) (BYZANTINE_VALIDATOR_COUNT cfg)) as [Hlt|Hge];
    try discriminate; try (intros [= <- <-]; split_and!; auto; lia).
  intros E. case_bool_decide as Hin.
  - destruct (IH _ _ _ _ Hidx Hnd Hb E) as (A & B & C & D & F). split_and!; auto; lia.
  - assert (Hnd' : NoDup (s ++ [Qfloor (random d * inject_Z n)%Q])).
    { apply NoDup_app. split_and!; [exact Hnd| |apply NoDup_singleton].
      intros x Hx Hx'. apply list_elem_of_singleton in Hx'. subst. contradiction. }
    assert (Hb' : Forall (fun k => 0 <= k < Z.of_nat m)
                    (s ++ [Qfloor (random d * inject_Z n)%Q])).
    { apply Forall_app. split; [exact Hb|]. constructor; [apply Hidx|constructor]. }
    destruct (IH _ _ _ _ Hidx Hnd' Hb' E) as (A & B & C & D & F).
    rewrite length_app in *. simpl in *. split_and!; auto; lia.
Qed.

(** The loop cannot finish when more Byzantine validators are asked for
    than there are indices to draw. *)
Lemma pickByzantine_diverges (m : nat) n fuel : forall s d,
  (forall d0, 0 <= Qfloor (random d0 * inject_Z n)%Q < Z.of_nat m) ->
  (m < BYZANTINE_VALIDATOR_COUNT cfg)%nat ->
  NoDup s -> Forall (fun k => 0 <= k < Z.of_nat m) s ->
  pickByzantine cfg random fuel n s d = None.
Proof.
  induction fuel as [|fuel IH]; intros s d Hidx Hm Hnd Hb; cbn [pickByzantine];
    pose proof (bounded_NoDup_length s m Hnd Hb);
    destruct (Nat.ltb_spec (length s) (BYZANTINE_VALIDATOR_COUNT cfg)) as [Hlt|Hge];
    try lia; [reflexivity|].
  case_bool_decide as Hin.
  - apply IH; assumption.
  - apply IH; try assumption.
    + apply NoDup_app. split_and!; [exact Hnd| |apply NoDup_singleton].
      intros x Hx Hx'. apply list_elem_of_singleton in Hx'. subst. contradiction.
    + apply Forall_app. split; [exact Hb|]. constructor; [apply Hidx|constructor].
Qed.

Lemma index_bound (accounts : list Account) :
  random_in_range random ->
  forall d0, 0 <= Qfloor (random d0 * inject_Z (Z.of_nat (length accounts)))%Q
             < Z.of_nat (Nat.max (length accounts) 1).
Proof.
  intros Hr d0. destruct (length accounts) as [|n] eqn:Hn.
  - change (Z.of_nat 0) with 0. rewrite randomIndex_zero. simpl. lia.
  - pose proof (randomIndex_in_range random (Z.of_nat (S n)) d0 Hr). lia.
Qed.

Lemma buildValidators_lookup accounts : forall idx byz t d k a,
  accounts !! k = Some a ->
  exists v,
    fst (buildValidators random accounts idx byz t d) !! k = Some v /\
    account v = a /\ address v = acc_address a /\
    index v = idx + Z.of_nat k /\
    isByzantine v = bool_decide (idx + Z.of_nat k ∈ byz).
Proof.
  induction accounts as [|a0 accounts IH]; intros idx byz t d k a Hk; [discriminate|].
  cbn [buildValidators].
  destruct (new_PBFTValidator random a0 idx (bool_decide (idx ∈ byz)) t d)
    as [v d1] eqn:Ev.
  specialize (IH (idx + 1) byz t d1).
  destruct (buildValidators random accounts (idx + 1) byz t d1) as [vs d2].
  destruct k as [|k]; simpl in *.
  - injection Hk as <-. exists v. unfold new_PBFTValidator in Ev.
    rewrite Z.add_0_r.
    destruct (bool_decide (idx ∈ byz)); injection Ev as <- _; simpl; auto.
  - destruct (IH k a Hk) as (v' & Hv' & A & B & C & D). exists v'.
    replace (idx + Z.of_nat (S k)) with (idx + 1 + Z.of_nat k) by lia.
    auto.
Qed.

Lemma buildValidators_flags accounts : forall idx byz t d,
  isByzantine <$> fst (buildValidators random accounts idx byz t d) =
  (fun k => bool_decide (idx + Z.of_nat k ∈ byz)) <$> seq 0 (length accounts).
Proof.
  intros idx byz t d. apply list_eq. intros k.
  rewrite !list_lookup_fmap.
  destruct (accounts !! k) as [a|] eqn:Hk.
  - destruct (buildValidators_lookup accounts idx byz t d k a Hk)
      as (v & Hv & _ & _ & _ & Hb).
    rewrite Hv. simpl. rewrite Hb.
    apply lookup_lt_Some in Hk. rewrite lookup_seq_lt by exact Hk. reflexivity.
  - apply lookup_ge_None in Hk.
    rewrite (lookup_ge_None_2 (fst _)) by (rewrite buildValidators_length; exact Hk).
    rewrite lookup_seq_ge by exact Hk. reflexivity.
Qed.

Lemma filter_fmap_length {A B} (g : B -> bool) (h : A -> B) (l : list A) :
  length (List.filter g (h <$> l)) = length (List.filter (fun x => g (h x)) l).
Proof.
  induction l as [|x l IH]; [reflexivity|].
  rewrite fmap_cons. cbn [List.filter].
  destruct (g (h x)); cbn [length]; rewrite IH; reflexivity.
Qed.

(** The members of a duplicate-free set of indices below [n] are as many
    as the slots of [0 .. n-1] they select. *)
Lemma selected_length (byz : list Z) (n : nat) :
  NoDup byz -> Forall (fun k => 0 <= k < Z.of_nat n) byz ->
  length (List.filter (fun k => bool_decide (Z.of_nat k ∈ byz)) (seq 0 n)) = length byz.
Proof.
  intros Hnd Hb.
  rewrite <- (length_fmap Z.of_nat
                (List.filter (fun k => bool_decide (Z.of_nat k ∈ byz)) (seq 0 n))).
  apply Permutation_length. apply NoDup_Permutation.
  - apply NoDup_fmap; [intros x y; lia|].
    apply NoDup_ListNoDup. apply List.NoDup_filter. apply NoDup_ListNoDup.
    apply NoDup_seq.
  - exact Hnd.
  - intros z. rewrite list_elem_of_fmap. split.
    + intros (k & -> & Hk). apply list_elem_of_In, List.filter_In in Hk.
      destruct Hk as [_ Hk]. apply bool_decide_eq_true in Hk. exact Hk.
    + intros Hz. rewrite Forall_forall in Hb. pose proof (Hb z Hz).
      exists (Z.to_nat z). split; [lia|].
      apply list_elem_of_In, List.filter_In. split.
      * apply in_seq. lia.
      * apply bool_decide_eq_true. rewrite Z2Nat.id by lia. exact Hz.
Qed.

(** X13. The registry [setupValidators] builds over a non-empty list of
    accounts has one validator per account, in order: the validator in
    slot [k] carries account [k], its address and the index [k]; and exactly
    [BYZANTINE_VALIDATOR_COUNT] of the validators are Byzantine. *)
Theorem setupValidators_registry fuel accounts t d vs d' :
  random_in_range random ->
  accounts <> [] ->
  setupValidators cfg random fuel accounts t d = Some (vs, d') ->
  length vs = length accounts /\
  (forall k a, accounts !! k = Some a ->
     exists v, vs !! k = Some v /\ account v = a /\
               address v = acc_address a /\ index v = Z.of_nat k) /\
  length (List.filter isByzantine vs) = BYZANTINE_VALIDATOR_COUNT cfg.
Proof.
  intros Hr Hne E. unfold setupValidators in E.
  destruct (pickByzantine cfg random fuel (Z.of_nat (length accounts)) [] d)
    as [[byz d1]|] eqn:Ep; [|discriminate].
  assert (Hn : (0 < length accounts)%nat) by (destruct accounts; [contradiction|simpl; lia]).
  assert (Hidx : forall d0,
            0 <= Qfloor (random d0 * inject_Z (Z.of_nat (length accounts)))%Q
              < Z.of_nat (length accounts)).
  { intros d0. apply randomIndex_in_range; [exact Hr|lia]. }
  destruct (pickByzantine_invariant (length accounts) _ _ _ _ _ _
              Hidx (NoDup_nil_2) (Forall_nil_2 _) Ep) as (Hnd & Hb & _ & _ & Hlen).
  pose proof (buildValidators_length random accounts 0 byz t d1) as Hl.
  pose proof (buildValidators_flags accounts 0 byz t d1) as Hfl.
  pose proof (buildValidators_lookup accounts 0 byz t d1) as Hlk.
  destruct (buildValidators random accounts 0 byz t d1) as [vs0 d2].
  injection E as <- <-. simpl in *. split_and!.
  - exact Hl.
  - intros k a Hk. destruct (Hlk k a Hk) as (v & Hv & A & B & C & _).
    exists v. auto.
  - rewrite <- (selected_length byz (length accounts) Hnd Hb) in Hlen.
    rewrite <- Hlen by (simpl; lia).
    change (List.filter isByzantine vs0) with (List.filter (fun v => id (isByzantine v)) vs0).
    rewrite <- (filter_fmap_length id isByzantine vs0), Hfl.
    rewrite filter_fmap_length. reflexivity.
Qed.

(** X14. When more Byzantine validators are configured than there are
    validator accounts (or than one, for an empty list), the selection loop
    of [setupValidators] never finishes: no number of iterations yields a
    registry, and so no consensus object is ever constructed. *)
Theorem setupValidators_diverges fuel accounts m t late d :
  random_in_range random ->
  (Nat.max (length accounts) 1 < BYZANTINE_VALIDATOR_COUNT cfg)%nat ->
  setupValidators cfg random fuel accounts t d = None /\
  new_PBFTConsensus cfg random fuel accounts m t late d = None.
Proof.
  intros Hr Hc.
  assert (E : pickByzantine cfg random fuel (Z.of_nat (length accounts)) [] d = None).
  { apply (pickByzantine_diverges (Nat.max (length accounts) 1));
      [apply index_bound; exact Hr|exact Hc|constructor|constructor]. }
  unfold new_PBFTConsensus, setupValidators. rewrite E. split; reflexivity.
Qed.
End Selection.

Lemma setupValidators_registry_witness :
  random_in_range scenarioC_random /\
  exists vs d',
    setupValidators scenarioC_config scenarioC_random 3 four_accounts 1000 0
      = Some (vs, d') /\
    length vs = 4%nat /\
    length (List.filter isByzantine vs) = 3%nat.
Proof.
  assert (Hr : random_in_range scenarioC_random).
  { intros [|[|[|d]]]; unfold scenarioC_random, Qle, Qlt; simpl; lia. }
  split; [exact Hr|].
  eexists _, _. split; [vm_compute; reflexivity|].
  match goal with
  | |- length ?vs = _ /\ _ =>
      destruct (setupValidators_registry scenarioC_config scenarioC_random 3
                  four_accounts 1000 0 vs 6%nat Hr ltac:(discriminate)
                  ltac:(vm_compute; reflexivity)) as (Hl & _ & Hb)
  end.
  split; [exact Hl|exact Hb].
Defined.

Lemma setupValidators_diverges_witness :
  random_in_range always_quarter /\
  setupValidators overfull_config always_quarter 1000 four_accounts 1000 0 = None.
Proof.
  assert (Hr : random_in_range always_quarter).
  { intros d. unfold always_quarter, Qle, Qlt. simpl. lia. }
  split; [exact Hr|].
  apply (setupValidators_diverges overfull_config always_quarter 1000 four_accounts
           empty_measurements 1000 on_time 0 Hr). simpl. lia.
Defined.

(** * The start of the driver *)

Section Startup.
Variable cfg : Config.
Variable random : nat -> Q.

(** X15. The driver refuses to start with fewer accounts than
    [NUM_VALIDATORS], with an error that names both numbers, before any
    consensus object exists.  Otherwise the consensus object it builds has
    exactly [NUM_VALIDATORS] validators, the first accounts in order, and
    tolerates [f = floor((NUM_VALIDATORS - 1) / 3)] failures; the industry
    accounts are the at most three accounts that follow. *)
Theorem startPBFT_accounts NUM_VALIDATORS fuel allAccounts m t late d :
  ((length allAccounts < NUM_VALIDATORS)%nat ->
     startPBFT cfg random NUM_VALIDATORS fuel allAccounts m t late d =
       Throw (notEnoughAccounts NUM_VALIDATORS (length allAccounts))) /\
  ((NUM_VALIDATORS <= length allAccounts)%nat ->
     exists started,
       startPBFT cfg random NUM_VALIDATORS fuel allAccounts m t late d = Ret started /\
       forall w industries, started = Some (w, industries) ->
         length (validators (this w)) = NUM_VALIDATORS /\
         account <$> validators (this w) = take NUM_VALIDATORS allAccounts /\
         f (this w) = (Z.of_nat NUM_VALIDATORS - 1) / 3 /\
         take NUM_VALIDATORS allAccounts ++ industries =
           take (NUM_VALIDATORS + 3) allAccounts).
Proof.
  unfold startPBFT. rewrite length_take. split; intros Hlen.
  - destruct (Nat.ltb_spec (Nat.min NUM_VALIDATORS (length allAccounts)) NUM_VALIDATORS);
      [|lia].
    rewrite Nat.min_r by lia. reflexivity.
  - destruct (Nat.ltb_spec (Nat.min NUM_VALIDATORS (length allAccounts)) NUM_VALIDATORS);
      [lia|].
    eexists. split; [reflexivity|]. intros w industries Hs.
    destruct (new_PBFTConsensus cfg random fuel (take NUM_VALIDATORS allAccounts) m t late d)
      as [w0|] eqn:Enew; [|discriminate].
    injection Hs as <- <-.
    unfold new_PBFTConsensus, setupValidators in Enew.
    destruct (pickByzantine cfg random fuel _ [] d) as [[byz d1]|]; [|discriminate].
    pose proof (buildValidators_length random (take NUM_VALIDATORS allAccounts) 0 byz t d1)
      as Hl.
    pose proof (buildValidators_lookup random (take NUM_VALIDATORS allAccounts) 0 byz t d1)
      as Hlk.
    destruct (buildValidators random (take NUM_VALIDATORS allAccounts) 0 byz t d1)
      as [vs d2].
    injection Enew as <-. simpl in *. rewrite length_take in Hl.
    split_and!.
    + lia.
    + apply list_eq. intros k. rewrite list_lookup_fmap.
      destruct (take NUM_VALIDATORS allAccounts !! k) as [a|] eqn:Hk.
      * destruct (Hlk k a Hk) as (v & Hv & Ha & _). rewrite Hv. simpl. congruence.
      * apply lookup_ge_None in Hk. rewrite length_take in Hk.
        rewrite (lookup_ge_None_2 vs) by lia. reflexivity.
    + rewrite Hl. rewrite Nat.min_l by lia. reflexivity.
    + rewrite take_take_drop. reflexivity.
Qed.
End Startup.

Lemma startPBFT_accounts_witness :
  startPBFT default_config always_zero 4 1
    [ {| acc_address := "0xA1" |}; {| acc_address := "0xB2" |} ]
    empty_measurements 1000 on_time 0
  = Throw "Not enough accounts for PBFT. Need 4 validators but only have 2".
Proof.
  apply (proj1 (startPBFT_accounts default_config always_zero 4 1
                  [ {| acc_address := "0xA1" |}; {| acc_address := "0xB2" |} ]
                  empty_measurements 1000 on_time 0)).
  simpl. lia.
Defined.

(** * The report *)

Lemma average_scaled d count :
  0 < count -> (average (count * d) count == inject_Z d)%Q.
Proof.
  intros Hc. unfold average. destruct (Z.ltb_spec 0 count); [|lia].
  rewrite inject_Z_mult. field.
  intros H0. unfold Qeq in H0. simpl in H0. lia.
Qed.

Lemma phaseCount_cons ph p phases :
  phaseCount ph (p :: phases) =
    (if String.eqb ph (PhaseRecord.phase p) then 1 else 0) + phaseCount ph phases.
Proof.
  unfold phaseCount. cbn [List.filter].
  destruct (String.eqb ph (PhaseRecord.phase p)); cbn [length]; lia.
Qed.

Lemma addPhase_tagged p x1 c1 x2 c2 x3 c3 :
  addPhase [("prePrepare", (x1, c1)); ("prepare", (x2, c2)); ("commit", (x3, c3))] p =
  [("prePrepare",
    if String.eqb "prePrepare" (PhaseRecord.phase p)
    then (x1 + PhaseRecord.duration p, c1 + 1) else (x1, c1));
   ("prepare",
    if String.eqb "prepare" (PhaseRecord.phase p)
    then (x2 + PhaseRecord.duration p, c2 + 1) else (x2, c2));
   ("commit",
    if String.eqb "commit" (PhaseRecord.phase p)
    then (x3 + PhaseRecord.duration p, c3 + 1) else (x3, c3))].
Proof.
  unfold addPhase. cbn [map].
  destruct (String.eqb "prePrepare" (PhaseRecord.phase p));
  destruct (String.eqb "prepare" (PhaseRecord.phase p));
  destruct (String.eqb "commit" (PhaseRecord.phase p)); reflexivity.
Qed.

(** The three accumulators after a log of timed records: the key
    prePrepare is never matched, and each of the two other totals lies
    within the bounds of as many timers as records were counted. *)
Lemma phaseTimings_bounds cfg late lo hi phases :
  (forall k : nat, lo <= late k <= hi) ->
  Forall (timedPhase cfg late) phases ->
  forall x2 c2 x3 c3, exists y2 y3,
    fold_left addPhase phases
      [("prePrepare", (0, 0)); ("prepare", (x2, c2)); ("commit", (x3, c3))] =
    [("prePrepare", (0, 0));
     ("prepare", (y2, c2 + phaseCount "prepare" phases));
     ("commit", (y3, c3 + phaseCount "commit" phases))] /\
    x2 + phaseCount "prepare" phases * (PREPARE_PHASE_TIME cfg + lo) <= y2
      <= x2 + phaseCount "prepare" phases * (PREPARE_PHASE_TIME cfg + hi) /\
    x3 + phaseCount "commit" phases * (COMMIT_PHASE_TIME cfg + lo) <= y3
      <= x3 + phaseCount "commit" phases * (COMMIT_PHASE_TIME cfg + hi).
Proof.
  intros Hb. induction 1 as [|p phases Hp _ IH]; intros x2 c2 x3 c3.
  - exists x2, x3. unfold phaseCount. simpl. rewrite !Z.add_0_r. split; [reflexivity|lia].
  - cbn [fold_left]. rewrite addPhase_tagged, !phaseCount_cons.
    destruct Hp as [Hph|[(Hph & k & Hd)|(Hph & k & Hd)]]; rewrite Hph;
      cbn [String.eqb Ascii.eqb Bool.eqb].
    + destruct (IH x2 c2 x3 c3) as (y2 & y3 & E & H2 & H3).
      exists y2, y3. rewrite E, !Z.add_0_l. split; [reflexivity|lia].
    + destruct (IH (x2 + PhaseRecord.duration p) (c2 + 1) x3 c3)
        as (y2 & y3 & E & H2 & H3).
      exists y2, y3. rewrite E, !Z.add_0_l, !Z.add_assoc. split; [reflexivity|].
      specialize (Hb k). rewrite Hd in H2. nia.
    + destruct (IH x2 c2 (x3 + PhaseRecord.duration p) (c3 + 1))
        as (y2 & y3 & E & H2 & H3).
      exists y2, y3. rewrite E, !Z.add_0_l, !Z.add_assoc. split; [reflexivity|].
      specialize (Hb k). rewrite Hd in H3. nia.
Qed.

Lemma phaseAverage_timings x1 c1 x2 c2 x3 c3 :
  let timings := [("prePrepare", (x1, c1)); ("prepare", (x2, c2)); ("commit", (x3, c3))] in
  phaseAverage "prePrepare" timings = average x1 c1 /\
  phaseAverage "prepare" timings = average x2 c2 /\
  phaseAverage "commit" timings = average x3 c3.
Proof. split_and!; reflexivity. Qed.

Lemma average_within d lo hi count total :
  0 <= count ->
  count * (d + lo) <= total <= count * (d + hi) ->
  averageWithin d lo hi count (average total count).
Proof.
  intros Hc Ht. unfold averageWithin, average.
  destruct (Z.ltb_spec 0 count) as [H|H]; [|reflexivity].
  destruct count as [|c|c]; try lia.
  unfold Qle, Qdiv, Qmult, Qinv, inject_Z. simpl.
  rewrite !Z.mul_1_r. split; lia.
Qed.

Lemma sum_durations cfg late lo hi recs :
  (forall k : nat, lo <= late k <= hi) ->
  Forall (fun r => exists k, ViewChangeRecord.duration r
                             = VIEW_CHANGE_TIMEOUT cfg + late k) recs ->
  forall acc,
    acc + Z.of_nat (length recs) * (VIEW_CHANGE_TIMEOUT cfg + lo)
      <= fold_left (fun sum vc => sum + ViewChangeRecord.duration vc) recs acc
      <= acc + Z.of_nat (length recs) * (VIEW_CHANGE_TIMEOUT cfg + hi).
Proof.
  intros Hb. induction 1 as [|r recs (k & Hr) _ IH]; intros acc.
  - simpl. lia.
  - cbn [fold_left length]. specialize (IH (acc + ViewChangeRecord.duration r)).
    specialize (Hb k). rewrite Hr in IH. rewrite Hr. lia.
Qed.

Lemma phasesTimed_preorder cfg : PreOrder (phasesTimed cfg).
Proof.
  split.
  - intros w. split; [reflexivity|]. exists []. rewrite app_nil_r.
    split; [reflexivity|constructor].
  - intros a b c (L1 & p1 & H1 & F1) (L2 & p2 & H2 & F2).
    split; [congruence|]. exists (p1 ++ p2). rewrite H2, H1, app_assoc.
    split; [reflexivity|]. rewrite L1 in F2. apply Forall_app; auto.
Qed.

Lemma phasesTimed_keeps cfg w w' : phasesState w' = phasesState w -> phasesTimed cfg w w'.
Proof.
  unfold phasesState. intros [= Hp Hl]. split; [exact Hl|].
  exists []. rewrite app_nil_r. split; [exact Hp|constructor].
Qed.

Lemma viewChangesTimed_preorder cfg : PreOrder (viewChangesTimed cfg).
Proof.
  split.
  - intros w. split; [reflexivity|]. exists []. rewrite app_nil_r.
    split; [reflexivity|constructor].
  - intros a b c (L1 & r1 & H1 & F1) (L2 & r2 & H2 & F2).
    split; [congruence|]. exists (r1 ++ r2). rewrite H2, H1, app_assoc.
    split; [reflexivity|]. rewrite L1 in F2. apply Forall_app; auto.
Qed.

Section ReportOfRun.
Variable cfg : Config.
Variable random : nat -> Q.

Lemma keeps_phasesState_prepareLoop : keeps phasesState (prepareLoop cfg random).
Proof. engine_unfold. keeps_with keep_tac. Qed.

Lemma keeps_phasesState_commitLoop : keeps phasesState (commitLoop cfg random).
Proof. engine_unfold. keeps_with keep_tac. Qed.

Lemma keeps_phasesState_catchBlock e : keeps phasesState (catchBlock cfg random e).
Proof. engine_unfold. keeps_with keep_tac. Qed.

Lemma keeps_lateness_runPrePreparePhase :
  keeps lateness (runPrePreparePhase cfg random).
Proof. engine_unfold. keeps_with keep_tac. Qed.

Lemma phasesTimed_runPreparePhase :
  steps (phasesTimed cfg) (runPreparePhase cfg random).
Proof.
  intros w. destruct (prepareLoop_returns cfg random w) as (c & b & w1 & El).
  pose proof (keeps_eq _ _ _ _ _ keeps_phasesState_prepareLoop El) as Hps.
  destruct (Z.lt_ge_cases c (2 * f (this w) + 1)) as [H|H].
  - destruct (runPreparePhase_spec cfg random _ _ _ _ El) as [Hlt _].
    rewrite (Hlt H). apply phasesTimed_keeps. rewrite <- Hps. reflexivity.
  - rewrite (runPreparePhase_done cfg random _ _ _ _ El H).
    unfold phasesState in Hps. injection Hps as Hp Hl.
    unfold phasesTimed, phaseDone. simpl. split; [exact Hl|].
    eexists [_]. rewrite Hp. split; [reflexivity|].
    constructor; [|constructor]. right. left. split; [reflexivity|].
    exists (timers w1). simpl. unfold elapsed. rewrite Hl. reflexivity.
Qed.

Lemma phasesTimed_runCommitPhase :
  steps (phasesTimed cfg) (runCommitPhase cfg random).
Proof.
  intros w. destruct (commitLoop_returns cfg random w) as (c & b & w1 & El).
  pose proof (keeps_eq _ _ _ _ _ keeps_phasesState_commitLoop El) as Hps.
  destruct (Z.lt_ge_cases c (2 * f (this w) + 1)) as [H|H].
  - destruct (runCommitPhase_spec cfg random _ _ _ _ El) as [Hlt _].
    rewrite (Hlt H). apply phasesTimed_keeps. rewrite <- Hps. reflexivity.
  - rewrite (runCommitPhase_done cfg random _ _ _ _ El H).
    unfold phasesState in Hps. injection Hps as Hp Hl.
    unfold phasesTimed, phaseDone. simpl. split; [exact Hl|].
    eexists [_]. rewrite Hp. split; [reflexivity|].
    constructor; [|constructor]. right. right. split; [reflexivity|].
    exists (timers w1). simpl. unfold elapsed. rewrite Hl. reflexivity.
Qed.

Lemma phasesTimed_runPrePreparePhase :
  steps (phasesTimed cfg) (runPrePreparePhase cfg random).
Proof.
  intros w.
  pose proof (keeps_lateness_runPrePreparePhase w) as Hl.
  destruct (primaryIndex (this w)) as [i|] eqn:Hp.
  2: { unfold runPrePreparePhase. erewrite bind_Ret by reflexivity.
       erewrite bind_Throw by (rewrite Hp; reflexivity).
       apply phasesTimed_keeps. reflexivity. }
  destruct (exhibitsByzantineFailure cfg random i w) as [o w0] eqn:Eo.
  assert (Hdec : o = Ret (Some crash) \/ o <> Ret (Some crash)).
  { destruct o as [[[| |]|]|]; auto; right; discriminate. }
  destruct Hdec as [->|Ho].
  - destruct (runPrePreparePhase_crash cfg random w i Hp)
      as (v & w1 & _ & E & _ & _ & Hcp & _); [rewrite Eo; reflexivity|].
    rewrite E in Hl |- *. apply phasesTimed_keeps. unfold phasesState.
    simpl in Hl |- *. congruence.
  - destruct (runPrePreparePhase_done cfg random w i o w0 Hp Eo Ho)
      as (w1 & E & _ & Hlogs & _).
    unfold phaseLogs in Hlogs. injection Hlogs as _ Hph.
    rewrite E in Hl |- *. split; [exact Hl|].
    unfold prePrepareDone. simpl. eexists [_]. rewrite Hph.
    split; [reflexivity|]. constructor; [|constructor]. left. reflexivity.
Qed.

Lemma phasesTimed_runConsensus txHash receipt :
  steps (phasesTimed cfg) (runConsensus cfg random txHash receipt).
Proof.
  unfold runConsensus.
  apply (steps_bind _ (phasesTimed_preorder cfg));
    [intros w; apply phasesTimed_keeps; reflexivity|intros _].
  apply (steps_bind _ (phasesTimed_preorder cfg));
    [intros w; apply phasesTimed_keeps; unfold primaryAddress; case_match; reflexivity
    |intros _].
  apply (steps_bind _ (phasesTimed_preorder cfg)).
  - apply (steps_try_catch _ (phasesTimed_preorder cfg)).
    + unfold tryBlock.
      apply (steps_bind _ (phasesTimed_preorder cfg));
        [apply phasesTimed_runPrePreparePhase|intros pp].
      apply (steps_bind _ (phasesTimed_preorder cfg));
        [apply phasesTimed_runPreparePhase|intros p].
      apply (steps_bind _ (phasesTimed_preorder cfg));
        [apply phasesTimed_runCommitPhase|intros c].
      steps_with (phasesTimed_preorder cfg) ltac:(apply phasesTimed_keeps; keep_tac).
    + intros e w. apply phasesTimed_keeps. apply keeps_phasesState_catchBlock.
  - intros r.
    steps_with (phasesTimed_preorder cfg) ltac:(apply phasesTimed_keeps; keep_tac).
Qed.

Lemma runConsensus_phasesTimed txHash receipt w :
  wf w ->
  exists r w', runConsensus cfg random txHash receipt w = (Ret r, w') /\
               wf w' /\ phasesTimed cfg w w' /\ True.
Proof.
  intros Hw.
  destruct (runConsensus_result cfg random txHash receipt w Hw) as (r & w' & E & Hw' & _).
  exists r, w'. split_and!; auto.
  pose proof (phasesTimed_runConsensus txHash receipt w) as H. rewrite E in H. exact H.
Qed.

Lemma runConsensus_viewChangesTimed txHash receipt w :
  wf w ->
  exists r w', runConsensus cfg random txHash receipt w = (Ret r, w') /\
               wf w' /\ viewChangesTimed cfg w w' /\ True.
Proof.
  intros Hw.
  pose proof (keeps_lateness_runConsensus cfg random txHash receipt w) as Hl.
  destruct (runConsensus_result cfg random txHash receipt w Hw)
    as (r & w' & E & Hw' & [(prim & pp & p & c & t & _ & _ & Hvc)
                           |(e & cnt & prim & k & _ & _ & _ & Hvc)]);
    rewrite E in Hl; exists r, w'; split_and!; auto; (split; [exact Hl|]).
  - exists []. rewrite app_nil_r. split; [exact Hvc|constructor].
  - eexists [_]. split; [exact Hvc|]. constructor; [|constructor].
    exists k. reflexivity.
Qed.

(** X16. The phase breakdown of the report after a run that started with
    empty logs, on a clock whose timers fire between [lo] and [hi]
    milliseconds late.  The pre-prepare average is 0 whatever happened,
    because the accumulator is keyed prePrepare while the records are tagged
    pre-prepare.  The prepare and the commit average are 0 until one such
    phase completed, and from then on lie between the configured duration
    plus [lo] and the configured duration plus [hi]; so does the view-change
    average with the configured timeout once a round failed.  The number of
    view changes reported is the number of failed rounds. *)
Theorem report_phase_breakdown txs w lo hi NUM_VALIDATORS transactions finalityTimes
    maxTolerableFailures :
  wf w ->
  consensusPhases (measurements w) = [] ->
  viewChanges (measurements w) = [] ->
  latenessWithin lo hi w ->
  exists rs w',
    runRounds cfg random txs w = (Ret rs, w') /\
    let report := generatePBFTReport cfg NUM_VALIDATORS transactions finalityTimes
                    maxTolerableFailures (measurements w') in
    let phases := consensusPhases (measurements w') in
    Report.prePrepare report = 0%Q /\
    averageWithin (PREPARE_PHASE_TIME cfg) lo hi (phaseCount "prepare" phases)
      (Report.prepare report) /\
    averageWithin (COMMIT_PHASE_TIME cfg) lo hi (phaseCount "commit" phases)
      (Report.commit report) /\
    Report.viewChangeCount report = Z.of_nat (length (List.filter failed rs)) /\
    averageWithin (VIEW_CHANGE_TIMEOUT cfg) lo hi (Report.viewChangeCount report)
      (Report.viewChange report).
Proof.
  intros Hw Hph0 Hvc0 Hb.
  destruct (runRounds_ind cfg random wf (phasesTimed cfg) (fun _ => True)
              (phasesTimed_preorder cfg) runConsensus_phasesTimed txs w Hw)
    as (rs & w' & E & _ & _ & (_ & ps & Hp & HP) & _).
  destruct (runRounds_ind cfg random wf (viewChangesTimed cfg) (fun _ => True)
              (viewChangesTimed_preorder cfg) runConsensus_viewChangesTimed txs w Hw)
    as (rs2 & w2 & E2 & _ & _ & (_ & recs & Hrecs & HT) & _).
  destruct (runRounds_accounting cfg random txs w Hw)
    as (rs3 & w3 & E3 & _ & _ & _ & _ & _ & Hcount).
  rewrite E in E2, E3. injection E2 as <- <-. injection E3 as <- <-.
  exists rs, w'. split; [exact E|]. cbv zeta.
  rewrite Hph0 in Hp. rewrite Hvc0 in Hrecs, Hcount. simpl in Hp, Hrecs, Hcount.
  unfold generatePBFTReport.
  destruct (finalityLoop finalityTimes) as [[tot mn] mx].
  destruct (messageMetrics (networkMessages (measurements w'))) as [[tm tb] cnt].
  cbn [Report.prePrepare Report.prepare Report.commit Report.viewChange
       Report.viewChangeCount].
  unfold phaseTimings, phaseTimings_init. rewrite Hp.
  destruct (phaseTimings_bounds cfg _ lo hi ps Hb HP 0 0 0 0)
    as (y2 & y3 & Hfold & H2 & H3).
  rewrite Hfold, !Z.add_0_l.
  destruct (phaseAverage_timings 0 0 y2 (phaseCount "prepare" ps)
              y3 (phaseCount "commit" ps)) as (A1 & A2 & A3).
  cbv zeta in A1, A2, A3. rewrite A1, A2, A3.
  split_and!.
  - reflexivity.
  - apply average_within; [unfold phaseCount|]; lia.
  - apply average_within; [unfold phaseCount|]; lia.
  - rewrite Hcount. reflexivity.
  - pose proof (sum_durations cfg _ lo hi (viewChanges (measurements w')) Hb) as Hs.
    rewrite Hrecs in Hs |- *. specialize (Hs HT 0).
    apply average_within; lia.
Qed.
End ReportOfRun.

Lemma report_phase_breakdown_witness :
  wf delaying_late_world /\
  latenessWithin 1 3 delaying_late_world /\
  exists rs w',
    runRounds default_config delaying_random [("0x01", JSNull)] delaying_late_world
      = (Ret rs, w') /\
    phaseCount "pre-prepare" (consensusPhases (measurements w')) = 1 /\
    Report.prePrepare
      (generatePBFTReport default_config 4 1 [] (Some 1) (measurements w')) = 0%Q /\
    Qeq (Report.prepare
           (generatePBFTReport default_config 4 1 [] (Some 1) (measurements w')))
        (inject_Z 303).
Proof.
  assert (Hw : wf delaying_late_world) by (unfold wf; simpl; repeat split; lia).
  assert (Hb : latenessWithin 1 3 delaying_late_world).
  { intros k. change (lateness delaying_late_world k) with (late_timers k).
    unfold late_timers. pose proof (Nat.mod_upper_bound k 3). lia. }
  split_and!; [exact Hw|exact Hb|].
  destruct (report_phase_breakdown default_config delaying_random [("0x01", JSNull)]
              delaying_late_world 1 3 4 1 [] (Some 1) Hw eq_refl eq_refl Hb)
    as (rs & w' & E & H0 & _).
  exists rs, w'. split; [exact E|].
  assert (Hw' : w' = snd (runRounds default_config delaying_random
                            [("0x01", JSNull)] delaying_late_world))
    by (rewrite E; reflexivity).
  split_and!.
  - rewrite Hw'. vm_compute. reflexivity.
  - exact H0.
  - rewrite Hw'. vm_compute. reflexivity.
Defined.

(** The loop over the finality times, from any state of its variables. *)
Lemma finalityLoop_from fts : forall tot mn mx tot' mn' mx',
  fold_left
    (fun acc item =>
       let '(totalFinalityTime, minFinalityTime, maxFinalityTime) := acc in
       let ft := FinalityTime.finalityTime item in
       (totalFinalityTime + ft,
        Some (match minFinalityTime with
              | None => ft
              | Some m => Z.min m ft
              end),
        Z.max maxFinalityTime ft))
    fts (tot, mn, mx) = (tot', mn', mx') ->
  mx <= mx' /\
  Forall (fun item => FinalityTime.finalityTime item <= mx') fts /\
  tot' - tot <= Z.of_nat (length fts) * mx' /\
  match mn' with
  | None => fts = [] /\ mn = None
  | Some m' =>
      (forall m, mn = Some m -> m' <= m) /\
      (fts = [] -> mn = Some m') /\
      Forall (fun item => m' <= FinalityTime.finalityTime item) fts /\
      Z.of_nat (length fts) * m' <= tot' - tot
  end.
Proof.
  induction fts as [|item fts IH]; intros tot mn mx tot' mn' mx'; cbn [fold_left].
  - intros E. simplify_eq.
    split; [lia|]. split; [constructor|]. split; [simpl; lia|].
    destruct mn' as [m|]; [|auto].
    split; [intros m0 [= ->]; lia|]. split; [reflexivity|].
    split; [constructor|simpl; lia].
  - intros E. destruct (IH _ _ _ _ _ _ E) as (Hmx & Hle & Hsum & Hmn).
    split; [lia|]. split; [constructor; [lia|exact Hle]|].
    split; [cbn [length]; nia|].
    destruct mn' as [m'|]; [|destruct Hmn as (_ & Hx); discriminate Hx].
      destruct Hmn as (Hm & Hnil & Hge & Hs).
      assert (Hm' : m' <= FinalityTime.finalityTime item /\
                    (forall m, mn = Some m -> m' <= m)).
      { destruct mn as [m|].
        - specialize (Hm _ eq_refl). split; [lia|]. intros m0 [= <-]. lia.
        - specialize (Hm _ eq_refl). split; [lia|]. intros m0 Hx. discriminate Hx. }
      destruct Hm' as (Hi & Hm0).
      split; [exact Hm0|]. split; [intros Hx; discriminate Hx|].
      split; [constructor; assumption|cbn [length]; nia].
Qed.

(** X17. The finality statistics of the report, for any list of
    finality times: without a committed round the average, the minimum and
    the maximum are all reported as 0 (the initial [Infinity] of the minimum
    is replaced); otherwise every finality time lies between the reported
    minimum and maximum, and so does the average; the maximum is never
    below 0, its initial value. *)
Theorem report_finality_bounds cfg NUM_VALIDATORS transactions finalityTimes
    maxTolerableFailures m :
  let report := generatePBFTReport cfg NUM_VALIDATORS transactions finalityTimes
                  maxTolerableFailures m in
  Report.successfulConsensusCount report = Z.of_nat (length finalityTimes) /\
  (finalityTimes = [] ->
     Report.finalityAverage report = 0%Q /\
     Report.finalityMin report = 0 /\ Report.finalityMax report = 0) /\
  Forall (fun item =>
            Report.finalityMin report <= FinalityTime.finalityTime item
              <= Report.finalityMax report) finalityTimes /\
  0 <= Report.finalityMax report /\
  (inject_Z (Report.finalityMin report) <= Report.finalityAverage report)%Q /\
  (Report.finalityAverage report <= inject_Z (Report.finalityMax report))%Q.
Proof.
  cbv zeta. unfold generatePBFTReport.
  destruct (finalityLoop finalityTimes) as [[tot mn] mx] eqn:Ef.
  destruct (messageMetrics (networkMessages m)) as [[tm tb] cnt].
  cbn [Report.successfulConsensusCount Report.finalityAverage Report.finalityMin
       Report.finalityMax].
  unfold finalityLoop in Ef.
  destruct (finalityLoop_from _ _ _ _ _ _ _ Ef) as (Hmx & Hle & Hsum & Hmn).
  rewrite Z.sub_0_r in Hsum.
  assert (Hq : forall a b : Z, a <= b -> (inject_Z a <= inject_Z b)%Q)
    by (intros a b Hab; rewrite <- Zle_Qle; exact Hab).
  assert (Hpos : forall k : Z, 0 < k -> (0 < inject_Z k)%Q).
  { intros k Hk. change 0%Q with (inject_Z 0). rewrite <- Zlt_Qlt. exact Hk. }
  split; [reflexivity|]. split.
  { intros ->. simpl in Ef. simplify_eq. split_and!; reflexivity. }
  destruct mn as [mn|].
  - destruct Hmn as (_ & _ & Hge & Hs). rewrite Z.sub_0_r in Hs.
    split_and!.
    + rewrite Forall_forall in Hge, Hle. apply Forall_forall. intros x Hx.
      split; [apply Hge|apply Hle]; exact Hx.
    + exact Hmx.
    + unfold average. destruct (Z.ltb_spec 0 (Z.of_nat (length finalityTimes))) as [Hn|Hn].
      * apply Qle_shift_div_l; [apply Hpos; exact Hn|].
        rewrite <- inject_Z_mult. apply Hq. lia.
      * destruct finalityTimes; [|simpl in Hn; lia].
        simpl in Ef. simplify_eq.
    + unfold average. destruct (Z.ltb_spec 0 (Z.of_nat (length finalityTimes))) as [Hn|Hn].
      * apply Qle_shift_div_r; [apply Hpos; exact Hn|].
        rewrite <- inject_Z_mult. apply Hq. lia.
      * change 0%Q with (inject_Z 0). apply Hq. exact Hmx.
  - destruct Hmn as (-> & _). simpl in Ef. simplify_eq.
    split_and!; try constructor; try reflexivity; unfold average; simpl;
      apply Qle_refl.
Qed.

(** * The waits of a failed round *)

Section FailedTiming.
Variable cfg : Config.
Variable random : nat -> Q.

(** The only error of the pre-prepare phase is the crash of the primary:
    it is thrown before any wait and before anything is logged. *)
Lemma runPrePreparePhase_throws w i e w1 :
  primaryIndex (this w) = Some i ->
  runPrePreparePhase cfg random w = (Throw e, w1) ->
  e = "Primary crashed during pre-prepare phase" /\
  clock w1 = clock w /\
  phaseLogs w1 = phaseLogs w /\
  fst (exhibitsByzantineFailure cfg random i w) = Ret (Some crash).
Proof.
  intros Hp E.
  destruct (exhibitsByzantineFailure cfg random i w) as [o w0] eqn:Eo.
  assert (Hdec : o = Ret (Some crash) \/ o <> Ret (Some crash)).
  { destruct o as [[[| |]|]|]; auto; right; discriminate. }
  destruct Hdec as [->|Ho].
  - destruct (runPrePreparePhase_crash cfg random w i Hp)
      as (v & w1' & _ & E' & _ & _ & Hcp & Hnm & _ & Hck); [rewrite Eo; reflexivity|].
    rewrite E' in E. injection E as <- <-. unfold phaseLogs.
    split_and!; [reflexivity|exact Hck|congruence|reflexivity].
  - destruct (runPrePreparePhase_done cfg random w i o w0 Hp Eo Ho) as (wa & E' & _).
    rewrite E' in E. discriminate.
Qed.

(** A prepare (commit) phase below its quorum throws after its wait and
    logs nothing. *)
Lemma runPreparePhase_throws w e w2 :
  runPreparePhase cfg random w = (Throw e, w2) ->
  exists c, c < 2 * f (this w) + 1 /\
            e = insufficient "prepare" c (2 * f (this w) + 1) /\
            clock w2 = clock (wake (PREPARE_PHASE_TIME cfg) w) /\
            phaseLogs w2 = phaseLogs w.
Proof.
  intros E. destruct (prepareLoop_returns cfg random w) as (c & b & wl & El).
  pose proof (keeps_eq _ _ _ _ _ (keeps_phaseLogs_prepareLoop cfg random) El) as Hlog.
  pose proof (runPreparePhase_clock cfg random _ _ _ E) as Hck.
  destruct (runPreparePhase_spec cfg random _ _ _ _ El) as [Hlt Hge].
  destruct (Z.lt_ge_cases c (2 * f (this w) + 1)) as [H|H].
  - rewrite (Hlt H) in E. injection E as <- <-. exists c.
    split_and!; [exact H|reflexivity|exact Hck|exact Hlog].
  - destruct (Hge H) as (w' & E' & _). rewrite E' in E. discriminate.
Qed.

Lemma runCommitPhase_throws w e w2 :
  runCommitPhase cfg random w = (Throw e, w2) ->
  exists c, c < 2 * f (this w) + 1 /\
            e = insufficient "commit" c (2 * f (this w) + 1) /\
            clock w2 = clock (wake (COMMIT_PHASE_TIME cfg) w) /\
            phaseLogs w2 = phaseLogs w.
Proof.
  intros E. destruct (commitLoop_returns cfg random w) as (c & b & wl & El).
  pose proof (keeps_eq _ _ _ _ _ (keeps_phaseLogs_commitLoop cfg random) El) as Hlog.
  pose proof (runCommitPhase_clock cfg random _ _ _ E) as Hck.
  destruct (runCommitPhase_spec cfg random _ _ _ _ El) as [Hlt Hge].
  destruct (Z.lt_ge_cases c (2 * f (this w) + 1)) as [H|H].
  - rewrite (Hlt H) in E. injection E as <- <-. exists c.
    split_and!; [exact H|reflexivity|exact Hck|exact Hlog].
  - destruct (Hge H) as (w' & E' & _). rewrite E' in E. discriminate.
Qed.

(** X18. What a failed round waits for and what it logs.  Its error is
    one of three.  After the crash of the primary the round starts one
    timer, that of the view change, and appends no phase record.  After too
    few prepares it has started the timer of the pre-prepare phase (and
    before it that of the delay, when the primary is delayed), the timer of
    the prepare phase, which waits before it tests its quorum, and that of
    the view change; it appends the pre-prepare record only.  After too few
    commits it has started all three phase timers and that of the view
    change, and appends the pre-prepare and the prepare record.  In each
    case one view change is recorded, and its duration is the view-change
    timeout plus the lateness of the last timer of the round. *)
Theorem failed_round_timing txHash receipt w r w' :
  wf w ->
  runConsensus cfg random txHash receipt w = (Ret r, w') ->
  getProp "success" r = JSBool false ->
  exists i ps rec,
    primaryIndex (this w) = Some i /\
    consensusPhases (measurements w') = consensusPhases (measurements w) ++ ps /\
    viewChanges (measurements w') = viewChanges (measurements w) ++ [rec] /\
    ViewChangeRecord.duration rec
      = VIEW_CHANGE_TIMEOUT cfg + lateness w (timers w' - 1) /\
    let o := fst (exhibitsByzantineFailure cfg random i w) in
    ((getProp "error" r = JSStr "Primary crashed during pre-prepare phase" /\
      timers w' = (timers w + 1)%nat /\
      ps = []) \/
     (exists c,
        c < 2 * f (this w) + 1 /\
        getProp "error" r = JSStr (insufficient "prepare" c (2 * f (this w) + 1)) /\
        timers w' = (timers w + delayTimers o + 3)%nat /\
        PhaseRecord.phase <$> ps = ["pre-prepare"]) \/
     (exists c,
        c < 2 * f (this w) + 1 /\
        getProp "error" r = JSStr (insufficient "commit" c (2 * f (this w) + 1)) /\
        timers w' = (timers w + delayTimers o + 4)%nat /\
        PhaseRecord.phase <$> ps = ["pre-prepare"; "prepare"])).
Proof.
  intros Hw E Hs. pose proof Hw as (Hn & Hv & Hflag).
  destruct (getPrimary_is_Some (this w) Hn Hv) as (i & _ & Hi & _).
  destruct (runConsensus_outcome cfg random txHash receipt w Hw)
    as [(r0 & w3 & Et & Er)|(e & w1 & cnt & w2 & Et & _ & Hvc & Er)];
    rewrite Er in E; injection E as <- <-.
  { destruct (tryBlock_outcome cfg random txHash (nextHeight w) Hn Hv)
      as [(e & wa & _ & E')|[(pp & wa & e & wb & _ & _ & E')
         |[(pp & wa & p & wb & e & wc & _ & _ & _ & E')
          |(pp & wa & p & wb & c & wc & prim & _ & _ & _ & _ & E')]]];
      rewrite Et in E'; try discriminate.
    injection E' as -> _. discriminate Hs. }
  pose proof (keeps_eq _ _ _ _ _ (keeps_viewChanges_tryBlock cfg random txHash) Et) as Hvcs.
  pose proof (keeps_eq _ _ _ _ _ (keeps_lateness_tryBlock cfg random txHash) Et) as Hl1.
  destruct Hvc as [Vview Vflag Vf Vh Vlen Vnow Vt Vl (prim & Hprim & Hrec) Vev Vph Vmsg Vcnt].
  simpl in Hvcs, Hl1.
  assert (Hdur : forall k, timers w1 = k ->
            elapsed (VIEW_CHANGE_TIMEOUT cfg) w1
            = VIEW_CHANGE_TIMEOUT cfg + lateness w (S k - 1)).
  { intros k <-. unfold elapsed. rewrite Hl1. f_equal. f_equal. lia. }
  set (o := fst (exhibitsByzantineFailure cfg random i w)).
  destruct (delayedBy_timers cfg o (nextHeight w)) as [Hdt Hdl]. simpl in Hdt.
  destruct (tryBlock_outcome cfg random txHash (nextHeight w) Hn Hv)
    as [(e1 & wa & E1 & E')|[(pp & wa & e2 & wb & E1 & E2 & E')
       |[(pp & wa & p & wb & e3 & wc & E1 & E2 & E3 & E')
        |(pp & wa & p & wb & c & wc & prim' & _ & _ & _ & _ & E')]]];
    rewrite Et in E'; try discriminate; injection E' as -> ->.
  - destruct (runPrePreparePhase_throws (nextHeight w) i _ _ Hi E1)
      as (-> & Hck & Hlog & _).
    unfold clock in Hck. simpl in Hck. injection Hck as _ Ht1 _.
    unfold phaseLogs in Hlog. simpl in Hlog. injection Hlog as _ Hp1.
    exists i, []. eexists. simpl. rewrite app_nil_r, Vph, Vt, Hrec, Hvcs.
    split_and!; [exact Hi|exact Hp1|reflexivity| |].
    + simpl. apply Hdur. reflexivity.
    + left. split_and!; [reflexivity|lia|reflexivity].
  - destruct (runPrePreparePhase_returns_done cfg random (nextHeight w) i _ _ Hi E1)
      as (wa' & Hpp & -> & Hcka & Hla & Va).
    destruct (runPreparePhase_throws _ _ _ E2) as (c & Hc & -> & Hckb & Hlb).
    pose proof (keeps_eq _ _ _ _ _ (keeps_viewState_runPrePreparePhase cfg random) E1) as V1.
    unfold viewState in V1. simpl in V1. injection V1 as _ Hf1 _ _ _ _.
    rewrite exhibits_nextHeight in Hcka. fold o in Hcka.
    unfold clock in Hcka, Hckb. simpl in Hckb.
    injection Hcka as _ Hta _. injection Hckb as _ Htb _. rewrite Hdt in Hta.
    unfold phaseLogs in Hla, Hlb. simpl in Hla, Hlb.
    injection Hla as _ Hpa. injection Hlb as _ Hpb.
    simpl in Hf1, Hc. rewrite Hf1 in *.
    eexists i, [_]. eexists. simpl. rewrite Vph, Vt, Hrec, Hvcs, Hpb, Hpa.
    split_and!; [exact Hi|reflexivity|reflexivity| |].
    + simpl. apply Hdur. reflexivity.
    + right. left. exists c. rewrite ?Hf1.
      split_and!; [exact Hc|reflexivity|subst o; lia|reflexivity].
  - destruct (runPrePreparePhase_returns_done cfg random (nextHeight w) i _ _ Hi E1)
      as (wa' & Hpp & -> & Hcka & Hla & Va).
    destruct (runPreparePhase_returns_done cfg random _ _ _ E2)
      as (c2 & b2 & wl & El2 & _ & -> & ->).
    pose proof (keeps_eq _ _ _ _ _ (keeps_now_prepareLoop cfg random) El2) as Hckl.
    pose proof (keeps_eq _ _ _ _ _ (keeps_phaseLogs_prepareLoop cfg random) El2) as Hll.
    destruct (runCommitPhase_throws _ _ _ E3) as (c & Hc & -> & Hckc & Hlc).
    pose proof (keeps_eq _ _ _ _ _ (keeps_viewState_runPrePreparePhase cfg random) E1) as V1.
    pose proof (keeps_eq _ _ _ _ _ (keeps_viewState_runPreparePhase cfg random) E2) as V2.
    assert (V : viewState (phaseDone "prepare" (PREPARE_PHASE_TIME cfg)
                             (c2 * Z.of_nat (length (validators
                                (this (prePrepareDone cfg pp wa'))))) 512 (Some c2) b2 wl)
                = viewState (nextHeight w)) by congruence.
    unfold viewState in V. simpl in V. injection V as _ Hf2 _ _ _ _.
    rewrite exhibits_nextHeight in Hcka. fold o in Hcka.
    unfold clock in Hcka, Hckl, Hckc. simpl in Hckl, Hckc.
    injection Hcka as _ Hta _. injection Hckl as _ Htl _. injection Hckc as _ Htc _.
    rewrite Hdt in Hta.
    unfold phaseLogs in Hla, Hll, Hlc. simpl in Hla, Hll, Hlc.
    injection Hla as _ Hpa. injection Hll as _ Hpl. injection Hlc as _ Hpc.
    simpl in Hf2, Hc. rewrite Hf2 in *.
    eexists i, [_; _]. eexists. simpl. rewrite Vph, Vt, Hrec, Hvcs, Hpc, Hpl, Hpa.
    rewrite <- app_assoc.
    split_and!; [exact Hi|reflexivity|reflexivity| |].
    + simpl. apply Hdur. reflexivity.
    + right. right. exists c. rewrite ?Hf2.
      split_and!; [exact Hc|reflexivity|subst o; lia|reflexivity].
Qed.
End FailedTiming.

Lemma failed_round_timing_witness :
  wf crashing_late_world /\
  exists r w',
    runConsensus default_config always_quarter "0x01" JSNull crashing_late_world
      = (Ret r, w') /\
    getProp "error" r = JSStr "Insufficient prepare messages: 2/3" /\
    timers w' = 3%nat.
Proof.
  assert (Hw : wf crashing_late_world) by (unfold wf; simpl; repeat split; lia).
  split; [exact Hw|].
  assert (E : runConsensus default_config always_quarter "0x01" JSNull crashing_late_world =
              (Ret (failureResult 1 1 "Insufficient prepare messages: 2/3" 3506),
               snd (runConsensus default_config always_quarter "0x01" JSNull
                      crashing_late_world))) by (vm_compute; reflexivity).
  destruct (failed_round_timing default_config always_quarter "0x01" JSNull
              crashing_late_world _ _ Hw E eq_refl)
    as (i & ps & rec & Hi & _ & _ & _ & H).
  eexists _, _. split; [exact E|]. split; [reflexivity|].
  assert (i = 0%nat) as -> by (vm_compute in Hi; congruence).
  cbv zeta in H.
  destruct H as [(He & _)|[(c & _ & _ & Ht & _)|(c & _ & He & _)]].
  - discriminate He.
  - exact Ht.
  - exfalso. simpl in He. injection He as He. discriminate He.
Defined.

(** * The log of consensus states *)

Section ConsensusLog.
Variable cfg : Config.
Variable random : nat -> Q.

Lemma keeps_consensusState_tryBlock txHash :
  keeps (fun w => consensusState (measurements w)) (tryBlock cfg random txHash).
Proof. engine_unfold. keeps_with keep_tac. Qed.

(** A view change logs one entry, after the flag was cleared. *)
Lemma initiateViewChange_log reason w :
  wf w ->
  exists vc,
    consensusState (measurements (snd (initiateViewChange cfg random reason w))) =
      consensusState (measurements w) ++ [vc] /\
    ConsensusState.eventType vc = "view_change" /\
    ConsensusState.result vc = None /\
    ConsensusState.view vc = currentView (this w) + 1 /\
    ConsensusState.viewChangeInProgress vc = false.
Proof.
  intros (Hn & Hv & Hflag).
  destruct (viewChangeLoop_returns cfg random (enterViewChange w)) as (cnt & w1 & E).
  pose proof (keeps_eq _ _ _ _ _ (keeps_viewState_viewChangeLoop cfg random) E) as Hvs.
  pose proof (keeps_eq _ _ _ _ _ (keeps_measurements_viewChangeLoop cfg random) E) as Hms.
  unfold viewState in Hvs. simpl in Hvs, Hms.
  injection Hvs as Hv1 Hf1 Hb1 Hfl1 Hl1 Hn1. unfold clock in Hms. simpl in Hms.
  injection Hms as Hm1 Hnow1 Ht1 Hl8.
  destruct (primaryAddress_returns (set_this (set_viewChangeInProgress true (this w)) w))
    as (p0 & _ & Ep0); [exact Hn|exact Hv|].
  destruct (primaryAddress_returns (wake (VIEW_CHANGE_TIMEOUT cfg) w1))
    as (p & Hp & Ep); [simpl; lia|simpl; lia|].
  unfold initiateViewChange.
  rewrite (bind_Ret _ _ w false w) by (unfold gets; rewrite Hflag; reflexivity).
  erewrite bind_Ret by reflexivity.
  erewrite bind_Ret by reflexivity.
  erewrite bind_Ret by exact Ep0.
  erewrite bind_Ret by reflexivity.
  erewrite bind_Ret by reflexivity.
  erewrite bind_Ret by exact E.
  erewrite bind_Ret by reflexivity.
  erewrite bind_Ret by exact Ep.
  erewrite bind_Ret by reflexivity.
  erewrite bind_Ret by reflexivity.
  erewrite bind_Ret by reflexivity.
  erewrite bind_Ret by reflexivity.
  erewrite bind_Ret by reflexivity.
  erewrite bind_Ret by reflexivity.
  eexists. simpl. rewrite Hm1. split; [reflexivity|]. simpl.
  split_and!; try reflexivity. exact Hv1.
Qed.

(** X19. Every result a round returns is also logged: the last entry
    the round appends to the log of consensus states is of type
    consensus_complete, holds the returned result, the height of the round
    and the view the result reports, with one snapshot per validator; a
    committed round appends nothing else, a failed round appends before it
    the view_change entry of its view change. *)
Theorem round_result_logged txHash receipt w r w' :
  wf w ->
  runConsensus cfg random txHash receipt w = (Ret r, w') ->
  exists before e,
    consensusState (measurements w') =
      consensusState (measurements w) ++ before ++ [e] /\
    ConsensusState.eventType e = "consensus_complete" /\
    ConsensusState.result e = Some r /\
    ConsensusState.blockHeight e = blockHeight (this w) + 1 /\
    JSNum (ConsensusState.view e) = getProp "view" r /\
    length (ConsensusState.validatorStates e) = length (validators (this w)) /\
    (getProp "success" r = JSBool true -> before = []) /\
    (getProp "success" r = JSBool false ->
       exists vc, before = [vc] /\
                  ConsensusState.eventType vc = "view_change" /\
                  ConsensusState.result vc = None /\
                  ConsensusState.view vc = ConsensusState.view e).
Proof.
  intros Hw E. pose proof Hw as (Hn & Hv & Hflag).
  destruct (runConsensus_outcome cfg random txHash receipt w Hw)
    as [(r0 & w3 & Et & Er)|(e & w1 & cnt & w2 & Et & Evc & Hvc & Er)];
    rewrite Er in E; injection E as <- <-;
    pose proof (keeps_eq _ _ _ _ _ (keeps_viewState_tryBlock cfg random txHash) Et) as V;
    pose proof (keeps_eq _ _ _ _ _ (keeps_consensusState_tryBlock txHash) Et) as Hcs;
    unfold viewState in V; simpl in V, Hcs; injection V as Hv1 _ Hb1 Hfl1 _ Hn1.
  - destruct (tryBlock_outcome cfg random txHash (nextHeight w) Hn Hv)
      as [(e & wa & _ & E')|[(pp & wa & e & wb & _ & _ & E')
         |[(pp & wa & p & wb & e & wc & _ & _ & _ & E')
          |(pp & wa & p & wb & c & wc & prim & _ & _ & _ & _ & E')]]];
      rewrite Et in E'; try discriminate.
    injection E' as -> _.
    exists []. eexists. simpl. rewrite Hcs. split; [reflexivity|]. simpl.
    split_and!; try reflexivity; try congruence;
      try (rewrite length_fmap; exact Hn1); intros H; discriminate H.
  - assert (Hw1 : wf w1) by (repeat split; [lia|lia|congruence]).
    destruct (initiateViewChange_log e w1 Hw1) as (vc & Hlog & Hty & Hres & Hview & _).
    rewrite Evc in Hlog. simpl in Hlog.
    eexists [vc]. eexists. simpl. rewrite Hlog, Hcs.
    split; [rewrite <- app_assoc; reflexivity|]. simpl.
    split_and!; try reflexivity.
    + rewrite (vc_height _ _ _ _ _ Hvc). exact Hb1.
    + rewrite (vc_view _ _ _ _ _ Hvc), Hv1. reflexivity.
    + rewrite length_fmap, (vc_length _ _ _ _ _ Hvc). exact Hn1.
    + intros H. discriminate H.
    + intros _. exists vc. split_and!; auto.
      rewrite Hview, (vc_view _ _ _ _ _ Hvc). reflexivity.
Qed.
End ConsensusLog.

Lemma round_result_logged_witness :
  wf crashing_world /\
  exists r w' before e,
    runConsensus default_config always_quarter "0x01" JSNull crashing_world = (Ret r, w') /\
    consensusState (measurements w') =
      consensusState (measurements crashing_world) ++ before ++ [e] /\
    ConsensusState.result e = Some r /\
    length before = 1%nat.
Proof.
  assert (Hw : wf crashing_world) by (unfold wf; simpl; repeat split; lia).
  split; [exact Hw|].
  assert (E : runConsensus default_config always_quarter "0x01" JSNull crashing_world =
              (Ret (failureResult 1 1 "Insufficient prepare messages: 2/3" 3500),
               snd (runConsensus default_config always_quarter "0x01" JSNull
                      crashing_world))) by (vm_compute; reflexivity).
  destruct (round_result_logged default_config always_quarter "0x01" JSNull
              crashing_world _ _ Hw E)
    as (before & e & Hlog & _ & Hres & _ & _ & _ & _ & Hfail).
  destruct (Hfail eq_refl) as (vc & -> & _).
  eexists _, _, [vc], e. split_and!; [exact E|exact Hlog|exact Hres|reflexivity].
Defined.

(** * Registries without validators of kind crash *)

Lemma noCrashKind_lookup w i v :
  noCrashKind w -> validators (this w) !! i = Some v -> byzantineType v <> Some crash.
Proof.
  intros Hno Hv Hk. apply Hno. unfold kinds. rewrite <- Hk.
  apply list_elem_of_fmap. exists v. split; [reflexivity|].
  eapply list_elem_of_lookup_2. exact Hv.
Qed.

(** Events that describe a registry without validators of kind crash
    report no crash. *)
Lemma crashesIn_noCrashKind ph w evs :
  noCrashKind w -> Forall (describes w) evs -> crashesIn ph evs = 0.
Proof.
  intros Hno H. unfold crashesIn. induction H as [|e evs He _ IH]; [reflexivity|].
  cbn [List.filter]. destruct He as (_ & _ & _ & (i & v & Hv & _ & _ & _ & Hk)).
  pose proof (noCrashKind_lookup w i v Hno Hv) as Hne.
  unfold isCrashIn at 1. destruct (ByzantineEvent.failureType e);
    [congruence| |]; rewrite andb_false_r; exact IH.
Qed.

Section NoCrash.
Variable cfg : Config.
Variable random : nat -> Q.

Lemma keeps_kinds_runConsensus txHash receipt :
  keeps kinds (runConsensus cfg random txHash receipt).
Proof. engine_unfold. keeps_with keep_tac. Qed.

Lemma keeps_kinds_runPrePreparePhase : keeps kinds (runPrePreparePhase cfg random).
Proof. engine_unfold. keeps_with keep_tac. Qed.

Lemma keeps_kinds_runPreparePhase : keeps kinds (runPreparePhase cfg random).
Proof. engine_unfold. keeps_with keep_tac. Qed.

(** Without validators of kind crash the prepare (commit) phase counts
    every validator it consults. *)
Lemma runPreparePhase_noCrash w p o w' :
  noCrashKind w ->
  primaryIndex (this w) = Some p ->
  2 * f (this w) + 1 <= Z.of_nat (length (validators (this w))) - 1 ->
  runPreparePhase cfg random w = (o, w') ->
  o = Ret (elapsed (PREPARE_PHASE_TIME cfg) w).
Proof.
  intros Hno Hp Hq E.
  destruct (runPreparePhase_crashes cfg random _ _ _ _ Hp E)
    as (c & evs & He & _ & Hc & _ & Hge).
  pose proof (recorded_runPreparePhase cfg random w) as (_ & _ & evs' & He' & Hd & _).
  rewrite E in He'. simpl in He'. rewrite He in He'. apply app_inv_head in He'. subst evs'.
  rewrite (crashesIn_noCrashKind _ _ _ Hno Hd) in Hc. apply Hge. lia.
Qed.

Lemma runCommitPhase_noCrash w o w' :
  noCrashKind w ->
  2 * f (this w) + 1 <= Z.of_nat (length (validators (this w))) ->
  runCommitPhase cfg random w = (o, w') ->
  o = Ret (elapsed (COMMIT_PHASE_TIME cfg) w).
Proof.
  intros Hno Hq E.
  destruct (runCommitPhase_crashes cfg random _ _ _ E)
    as (c & evs & He & _ & Hc & _ & Hge).
  pose proof (recorded_runCommitPhase cfg random w) as (_ & _ & evs' & He' & Hd & _).
  rewrite E in He'. simpl in He'. rewrite He in He'. apply app_inv_head in He'. subst evs'.
  rewrite (crashesIn_noCrashKind _ _ _ Hno Hd) in Hc. apply Hge. lia.
Qed.

Lemma runConsensus_noCrash txHash receipt w :
  replicated w /\ noCrashKind w ->
  exists r w',
    runConsensus cfg random txHash receipt w = (Ret r, w') /\
    (replicated w' /\ noCrashKind w') /\
    currentView (this w') = currentView (this w) /\
    getProp "success" r = JSBool true.
Proof.
  intros ((Hw & Hn2 & Hf) & Hno). pose proof Hw as (Hn & Hv & Hflag).
  pose proof (wf_runConsensus cfg random txHash receipt w Hw) as Hw'.
  pose proof (keeps_profile_runConsensus cfg random txHash receipt w) as Hprof.
  pose proof (keeps_kinds_runConsensus txHash receipt w) as Hk.
  simpl in Hprof, Hk. injection Hprof as Hf' Hprof.
  apply (f_equal length) in Hprof. rewrite !length_fmap in Hprof.
  assert (Hq : 2 * f (this w) + 1 <= Z.of_nat (length (validators (this w))) - 1).
  { rewrite Hf.
    pose proof (Z.div_mod (Z.of_nat (length (validators (this w))) - 1) 3).
    pose proof (Z.mod_pos_bound (Z.of_nat (length (validators (this w))) - 1) 3).
    lia. }
  destruct (getPrimary_is_Some (this w) Hn Hv) as (i & pv & Hi & Hpv & _).
  assert (Hno0 : noCrashKind (nextHeight w)) by exact Hno.
  destruct (tryBlock_outcome cfg random txHash (nextHeight w) Hn Hv)
    as [(e & wa & E1 & E)|[(pp & wa & e & wb & E1 & E2 & E)
       |[(pp & wa & p & wb & e & wc & E1 & E2 & E3 & E)
        |(pp & wa & p & wb & c & wc & prim & E1 & E2 & E3 & Hprim & E)]]].
  - exfalso.
    destruct (runPrePreparePhase_throws cfg random (nextHeight w) i _ _ Hi E1)
      as (_ & _ & _ & Hx).
    destruct (exhibits_Some cfg random _ _ _ Hx) as (v & Hv' & _ & Hkind & _).
    exact (noCrashKind_lookup _ _ _ Hno0 Hv' Hkind).
  - exfalso.
    pose proof (keeps_eq _ _ _ _ _ (keeps_viewState_runPrePreparePhase cfg random) E1) as V1.
    pose proof (keeps_eq _ _ _ _ _ keeps_kinds_runPrePreparePhase E1) as K1.
    assert (Hi1 : primaryIndex (this wa) = Some i).
    { rewrite <- Hi. rewrite (primaryIndex_viewState _ _ V1). reflexivity. }
    unfold viewState in V1. simpl in V1. injection V1 as _ Hf1 _ _ _ Hn1.
    assert (Hno1 : noCrashKind wa) by (unfold noCrashKind; rewrite K1; exact Hno).
    assert (H : Throw e = Ret (elapsed (PREPARE_PHASE_TIME cfg) wa)).
    { apply (runPreparePhase_noCrash wa i _ wb Hno1 Hi1); [rewrite Hf1, Hn1; lia|exact E2]. }
    discriminate H.
  - exfalso.
    pose proof (keeps_eq _ _ _ _ _ (keeps_viewState_runPrePreparePhase cfg random) E1) as V1.
    pose proof (keeps_eq _ _ _ _ _ (keeps_viewState_runPreparePhase cfg random) E2) as V2.
    pose proof (keeps_eq _ _ _ _ _ keeps_kinds_runPrePreparePhase E1) as K1.
    pose proof (keeps_eq _ _ _ _ _ keeps_kinds_runPreparePhase E2) as K2.
    assert (V : viewState wb = viewState (nextHeight w)) by congruence.
    unfold viewState in V. simpl in V. injection V as _ Hf2 _ _ _ Hn2'.
    assert (Hno2 : noCrashKind wb) by (unfold noCrashKind; rewrite K2, K1; exact Hno).
    assert (H : Throw e = Ret (elapsed (COMMIT_PHASE_TIME cfg) wb)).
    { apply (runCommitPhase_noCrash wb _ wc Hno2); [rewrite Hf2, Hn2'; lia|exact E3]. }
    discriminate H.
  - destruct (runConsensus_outcome cfg random txHash receipt w Hw)
      as [(r & wr & Et & Er)|(e & wr & cnt & ws & Et & _)];
      rewrite E in Et; [|discriminate].
    injection Et as <- <-. rewrite Er in Hw', Hprof, Hf', Hk.
    pose proof (keeps_eq _ _ _ _ _ (keeps_viewState_tryBlock cfg random txHash) E) as V.
    unfold viewState in V. simpl in V. injection V as Hv3 _ _ _ _ _.
    eexists _, _. split; [exact Er|]. simpl in *.
    split_and!; auto.
    + unfold replicated. simpl. split_and!; [exact Hw'|lia|rewrite Hf', Hprof; exact Hf].
    + unfold noCrashKind. rewrite Hk. exact Hno.
Qed.

(** X20. Only crashes fail rounds.  Over a registry in which no
    validator is of kind crash (at least two validators, [f] as the
    constructor computes it), every round of a run commits, whatever the
    malicious and delayed validators do and however often they fail; the
    view, and with it the primary, never changes. *)
Theorem only_crashes_fail_rounds txs w :
  replicated w ->
  noCrashKind w ->
  exists rs w',
    runRounds cfg random txs w = (Ret rs, w') /\
    length rs = length txs /\
    currentView (this w') = currentView (this w) /\
    Forall (fun r => getProp "success" r = JSBool true) rs.
Proof.
  intros Hw Hno.
  destruct (runRounds_ind cfg random (fun w => replicated w /\ noCrashKind w)
              (fun w w' => currentView (this w') = currentView (this w))
              (fun r => getProp "success" r = JSBool true)
              (keeps_preorder (fun w => currentView (this w))))
    with (txs := txs) (w := w) as (rs & w' & E & Hlen & _ & Hv & HQ).
  - exact runConsensus_noCrash.
  - split; assumption.
  - exists rs, w'. split_and!; assumption.
Qed.
End NoCrash.

Lemma only_crashes_fail_rounds_witness :
  replicated malicious_world /\ noCrashKind malicious_world /\
  totalFailures
    (snd (runRounds default_config malicious_random
            [("0x01", JSNull); ("0x02", JSNull)] malicious_world)) = 4 /\
  exists rs w',
    runRounds default_config malicious_random [("0x01", JSNull); ("0x02", JSNull)]
      malicious_world = (Ret rs, w') /\
    length rs = 2%nat /\
    Forall (fun r => getProp "success" r = JSBool true) rs.
Proof.
  assert (Hw : replicated malicious_world).
  { unfold replicated, wf. simpl. repeat split; lia. }
  assert (Hno : noCrashKind malicious_world).
  { unfold noCrashKind. intros H. apply list_elem_of_In in H. vm_compute in H.
    intuition discriminate. }
  split_and!; [exact Hw|exact Hno|vm_compute; reflexivity|].
  destruct (only_crashes_fail_rounds default_config malicious_random
              [("0x01", JSNull); ("0x02", JSNull)] malicious_world Hw Hno)
    as (rs & w' & E & Hlen & _ & HQ).
  exists rs, w'. split_and!; [exact E|exact Hlen|exact HQ].
Defined.

(** * The proposal counter *)

Section Proposals.
Variable cfg : Config.
Variable random : nat -> Q.

Lemma keeps_proposals_runPreparePhase : keeps proposals (runPreparePhase cfg random).
Proof. engine_unfold. keeps_with keep_tac. Qed.

Lemma keeps_proposals_runCommitPhase : keeps proposals (runCommitPhase cfg random).
Proof. engine_unfold. keeps_with keep_tac. Qed.

Lemma proposals_counters w w' :
  phaseCounters <$> validators (this w') = phaseCounters <$> validators (this w) ->
  proposals w' = proposals w.
Proof.
  intros H. unfold proposals.
  apply (f_equal (fmap (fun x : Z * Z * Z * Z * Z => snd x))) in H.
  rewrite <- !list_fmap_compose in H. exact H.
Qed.

Lemma proposals_recordProposal i t (vs : list PBFTValidator) :
  blocksProposed <$> alter (recordProposal t) i vs =
  alter (Z.add 1) i (blocksProposed <$> vs).
Proof.
  apply list_fmap_alter. apply Forall_forall. intros x _.
  unfold recordProposal. simpl. lia.
Qed.

Lemma proposals_failures i (vs : list PBFTValidator) :
  blocksProposed <$> alter (fun v => set_failures (failures v + 1) v) i vs =
  blocksProposed <$> vs.
Proof. apply fmap_alter_keep. intros []. reflexivity. Qed.

(** The pre-prepare phase of a primary that does not crash counts one
    proposal, for the primary. *)
Lemma runPrePreparePhase_proposal w i o w0 :
  primaryIndex (this w) = Some i ->
  exhibitsByzantineFailure cfg random i w = (o, w0) ->
  o <> Ret (Some crash) ->
  proposals (snd (runPrePreparePhase cfg random w)) =
    alter (Z.add 1) i (proposals w).
Proof.
  intros Hp E Ho. pose proof (primaryIndex_lt _ _ Hp) as Hlt.
  destruct (lookup_lt_is_Some_2 (validators (this w)) i Hlt) as [v Hv].
  unfold runPrePreparePhase.
  erewrite bind_Ret by reflexivity.
  erewrite bind_Ret by (rewrite Hp; reflexivity).
  assert (Hcall : forall w2 : World,
            length (validators (this w2)) = length (validators (this w)) ->
            callOn i recordProposal w2 = (Ret tt, updateValidator i (recordProposal (now w2)) w2)).
  { intros w2 H2. unfold callOn.
    destruct (lookup_lt_is_Some_2 (validators (this w2)) i) as [v2 Hv2]; [lia|].
    rewrite Hv2. reflexivity. }
  assert (Hrest : forall (w2 : World),
            length (validators (this w2)) = length (validators (this w)) ->
            proposals w2 = proposals w ->
            proposals
              (snd ((callOn i recordProposal;;
                     messagesSent <- gets (fun w => Z.of_nat (length (validators (this w))));;
                     recordNetworkMessages "pre-prepare" messagesSent 1024;;
                     sleep (PRE_PREPARE_PHASE_TIME cfg);;
                     t <- Date_now;;
                     (let phaseDuration := t - now w in
                      recordPhaseCompletion "pre-prepare" phaseDuration messagesSent None 0;;
                      ret phaseDuration)) w2)) =
            alter (Z.add 1) i (proposals w)).
  { intros w2 Hl2 Hp2.
    erewrite bind_Ret by (apply Hcall; exact Hl2).
    erewrite bind_Ret by reflexivity.
    erewrite bind_Ret by reflexivity.
    erewrite bind_Ret by reflexivity.
    erewrite bind_Ret by reflexivity.
    erewrite bind_Ret by reflexivity.
    unfold ret, proposals in *. simpl. rewrite proposals_recordProposal, Hp2.
    reflexivity. }
  destruct o as [[[| |]|]|e]; [congruence| | | |].
  - destruct (exhibits_Some cfg random i w malicious) as (v' & Hv' & _ & _ & E');
      [rewrite E; reflexivity|].
    erewrite bind_Ret by exact E'.
    erewrite bind_Ret.
    2: { erewrite bind_Ret; [reflexivity|].
         unfold recordByzantineEvent, updateValidator. simpl.
         rewrite list_lookup_alter_eq, Hv. reflexivity. }
    apply Hrest.
    + simpl. rewrite length_alter. reflexivity.
    + unfold proposals. simpl. apply proposals_failures.
  - destruct (exhibits_Some cfg random i w delayed) as (v' & Hv' & _ & _ & E');
      [rewrite E; reflexivity|].
    erewrite bind_Ret by exact E'.
    erewrite bind_Ret.
    2: { erewrite bind_Ret; [reflexivity|].
         unfold recordByzantineEvent, updateValidator. simpl.
         rewrite list_lookup_alter_eq, Hv. reflexivity. }
    apply Hrest.
    + simpl. rewrite length_alter. reflexivity.
    + unfold proposals. simpl. apply proposals_failures.
  - erewrite bind_Ret by exact E.
    erewrite bind_Ret by reflexivity.
    unfold exhibitsByzantineFailure in E. rewrite Hv in E.
    apply Hrest; repeat case_match; simplify_eq/=; unfold proposals; simpl;
      rewrite ?length_alter, ?proposals_failures; reflexivity.
  - exfalso. unfold exhibitsByzantineFailure in E. rewrite Hv in E.
    repeat case_match; discriminate.
Qed.

(** X21. A proposal is credited once, to the primary: in a round whose
    primary does not crash in pre-prepare, the [blocksProposed] counter of
    the primary of the round's view goes up by exactly one and no other
    validator's counter changes, whether the round then commits or fails. *)
Theorem proposal_credited_to_primary txHash receipt w i :
  wf w ->
  primaryIndex (this w) = Some i ->
  fst (exhibitsByzantineFailure cfg random i w) <> Ret (Some crash) ->
  proposals (snd (runConsensus cfg random txHash receipt w)) =
    alter (Z.add 1) i (proposals w).
Proof.
  intros Hw Hi Ho. pose proof Hw as (Hn & Hv & Hflag).
  rewrite <- exhibits_nextHeight in Ho.
  destruct (exhibitsByzantineFailure cfg random i (nextHeight w)) as [o w0] eqn:Eo.
  pose proof (runPrePreparePhase_proposal (nextHeight w) i o w0 Hi Eo Ho) as Hprop.
  change (proposals (nextHeight w)) with (proposals w) in Hprop.
  destruct (runPrePreparePhase_done cfg random (nextHeight w) i o w0 Hi Eo Ho)
    as (wa' & E1 & _).
  rewrite E1 in Hprop. simpl in Hprop.
  assert (Htry : proposals (snd (tryBlock cfg random txHash (nextHeight w))) =
                 alter (Z.add 1) i (proposals w)).
  { destruct (tryBlock_outcome cfg random txHash (nextHeight w) Hn Hv)
      as [(e & wa & E1' & E)|[(pp & wa & e & wb & E1' & E2 & E)
         |[(pp & wa & p & wb & e & wc & E1' & E2 & E3 & E)
          |(pp & wa & p & wb & c & wc & prim & E1' & E2 & E3 & _ & E)]]];
      rewrite E1 in E1'; try discriminate; injection E1' as <- <-; rewrite E; simpl.
    - rewrite (keeps_eq _ _ _ _ _ keeps_proposals_runPreparePhase E2). exact Hprop.
    - rewrite (keeps_eq _ _ _ _ _ keeps_proposals_runCommitPhase E3).
      rewrite (keeps_eq _ _ _ _ _ keeps_proposals_runPreparePhase E2). exact Hprop.
    - rewrite (keeps_eq _ _ _ _ _ keeps_proposals_runCommitPhase E3).
      rewrite (keeps_eq _ _ _ _ _ keeps_proposals_runPreparePhase E2). exact Hprop. }
  destruct (runConsensus_outcome cfg random txHash receipt w Hw)
    as [(r & w3 & Et & Er)|(e & w1 & cnt & w2 & Et & _ & Hvc & Er)];
    rewrite Er; rewrite Et in Htry; simpl in *.
  - exact Htry.
  - change (proposals w2 = alter (Z.add 1) i (proposals w)).
    rewrite (proposals_counters _ _ (vc_counters _ _ _ _ _ Hvc)). exact Htry.
Qed.
End Proposals.

Lemma proposal_credited_to_primary_witness :
  wf delaying_world /\
  primaryIndex (this delaying_world) = Some 0%nat /\
  proposals (snd (runConsensus default_config delaying_random "0x01" JSNull
                    delaying_world)) = [1; 0; 0; 0].
Proof.
  assert (Hw : wf delaying_world) by (unfold wf; simpl; repeat split; lia).
  split; [exact Hw|]. split; [reflexivity|].
  apply (proposal_credited_to_primary default_config delaying_random "0x01" JSNull
           delaying_world 0%nat Hw eq_refl).
  vm_compute. discriminate.
Defined.

(** * The network overhead of the report *)

Section Overhead.
Variable cfg : Config.
Variable random : nat -> Q.

(** Without validators of kind crash, the prepare loop counts all
    validators but the primary and the commit loop counts them all. *)
Lemma prepareLoop_noCrash w p c b w1 :
  noCrashKind w ->
  primaryIndex (this w) = Some p ->
  prepareLoop cfg random w = (Ret (c, b), w1) ->
  c = Z.of_nat (length (validators (this w))) - 1.
Proof.
  intros Hno Hp El.
  destruct (prepareLoop_count cfg random _ _ _ _ _ Hp El) as (evs & He & _ & Hc & _).
  destruct (runPreparePhase_spec cfg random _ _ _ _ El) as [Hlt Hge].
  pose proof (recorded_runPreparePhase cfg random w) as (_ & _ & evs' & He' & Hd & _).
  assert (Hev : events (snd (runPreparePhase cfg random w)) = events w1).
  { destruct (Z.lt_ge_cases c (2 * f (this w) + 1)) as [H|H].
    - rewrite (Hlt H). reflexivity.
    - destruct (Hge H) as (w' & E' & Hx & _). rewrite E'. exact Hx. }
  rewrite Hev, He in He'. apply app_inv_head in He'. subst evs'.
  rewrite (crashesIn_noCrashKind _ _ _ Hno Hd) in Hc. lia.
Qed.

Lemma commitLoop_noCrash w c b w1 :
  noCrashKind w ->
  commitLoop cfg random w = (Ret (c, b), w1) ->
  c = Z.of_nat (length (validators (this w))).
Proof.
  intros Hno El.
  destruct (commitLoop_count cfg random _ _ _ _ El) as (evs & He & _ & Hc).
  destruct (runCommitPhase_spec cfg random _ _ _ _ El) as [Hlt Hge].
  pose proof (recorded_runCommitPhase cfg random w) as (_ & _ & evs' & He' & Hd & _).
  assert (Hev : events (snd (runCommitPhase cfg random w)) = events w1).
  { destruct (Z.lt_ge_cases c (2 * f (this w) + 1)) as [H|H].
    - rewrite (Hlt H). reflexivity.
    - destruct (Hge H) as (w' & E' & Hx & _). rewrite E'. exact Hx. }
  rewrite Hev, He in He'. apply app_inv_head in He'. subst evs'.
  rewrite (crashesIn_noCrashKind _ _ _ Hno Hd) in Hc. lia.
Qed.

(** The three messages a round without crashes appends, as the report
    accumulates them. *)
Lemma runConsensus_overhead txHash receipt w x y z :
  replicated w -> noCrashKind w ->
  messageMetrics (networkMessages (measurements w)) = (x, y, z) ->
  messageMetrics
    (networkMessages (measurements (snd (runConsensus cfg random txHash receipt w)))) =
    (x + roundMessages (Z.of_nat (length (validators (this w)))),
     y + roundBytes (Z.of_nat (length (validators (this w)))),
     z + 3).
Proof.
  intros Hrep Hno Hm. pose proof Hrep as (Hw & _ & _). pose proof Hw as (Hn & Hv & Hflag).
  destruct (runConsensus_noCrash cfg random txHash receipt w (conj Hrep Hno))
    as (r & w' & E & _ & _ & Hs).
  destruct (runConsensus_outcome cfg random txHash receipt w Hw)
    as [(r0 & w3 & Et & Er)|(e & w1 & cnt & w2 & _ & _ & _ & Er)];
    rewrite Er in E; injection E as <- <-; [|discriminate Hs].
  rewrite Er. simpl.
  destruct (tryBlock_outcome cfg random txHash (nextHeight w) Hn Hv)
    as [(e & wa & _ & E')|[(pp & wa & e & wb & _ & _ & E')
       |[(pp & wa & p & wb & e & wc & _ & _ & _ & E')
        |(pp & wa & p & wb & c & wc & prim & E1 & E2 & E3 & _ & E')]]];
    rewrite Et in E'; try discriminate.
  injection E' as _ <-.
  destruct (getPrimary_is_Some (this w) Hn Hv) as (i & _ & Hi & _).
  destruct (runPrePreparePhase_returns_done cfg random (nextHeight w) i _ _ Hi E1)
    as (wa' & _ & -> & _ & Hlogs & Va).
  pose proof (keeps_eq _ _ _ _ _ (keeps_viewState_runPrePreparePhase cfg random) E1) as V1.
  pose proof (keeps_eq _ _ _ _ _ (keeps_kinds_runPrePreparePhase cfg random) E1) as K1.
  assert (Hi1 : primaryIndex (this (prePrepareDone cfg pp wa')) = Some i).
  { rewrite <- Hi. rewrite (primaryIndex_viewState _ _ V1). reflexivity. }
  assert (Hno1 : noCrashKind (prePrepareDone cfg pp wa'))
    by (unfold noCrashKind; rewrite K1; exact Hno).
  destruct (runPreparePhase_returns_done cfg random _ _ _ E2)
    as (c2 & b2 & wl2 & El2 & _ & -> & ->).
  pose proof (prepareLoop_noCrash _ _ _ _ _ Hno1 Hi1 El2) as Hc2.
  pose proof (keeps_eq _ _ _ _ _ (keeps_phaseLogs_prepareLoop cfg random) El2) as L2.
  pose proof (keeps_eq _ _ _ _ _ (keeps_viewState_runPreparePhase cfg random) E2) as V2.
  pose proof (keeps_eq _ _ _ _ _ (keeps_kinds_runPreparePhase cfg random) E2) as K2.
  assert (Hno2 : noCrashKind
                   (phaseDone "prepare" (PREPARE_PHASE_TIME cfg)
                      (c2 * Z.of_nat (length (validators (this (prePrepareDone cfg pp wa')))))
                      512 (Some c2) b2 wl2))
    by (unfold noCrashKind; rewrite K2; exact Hno1).
  destruct (runCommitPhase_returns_done cfg random _ _ _ E3)
    as (c3 & b3 & wl3 & El3 & _ & -> & ->).
  pose proof (commitLoop_noCrash _ _ _ _ Hno2 El3) as Hc3.
  pose proof (keeps_eq _ _ _ _ _ (keeps_phaseLogs_commitLoop cfg random) El3) as L3.
  unfold viewState in V1, V2, Va. simpl in V1, V2, Va.
  injection V1 as _ _ _ _ _ Hn1. injection V2 as _ _ _ _ _ Hn2.
  unfold phaseLogs in Hlogs, L2, L3. simpl in Hlogs, L2, L3.
  injection Hlogs as Hnm0 _. injection L2 as Hnm2 _. injection L3 as Hnm3 _.
  simpl in Hc2, Hc3. simpl.
  rewrite Hnm3. simpl. rewrite Hnm2. simpl. rewrite Hnm0.
  unfold messageMetrics in *. rewrite !fold_left_app, Hm. simpl.
  rewrite Hc2, Hc3, Hn2, Hn1. unfold roundMessages, roundBytes.
  f_equal; [f_equal|]; lia.
Qed.

Lemma runRounds_overhead txs : forall w x y z,
  replicated w -> noCrashKind w ->
  messageMetrics (networkMessages (measurements w)) = (x, y, z) ->
  exists rs w',
    runRounds cfg random txs w = (Ret rs, w') /\
    messageMetrics (networkMessages (measurements w')) =
      (x + Z.of_nat (length txs) * roundMessages (Z.of_nat (length (validators (this w)))),
       y + Z.of_nat (length txs) * roundBytes (Z.of_nat (length (validators (this w)))),
       z + 3 * Z.of_nat (length txs)).
Proof.
  induction txs as [|[txHash receipt] txs IH]; intros w x y z Hrep Hno Hm.
  - exists [], w. split; [reflexivity|]. rewrite Hm. simpl.
    f_equal; [f_equal|]; lia.
  - destruct (runConsensus_noCrash cfg random txHash receipt w (conj Hrep Hno))
      as (r & w1 & E1 & (Hrep1 & Hno1) & _ & _).
    pose proof (runConsensus_overhead txHash receipt w x y z Hrep Hno Hm) as Hm1.
    pose proof (keeps_profile_runConsensus cfg random txHash receipt w) as Hprof.
    rewrite E1 in Hm1, Hprof. simpl in Hm1, Hprof. injection Hprof as _ Hprof.
    apply (f_equal length) in Hprof. rewrite !length_fmap in Hprof.
    destruct (IH w1 _ _ _ Hrep1 Hno1 Hm1) as (rs & w' & E2 & Hm').
    exists (r :: rs), w'. cbn [runRounds].
    rewrite (bind_Ret _ _ _ _ _ E1), (bind_Ret _ _ _ _ _ E2).
    split; [reflexivity|]. rewrite Hm', Hprof. cbn [length].
    f_equal; [f_equal|]; lia.
Qed.

(** X22. The network overhead of the report after a run without
    crashes.  Over a registry of [N >= 2] validators none of which is of
    kind crash, started with an empty message log, every round records three
    messages entries, and the report divides by the number of entries, not
    of rounds: messagesPerConsensus is a third of the [N + (N-1)N + N*N]
    messages of a round, and bytesPerConsensus a third of its bytes.  For
    the four validators of the script: 32/3 messages and 6144 bytes. *)
Theorem report_network_overhead txs w NUM_VALIDATORS transactions finalityTimes
    maxTolerableFailures :
  replicated w ->
  noCrashKind w ->
  networkMessages (measurements w) = [] ->
  txs <> [] ->
  exists rs w',
    runRounds cfg random txs w = (Ret rs, w') /\
    let report := generatePBFTReport cfg NUM_VALIDATORS transactions finalityTimes
                    maxTolerableFailures (measurements w') in
    let n := Z.of_nat (length (validators (this w))) in
    (Report.messagesPerConsensus report == inject_Z (roundMessages n) / inject_Z 3)%Q /\
    (Report.bytesPerConsensus report == inject_Z (roundBytes n) / inject_Z 3)%Q.
Proof.
  intros Hrep Hno Hnm Hne.
  destruct (runRounds_overhead txs w 0 0 0 Hrep Hno) as (rs & w' & E & Hm).
  { rewrite Hnm. reflexivity. }
  exists rs, w'. split; [exact E|]. cbv zeta. unfold generatePBFTReport.
  destruct (finalityLoop finalityTimes) as [[tot mn] mx].
  rewrite Hm. cbn [Report.messagesPerConsensus Report.bytesPerConsensus].
  assert (Hk : 0 < Z.of_nat (length txs)) by (destruct txs; [contradiction|simpl; lia]).
  set (k := Z.of_nat (length txs)) in *.
  assert (Hdiv : forall a, (average (0 + k * a) (0 + 3 * k) == inject_Z a / inject_Z 3)%Q).
  { intros a. unfold average. destruct (Z.ltb_spec 0 (0 + 3 * k)); [|lia].
    rewrite !Z.add_0_l, !inject_Z_mult. field.
    intros H0. unfold Qeq in H0. simpl in H0. lia. }
  split; apply Hdiv.
Qed.
End Overhead.

Lemma report_network_overhead_witness :
  replicated malicious_world /\ noCrashKind malicious_world /\
  exists rs w',
    runRounds default_config malicious_random [("0x01", JSNull); ("0x02", JSNull)]
      malicious_world = (Ret rs, w') /\
    Qeq (Report.messagesPerConsensus
           (generatePBFTReport default_config 4 2 [] (Some 1) (measurements w')))
        (32 # 3) /\
    Qeq (Report.bytesPerConsensus
           (generatePBFTReport default_config 4 2 [] (Some 1) (measurements w')))
        (inject_Z 6144).
Proof.
  assert (Hw : replicated malicious_world).
  { unfold replicated, wf. simpl. repeat split; lia. }
  assert (Hno : noCrashKind malicious_world).
  { unfold noCrashKind. intros H. apply list_elem_of_In in H. vm_compute in H.
    intuition discriminate. }
  split_and!; [exact Hw|exact Hno|].
  destruct (report_network_overhead default_config malicious_random
              [("0x01", JSNull); ("0x02", JSNull)] malicious_world 4 2 [] (Some 1)
              Hw Hno eq_refl ltac:(discriminate))
    as (rs & w' & E & Hmsg & Hbytes).
  exists rs, w'. split; [exact E|]. split.
  - rewrite Hmsg. vm_compute. reflexivity.
  - rewrite Hbytes. vm_compute. reflexivity.
Defined.
